(** * OBStools: [Scripts/atacr_download_data.py]

    A shallow embedding of the day-long data download script and the
    properties of its orchestration loop: the search range of a station,
    the 24-hour day cursor, the pre-existence check, the fetches issued to
    the data-center client, the length validation and the files written.

    Conventions of the embedding.
    - A [UTCDateTime] is its POSIX timestamp in whole seconds, a [Z];
      adding the float [dt = 3600.*24.] adds [86400].
    - The sampling rates, which the script multiplies, are binary64
      floats with the IEEE arithmetic of Python's [float]; floats that only
      carry values (corner frequencies, coordinates, samples) are
      rationals [Q].
    - The station database, the file system and the sequence of calls made
      to the outside world (client construction, waveform requests, file
      writes) are an explicit [State] threaded through the program.
    - The data-center client and the signal-processing methods of ObsPy are
      oracles collected in [Env]; an oracle answering [None] raises.
    - [print] calls are not modelled, except the per-day banner, which is
      logged as [EDay] with the cursor it is printed for. *)

From Stdlib Require Import PrimFloat SpecFloat FloatOps.
From Stdlib Require Import ZArith List String Ascii Bool QArith Lia.
From Stdlib Require Import DecimalString.
Import ListNotations.

Local Open Scope string_scope.
Local Open Scope Z_scope.

(** ** Python strings *)

Module PyStr.

(** [str(n)] for an [int]. *)
Definition str (n : Z) : string := NilZero.string_of_int (Z.to_int n).

Fixpoint zeros (n : nat) : string :=
  match n with
  | O => EmptyString
  | S k => String "0" (zeros k)
  end.

(** [s.zfill(width)]: pad with zeros on the left, after a leading sign. *)
Definition zfill (width : nat) (s : string) : string :=
  let pad := zeros (width - String.length s)%nat in
  match s with
  | String c rest =>
      if (Ascii.eqb c "+" || Ascii.eqb c "-")%bool
      then String c (pad ++ rest)
      else pad ++ s
  | EmptyString => pad
  end.

Definition upper_ascii (c : ascii) : ascii :=
  let n := nat_of_ascii c in
  if ((97 <=? n) && (n <=? 122))%nat then ascii_of_nat (n - 32)%nat else c.

(** [s.upper()] on ASCII text. *)
Fixpoint upper (s : string) : string :=
  match s with
  | EmptyString => EmptyString
  | String c rest => String (upper_ascii c) (upper rest)
  end.

(** [sub in s] for two strings. *)
Fixpoint contains (sub s : string) : bool :=
  if String.prefix sub s then true
  else match s with
       | EmptyString => false
       | String _ rest => contains sub rest
       end.

(** [x in l] for a list of strings. *)
Definition mem (x : string) (l : list string) : bool :=
  existsb (String.eqb x) l.

(** [s[-1]], when [s] is not empty. *)
Fixpoint last_char (s : string) : option ascii :=
  match s with
  | EmptyString => None
  | String c EmptyString => Some c
  | String _ rest => last_char rest
  end.

End PyStr.

(** ** ObsPy's [UTCDateTime], as far as the script uses it *)

Module UTCDateTime.

(** Days since 1970-01-01 of a timestamp. *)
Definition days (t : Z) : Z := t / 86400.

(** Days since 1970-01-01 of the civil date [y]-[m]-[d] (proleptic
    Gregorian calendar). *)
Definition days_from_civil (y m d : Z) : Z :=
  let y' := if m <=? 2 then y - 1 else y in
  let era := y' / 400 in
  let yoe := y' - era * 400 in
  let mp := if m <=? 2 then m + 9 else m - 3 in
  let doy := (153 * mp + 2) / 5 + d - 1 in
  let doe := yoe * 365 + yoe / 4 - yoe / 100 + doy in
  era * 146097 + doe - 719468.

(** [t.year] *)
Definition year (t : Z) : Z :=
  let z := days t + 719468 in
  let era := z / 146097 in
  let doe := z - era * 146097 in
  let yoe := (doe - doe / 1460 + doe / 36524 - doe / 146096) / 365 in
  let doy := doe - (365 * yoe + yoe / 4 - yoe / 100) in
  let mp := (5 * doy + 2) / 153 in
  let m := if mp <? 10 then mp + 3 else mp - 9 in
  let y := yoe + era * 400 in
  if m <=? 2 then y + 1 else y.

(** [t.julday]: the day of the year, from 1. *)
Definition julday (t : Z) : Z :=
  days t - days_from_civil (year t) 1 1 + 1.

End UTCDateTime.

(** ** Data model *)

(** The SAC header fields set by [utils.update_stats]. *)
Record SacHeader := {
  stla : Q;
  stlo : Q;
  stel : Q;
  kcmpnm : string
}.

(** An ObsPy [Trace]: [tr.stats.channel], [tr.data],
    [tr.stats.sampling_rate] and [tr.stats.sac]. *)
Record Trace := {
  tr_channel : string;
  data : list Q;
  sampling_rate : float;
  sac : option SacHeader
}.

(** An ObsPy [Stream] is a list of traces. *)
Definition Stream := list Trace.

(** An entry of the station database ([StDb] element). *)
Record Station := {
  network : string;
  station : string;
  channel : string;
  location : list string;
  latitude : Q;
  longitude : Q;
  elevation : Q;
  startdate : Z;
  enddate : Z
}.

(** The options object returned by [options.get_daylong_options]. *)
Record Options := {
  stkeys : list string;
  channels : list string;
  ovr : bool;
  Server : string;
  UserAuth : list string;
  startT : option Z;
  endT : option Z;
  new_sampling_rate : float;
  pre_filt : list Q
}.

(** A [Client] as built by [Client(server, user=..., password=...)]. *)
Record Client := {
  cl_server : string;
  cl_user : option string;
  cl_password : option string
}.

(** The keyword arguments of one [client.get_waveforms] call. *)
Record Request := {
  rq_network : string;
  rq_station : string;
  rq_location : string;
  rq_channel : string;
  rq_starttime : Z;
  rq_endtime : Z;
  rq_attach_response : bool
}.

(** The outside world: the data center and ObsPy's signal processing.
    Each per-trace operation returns the new sample array, or [None] when
    it raises. *)
Record Env := {
  get_waveforms : Client -> Request -> option Stream;
  op_remove_response : list Q -> option string -> Trace -> option (list Q);
  op_detrend : string -> Trace -> option (list Q);
  op_filter : string -> float -> Z -> bool -> Trace -> option (list Q);
  op_resample : float -> Trace -> option (list Q)
}.

(** What the program does to the outside world, in order. *)
Inductive Event :=
| EMakedirs (path : string)
| EClient (c : Client)
| EDay (stkey : string) (t1 t2 : Z)
| EFetch (c : Client) (rq : Request)
| EWrite (path : string) (tr : Trace).

(** The mutable store: the station dictionary (insertion ordered), the
    directories and files on disk, and the log of events. *)
Record State := {
  db : list (string * Station);
  dirs : list string;
  files : list string;
  log : list Event
}.

Inductive exn :=
| IndexError
| KeyError
| NameError
| ValueError
| OverflowError
| ProcessingError.

(** The per-day states of the orchestration. *)
Inductive status :=
| SKIPPED_EXISTING
| FETCH_FAILED
| VALIDATION_FAILED
| WRITTEN.

(** ** A state and exception monad *)

Inductive Res (A : Type) :=
| Ok (a : A) (st : State)
| Raised (e : exn) (st : State)
| OutOfFuel.

Arguments Ok {A} a st.
Arguments Raised {A} e st.
Arguments OutOfFuel {A}.

Definition M (A : Type) := State -> Res A.

Definition ret {A} (a : A) : M A := fun st => Ok a st.

Definition raise {A} (e : exn) : M A := fun st => Raised e st.

Definition bind {A B} (m : M A) (f : A -> M B) : M B :=
  fun st =>
    match m st with
    | Ok a st' => f a st'
    | Raised e st' => Raised e st'
    | OutOfFuel => OutOfFuel
    end.

Notation "x <- m ;; k" := (bind m (fun x => k))
  (at level 61, m at next level, right associativity).
Notation "' pat <- m ;; k" := (bind m (fun x => let pat := x in k))
  (at level 61, pat pattern, m at next level, right associativity).

Definition emit (ev : Event) : M unit :=
  fun st => Ok tt {| db := db st; dirs := dirs st; files := files st;
                     log := (log st ++ [ev])%list |}.

(** [l[0]] *)
Definition item0 {A} (l : list A) : M A :=
  match l with
  | x :: _ => ret x
  | [] => raise IndexError
  end.

(** [l[1]] *)
Definition item1 {A} (l : list A) : M A :=
  match l with
  | _ :: x :: _ => ret x
  | _ => raise IndexError
  end.

(** ** The file system *)

(** [glob.glob(path)] is truthy: the path names an existing file.  Station
    keys and channel codes hold no glob metacharacters, so the pattern is
    matched literally. *)
Definition glob (path : string) : M bool :=
  fun st => Ok (PyStr.mem path (files st)) st.

Definition isdir (path : string) : M bool :=
  fun st => Ok (PyStr.mem path (dirs st)) st.

Definition makedirs (path : string) : M unit :=
  fun st => Ok tt {| db := db st; dirs := path :: dirs st; files := files st;
                     log := (log st ++ [EMakedirs path])%list |}.

(** [tr.write(path, format='sac')] *)
Definition write (path : string) (tr : Trace) : M unit :=
  fun st => Ok tt {| db := db st; dirs := dirs st; files := path :: files st;
                     log := (log st ++ [EWrite path tr])%list |}.

(** ** ObsPy streams *)

(** [tr.stats.component]: the last character of the channel code. *)
Definition component (tr : Trace) : option ascii :=
  PyStr.last_char (tr_channel tr).

Definition has_component (c : ascii) (tr : Trace) : bool :=
  match component tr with
  | Some x => Ascii.eqb (PyStr.upper_ascii x) c
  | None => false
  end.

(** [st.select(component=c)] *)
Definition select (c : ascii) (s : Stream) : Stream :=
  List.filter (has_component c) s.

Definition set_data (tr : Trace) (d : list Q) : Trace :=
  {| tr_channel := tr_channel tr; data := d;
     sampling_rate := sampling_rate tr; sac := sac tr |}.

Definition set_rate (tr : Trace) (r : float) : Trace :=
  {| tr_channel := tr_channel tr; data := data tr;
     sampling_rate := r; sac := sac tr |}.

(** A stream method applies a per-trace operation to every trace in order
    and raises as soon as one of them does. *)
Fixpoint each_trace (f : Trace -> option Trace) (s : Stream) : M Stream :=
  match s with
  | [] => ret []
  | tr :: rest =>
      match f tr with
      | None => raise ProcessingError
      | Some tr' => rest' <- each_trace f rest ;; ret (tr' :: rest')
      end
  end.

Definition on_data (op : Trace -> option (list Q)) (tr : Trace) : option Trace :=
  option_map (set_data tr) (op tr).

Definition remove_response (e : Env) (pf : list Q) (output : option string)
    (s : Stream) : M Stream :=
  each_trace (on_data (op_remove_response e pf output)) s.

Definition detrend (e : Env) (type : string) (s : Stream) : M Stream :=
  each_trace (on_data (op_detrend e type)) s.

Definition filter (e : Env) (type : string) (freq : float) (corners : Z)
    (zerophase : bool) (s : Stream) : M Stream :=
  each_trace (on_data (op_filter e type freq corners zerophase)) s.

Definition resample_trace (e : Env) (rate : float) (tr : Trace)
    : option Trace :=
  option_map (fun d => set_rate (set_data tr d) rate) (op_resample e rate tr).

Definition resample (e : Env) (rate : float) (s : Stream) : M Stream :=
  each_trace (resample_trace e rate) s.

(** Modelled from the spec: [utils.update_stats] of [obstools.atacr] is not
    part of the script; it attaches the station coordinate and elevation
    metadata and a component tag to the trace. *)
Definition update_stats (tr : Trace) (lat lon elev : Q) (cha : string) : Trace :=
  {| tr_channel := tr_channel tr; data := data tr;
     sampling_rate := sampling_rate tr;
     sac := Some {| stla := lat; stlo := lon; stel := elev; kcmpnm := cha |} |}.

(** The integer part of a binary64 float, the fraction dropped: what
    Python's [int] returns for a finite float.  For a NaN it raises
    [ValueError], for an infinity [OverflowError]. *)
Definition truncate (x : float) : Z + exn :=
  match Prim2SF x with
  | S754_zero _ => inl 0
  | S754_finite s m e =>
      let a := if 0 <=? e then Z.shiftl (Zpos m) e
               else Z.shiftr (Zpos m) (- e) in
      inl (if s then - a else a)
  | S754_infinity _ => inr OverflowError
  | S754_nan => inr ValueError
  end.

(** [int(x)] for a float. *)
Definition int (x : float) : M Z :=
  match truncate x with
  | inl n => ret n
  | inr ex => raise ex
  end.

(** ** The script *)

(** [dt = 3600.*24.], as the number of seconds added to the cursor. *)
Definition dt : Z := 3600 * 24.

(** [dt = 3600.*24.], as the float multiplied by a sampling rate. *)
Definition dt_float : float := (3600 * 24)%float.

(** Lines 126-137: the station keys to process. *)
Definition select_keys (o : Options) (allkeys : list string) : list string :=
  if (0 <? Z.of_nat (List.length (stkeys o))) then
    flat_map (fun skey => List.filter (fun s => PyStr.contains skey s) allkeys)
             (stkeys o)
  else allkeys.

(** [db[stkey]] *)
Definition db_get (stkey : string) : M Station :=
  fun st =>
    match find (fun kv => String.eqb (fst kv) stkey) (db st) with
    | Some kv => Ok (snd kv) st
    | None => Raised KeyError st
    end.

Definition with_location (sta : Station) (locs : list string) : Station :=
  {| network := network sta; station := station sta; channel := channel sta;
     location := locs; latitude := latitude sta; longitude := longitude sta;
     elevation := elevation sta; startdate := startdate sta;
     enddate := enddate sta |}.

(** [sta.location = tlocs], on the record held by the dictionary. *)
Definition db_set_location (stkey : string) (locs : list string) : M unit :=
  fun st =>
    Ok tt {| db := map (fun kv => if String.eqb (fst kv) stkey
                                  then (fst kv, with_location (snd kv) locs)
                                  else kv) (db st);
             dirs := dirs st; files := files st; log := log st |}.

(** Lines 152-156: establish the client. *)
Definition make_client (o : Options) : M Client :=
  if (Z.of_nat (List.length (UserAuth o)) =? 0) then
    let c := {| cl_server := Server o; cl_user := None; cl_password := None |} in
    _ <- emit (EClient c) ;; ret c
  else
    u <- item0 (UserAuth o) ;;
    p <- item1 (UserAuth o) ;;
    let c := {| cl_server := Server o; cl_user := Some u; cl_password := Some p |} in
    _ <- emit (EClient c) ;; ret c.

(** Lines 158-162: catalogue search start time. *)
Definition search_start (o : Options) (sta : Station) : Z :=
  match startT o with
  | None => startdate sta
  | Some t => t
  end.

(** Lines 164-168: catalogue search end time. *)
Definition search_end (o : Options) (sta : Station) : Z :=
  match endT o with
  | None => startdate sta
  | Some t => t
  end.

(** Line 170: the requested range lies outside the station's lifetime. *)
Definition out_of_range (o : Options) (sta : Station) : bool :=
  (search_start o sta >? enddate sta) || (search_end o sta <? startdate sta).

(** Lines 174-178: empty location codes become ["--"]. *)
Definition normalize_location (locs : list string) : list string :=
  let tlocs := if (Z.of_nat (List.length locs) =? 0) then [""] else locs in
  map (fun l => if (Z.of_nat (String.length l) =? 0) then "--" else l) tlocs.

(** Line 206 *)
Definition tstamp (t1 : Z) : string :=
  PyStr.zfill 4 (PyStr.str (UTCDateTime.year t1)) ++ "." ++
  PyStr.zfill 3 (PyStr.str (UTCDateTime.julday t1)) ++ ".".

(** Lines 215-218: the four file names of a day. *)
Definition file1 (datapath : string) (sta : Station) (t1 : Z) : string :=
  datapath ++ tstamp t1 ++ "." ++ channel sta ++ "1.SAC".

Definition file2 (datapath : string) (sta : Station) (t1 : Z) : string :=
  datapath ++ tstamp t1 ++ "." ++ channel sta ++ "2.SAC".

Definition fileZ (datapath : string) (sta : Station) (t1 : Z) : string :=
  datapath ++ tstamp t1 ++ "." ++ channel sta ++ "Z.SAC".

Definition fileP (datapath : string) (sta : Station) (t1 : Z) : string :=
  datapath ++ tstamp t1 ++ "." ++ channel sta ++ "H.SAC".

(** Lines 231 and 332 *)
Definition seismic_channels (sta : Station) : string :=
  PyStr.upper (channel sta) ++ "1," ++ PyStr.upper (channel sta) ++ "2," ++
  PyStr.upper (channel sta) ++ "Z".

(** Line 277 *)
Definition vertical_channel (sta : Station) : string :=
  PyStr.upper (channel sta) ++ "Z".

(** The keyword arguments of the calls at lines 237, 283, 293, 338, 348. *)
Definition request (sta : Station) (loc chans : string) (t1 t2 : Z) : Request :=
  {| rq_network := network sta; rq_station := station sta;
     rq_location := loc; rq_channel := chans;
     rq_starttime := t1; rq_endtime := t2;
     rq_attach_response := true |}.

(** A [try: st = client.get_waveforms(..., location=sta.location[0], ...)]
    with its bare [except:]: [None] when anything inside the [try] raised,
    the indexing of [sta.location] included. *)
Definition try_get_waveforms (e : Env) (client : Client) (sta : Station)
    (chans : string) (t1 t2 : Z) : M (option Stream) :=
  match location sta with
  | [] => ret None
  | loc :: _ =>
      let rq := request sta loc chans t1 t2 in
      _ <- emit (EFetch client rq) ;;
      ret (get_waveforms e client rq)
  end.

(** How a day leaves the acquisition stage: by one of the [continue]
    statements, with the cursor as that branch advanced it, or with the
    bundles to preprocess. *)
Inductive acquired :=
| Continue (s : status) (t1 t2 : Z)
| Accepted (sth : Stream) (stp : option Stream).

Definition len {A} (l : list A) : Z := Z.of_nat (List.length l).

(** Lines 246-264: make sure the length is ok (horizontal components). *)
Definition check_H (t1 t2 : Z) (sth : Stream) : M acquired :=
  trZ <- item0 (select "Z" sth) ;;
  let llZ := len (data trZ) in
  tr1 <- item0 (select "1" sth) ;;
  let ll1 := len (data tr1) in
  tr2 <- item0 (select "2" sth) ;;
  let ll2 := len (data tr2) in
  if negb (llZ =? ll1) || negb (llZ =? ll2) then
    ret (Continue VALIDATION_FAILED (t1 + dt) (t2 + dt))
  else
    tr0 <- item0 sth ;;
    ll <- int (dt_float * sampling_rate tr0)%float ;;
    if Z.abs (llZ - ll) >? 1 then
      ret (Continue VALIDATION_FAILED (t1 + dt) (t2 + dt))
    else ret (Accepted sth None).

(** Lines 302-319: make sure the length is ok (pressure). *)
Definition check_P (t1 t2 : Z) (sth stp : Stream) : M acquired :=
  trZ <- item0 (select "Z" sth) ;;
  let llZ := len (data trZ) in
  trP <- item0 stp ;;
  let llP := len (data trP) in
  if negb (llZ =? llP) then
    ret (Continue VALIDATION_FAILED (t1 + dt) (t2 + dt))
  else
    tp0 <- item0 stp ;;
    ll <- int (dt_float * sampling_rate tp0)%float ;;
    if Z.abs (llZ - ll) >? 1 then
      ret (Continue VALIDATION_FAILED (t1 + dt) (t2 + dt))
    else ret (Accepted sth (Some stp)).

(** Lines 357-376: make sure the length is ok (all four components). *)
Definition check_both (t1 t2 : Z) (sth stp : Stream) : M acquired :=
  trZ <- item0 (select "Z" sth) ;;
  let llZ := len (data trZ) in
  tr1 <- item0 (select "1" sth) ;;
  let ll1 := len (data tr1) in
  tr2 <- item0 (select "2" sth) ;;
  let ll2 := len (data tr2) in
  trP <- item0 stp ;;
  let llP := len (data trP) in
  if negb (llZ =? ll1) || negb (llZ =? ll2) || negb (llZ =? llP) then
    ret (Continue VALIDATION_FAILED (t1 + dt) (t2 + dt))
  else
    tr0 <- item0 sth ;;
    ll <- int (dt_float * sampling_rate tr0)%float ;;
    if Z.abs (llZ - ll) >? 1 then
      ret (Continue VALIDATION_FAILED (t1 + dt) (t2 + dt))
    else ret (Accepted sth (Some stp)).

(** Lines 220-264: horizontal components only. *)
Definition acquire_H (e : Env) (o : Options) (client : Client) (sta : Station)
    (datapath : string) (t1 t2 : Z) : M acquired :=
  gZ <- glob (fileZ datapath sta t1) ;;
  g1 <- glob (file1 datapath sta t1) ;;
  g2 <- glob (file2 datapath sta t1) ;;
  if (gZ && g1 && g2) && negb (ovr o) then
    ret (Continue SKIPPED_EXISTING (t1 + dt) (t2 + dt))
  else
    let chans := seismic_channels sta in
    r <- try_get_waveforms e client sta chans t1 t2 ;;
    match r with
    | None => ret (Continue FETCH_FAILED (t1 + dt) (t2 + dt))
    | Some sth => check_H t1 t2 sth
    end.

(** Lines 266-319: pressure only. *)
Definition acquire_P (e : Env) (o : Options) (client : Client) (sta : Station)
    (datapath : string) (t1 t2 : Z) : M acquired :=
  gZ <- glob (fileZ datapath sta t1) ;;
  gP <- glob (fileP datapath sta t1) ;;
  if (gZ && gP) && negb (ovr o) then
    ret (Continue SKIPPED_EXISTING (t1 + dt) (t2 + dt))
  else
    let chans := vertical_channel sta in
    r <- try_get_waveforms e client sta chans t1 t2 ;;
    match r with
    | None => ret (Continue FETCH_FAILED (t1 + dt) (t2 + dt))
    | Some sth =>
        r' <- try_get_waveforms e client sta "??H" t1 t2 ;;
        match r' with
        | None => ret (Continue FETCH_FAILED (t1 + dt) (t2 + dt))
        | Some stp => check_P t1 t2 sth stp
        end
    end.

(** Lines 321-376: horizontal components and pressure. *)
Definition acquire_both (e : Env) (o : Options) (client : Client)
    (sta : Station) (datapath : string) (t1 t2 : Z) : M acquired :=
  gZ <- glob (fileZ datapath sta t1) ;;
  g1 <- glob (file1 datapath sta t1) ;;
  g2 <- glob (file2 datapath sta t1) ;;
  gP <- glob (fileP datapath sta t1) ;;
  if (gZ && g1 && g2 && gP) && negb (ovr o) then
    ret (Continue SKIPPED_EXISTING (t1 + dt) (t2 + dt))
  else
    let chans := seismic_channels sta in
    r <- try_get_waveforms e client sta chans t1 t2 ;;
    match r with
    | None => ret (Continue FETCH_FAILED (t1 + dt) (t2 + dt))
    | Some sth =>
        r' <- try_get_waveforms e client sta "??H" t1 t2 ;;
        match r' with
        | None => ret (Continue FETCH_FAILED (t1 + dt) (t2 + dt))
        | Some stp => check_both t1 t2 sth stp
        end
    end.

(** Lines 220, 266, 321: the branch taken for [opts.channels]. *)
Definition acquire (e : Env) (o : Options) (client : Client) (sta : Station)
    (datapath : string) (t1 t2 : Z) : M acquired :=
  if negb (PyStr.mem "P" (channels o)) then
    acquire_H e o client sta datapath t1 t2
  else if negb (PyStr.mem "H" (channels o)) then
    acquire_P e o client sta datapath t1 t2
  else acquire_both e o client sta datapath t1 t2.

(** The name [stp] is bound only in the branches that fetched it. *)
Definition bound (stp : option Stream) : M Stream :=
  match stp with
  | Some s => ret s
  | None => raise NameError
  end.

(** Lines 378-396: response removal, detrending, filtering, resampling. *)
Definition preprocess (e : Env) (o : Options) (sth : Stream)
    (stp : option Stream) : M (Stream * option Stream) :=
  sth <- remove_response e (pre_filt o) (Some "DISP") sth ;;
  stp <- (if PyStr.mem "P" (channels o) then
            p <- bound stp ;;
            p <- remove_response e (pre_filt o) None p ;;
            ret (Some p)
          else ret stp) ;;
  sth <- detrend e "demean" sth ;;
  sth <- detrend e "linear" sth ;;
  sth <- filter e "lowpass" (0.5 * new_sampling_rate o)%float 2 true sth ;;
  sth <- resample e (new_sampling_rate o) sth ;;
  stp <- (if PyStr.mem "P" (channels o) then
            p <- bound stp ;;
            p <- detrend e "demean" p ;;
            p <- detrend e "linear" p ;;
            p <- filter e "lowpass" (0.5 * new_sampling_rate o)%float 2 true p ;;
            p <- resample e (new_sampling_rate o) p ;;
            ret (Some p)
          else ret stp) ;;
  ret (sth, stp).

(** Lines 398-416: extract the traces and write them. *)
Definition write_traces (o : Options) (sta : Station) (datapath : string)
    (t1 : Z) (sth : Stream) (stp : option Stream) : M unit :=
  trZ <- item0 (select "Z" sth) ;;
  let trZ := update_stats trZ (latitude sta) (longitude sta) (elevation sta) "Z" in
  _ <- write (fileZ datapath sta t1) trZ ;;
  _ <- (if PyStr.mem "H" (channels o) then
          tr1 <- item0 (select "1" sth) ;;
          tr2 <- item0 (select "2" sth) ;;
          let tr1 := update_stats tr1 (latitude sta) (longitude sta) (elevation sta) "1" in
          let tr2 := update_stats tr2 (latitude sta) (longitude sta) (elevation sta) "2" in
          _ <- write (file1 datapath sta t1) tr1 ;;
          write (file2 datapath sta t1) tr2
        else ret tt) ;;
  if PyStr.mem "P" (channels o) then
    p <- bound stp ;;
    trP <- item0 p ;;
    let trP := update_stats trP (latitude sta) (longitude sta) (elevation sta) "P" in
    write (fileP datapath sta t1) trP
  else ret tt.

(** Lines 205-419: one iteration of the day loop, returning how the day
    ended and the cursor for the next iteration. *)
Definition day_body (e : Env) (o : Options) (client : Client) (stkey : string)
    (sta : Station) (datapath : string) (t1 t2 : Z) : M (status * Z * Z) :=
  _ <- emit (EDay stkey t1 t2) ;;
  a <- acquire e o client sta datapath t1 t2 ;;
  match a with
  | Continue s t1' t2' => ret (s, t1', t2')
  | Accepted sth stp =>
      '(sth, stp) <- preprocess e o sth stp ;;
      _ <- write_traces o sta datapath t1 sth stp ;;
      ret (WRITTEN, t1 + dt, t2 + dt)
  end.

(** Lines 203-419: [while t2 <= tend]. *)
Fixpoint while_days (fuel : nat) (e : Env) (o : Options) (client : Client)
    (stkey : string) (sta : Station) (datapath : string) (tend : Z)
    (t1 t2 : Z) : M unit :=
  if t2 <=? tend then
    match fuel with
    | O => fun _ => OutOfFuel
    | S n =>
        '(_, t1', t2') <- day_body e o client stkey sta datapath t1 t2 ;;
        while_days n e o client stkey sta datapath tend t1' t2'
    end
  else ret tt.

(** The number of iterations the day loop can make. *)
Definition day_fuel (tstart tend : Z) : nat := Z.to_nat ((tend - tstart) / dt).

(** Lines 145-419: the body of the station loop, once [sta] is bound. *)
Definition station_run (e : Env) (o : Options) (stkey : string)
    (sta : Station) : M unit :=
  let datapath := "DATA/" ++ stkey ++ "/" in
  d <- isdir datapath ;;
  _ <- (if negb d then makedirs datapath else ret tt) ;;
  client <- make_client o ;;
  let tstart := search_start o sta in
  let tend := search_end o sta in
  if out_of_range o sta then ret tt
  else
    let tlocs := normalize_location (location sta) in
    _ <- db_set_location stkey tlocs ;;
    let sta := with_location sta tlocs in
    let t1 := tstart in
    let t2 := tstart + dt in
    while_days (day_fuel tstart tend) e o client stkey sta datapath tend t1 t2.

(** Lines 140-419: the body of the station loop. *)
Definition station_body (e : Env) (o : Options) (stkey : string) : M unit :=
  sta <- db_get stkey ;;
  station_run e o stkey sta.

(** Line 140: [for stkey in list(stkeys)]. *)
Fixpoint for_stations (e : Env) (o : Options) (keys : list string) : M unit :=
  match keys with
  | [] => ret tt
  | stkey :: rest => _ <- station_body e o stkey ;; for_stations e o rest
  end.

(** [main], started on a store that holds the loaded station database. *)
Definition main (e : Env) (o : Options) : M unit :=
  fun st => for_stations e o (select_keys o (map fst (db st))) st.

(** ** Observing a run *)

(** The events a run added to the log of the state it started from. *)
Definition events_since {A} (st : State) (r : Res A) : list Event :=
  match r with
  | Ok _ st' | Raised _ st' => skipn (List.length (log st)) (log st')
  | OutOfFuel => []
  end.

(** The day windows announced in a list of events. *)
Definition days_of (evs : list Event) : list (Z * Z) :=
  flat_map (fun ev => match ev with EDay _ a b => [(a, b)] | _ => [] end) evs.

(** The waveform requests in a list of events. *)
Definition fetches_of (evs : list Event) : list Request :=
  flat_map (fun ev => match ev with EFetch _ rq => [rq] | _ => [] end) evs.

(** The paths written in a list of events. *)
Definition writes_of (evs : list Event) : list string :=
  flat_map (fun ev => match ev with EWrite p _ => [p] | _ => [] end) evs.

(** The [n] successive day windows from [(t1, t2)]. *)
Definition window_list (t1 t2 : Z) (n : nat) : list (Z * Z) :=
  map (fun k => (t1 + dt * Z.of_nat k, t2 + dt * Z.of_nat k)) (seq 0 n).

(** [emits P m]: whatever [m] does, it only appends events, all in [P]. *)
Definition emits {A} (P : Event -> Prop) (m : M A) : Prop :=
  forall st,
    match m st with
    | Ok _ st' | Raised _ st' =>
        exists evs, log st' = (log st ++ evs)%list /\ Forall P evs
    | OutOfFuel => True
    end.

(** Lines 223, 269, 324: the files whose presence lets a day be skipped. *)
Definition expected_files (o : Options) (sta : Station) (datapath : string)
    (t1 : Z) : list string :=
  if negb (PyStr.mem "P" (channels o)) then
    [fileZ datapath sta t1; file1 datapath sta t1; file2 datapath sta t1]
  else if negb (PyStr.mem "H" (channels o)) then
    [fileZ datapath sta t1; fileP datapath sta t1]
  else
    [fileZ datapath sta t1; file1 datapath sta t1; file2 datapath sta t1;
     fileP datapath sta t1].

Definition all_exist (st : State) (paths : list string) : bool :=
  forallb (fun p => PyStr.mem p (files st)) paths.

(** Lines 231, 277, 332: the channels of the first request of a day. *)
Definition first_channels (o : Options) (sta : Station) : string :=
  if negb (PyStr.mem "P" (channels o)) then seismic_channels sta
  else if negb (PyStr.mem "H" (channels o)) then vertical_channel sta
  else seismic_channels sta.

(** The state after one more event. *)
Definition log_event (ev : Event) (st : State) : State :=
  {| db := db st; dirs := dirs st; files := files st;
     log := (log st ++ [ev])%list |}.

(** [starts_with pre P m]: whatever [m] does, the events it appends are
    [pre] followed by events in [P]. *)
Definition starts_with {A} (pre : list Event) (P : Event -> Prop) (m : M A)
    : Prop :=
  forall st,
    match m st with
    | Ok _ st' | Raised _ st' =>
        exists evs, log st' = (log st ++ pre ++ evs)%list /\ Forall P evs
    | OutOfFuel => True
    end.

(** The state after more events. *)
Definition add_events (st : State) (evs : list Event) : State :=
  {| db := db st; dirs := dirs st; files := files st;
     log := (log st ++ evs)%list |}.

(** [st.select(component=c)[0]], when there is one. *)
Definition first_of (c : ascii) (s : Stream) : option Trace :=
  head (select c s).

(** [stp[0]], when [stp] is bound and not empty. *)
Definition first_pressure (stp : option Stream) : option Trace :=
  match stp with
  | Some p => head p
  | None => None
  end.

(** Lines 247-249, 303-304, 358-361: the traces whose lengths a branch
    compares, the vertical one first. *)
Definition required_traces (o : Options) (sth : Stream) (stp : option Stream)
    : list (option Trace) :=
  if negb (PyStr.mem "P" (channels o)) then
    [first_of "Z" sth; first_of "1" sth; first_of "2" sth]
  else if negb (PyStr.mem "H" (channels o)) then
    [first_of "Z" sth; first_pressure stp]
  else
    [first_of "Z" sth; first_of "1" sth; first_of "2" sth; first_pressure stp].

(** Lines 257, 312, 369: the trace whose sampling rate gives the expected
    number of samples. *)
Definition rate_trace (o : Options) (sth : Stream) (stp : option Stream)
    : option Trace :=
  if negb (PyStr.mem "P" (channels o)) then head sth
  else if negb (PyStr.mem "H" (channels o)) then first_pressure stp
  else head sth.

Definition is_some {A} (x : option A) : bool :=
  match x with Some _ => true | None => false end.

(** Every required component has a trace. *)
Definition all_present (req : list (option Trace)) : bool :=
  forallb is_some req.

(** The number of samples of a full day at the rate of [tr0]: the
    truncated binary64 product of [dt] and the rate, or the exception
    [int] raises for it. *)
Definition expected_count (tr0 : Trace) : Z + exn :=
  truncate (dt_float * sampling_rate tr0).

(** The other required traces have the sample count of [trZ]. *)
Definition same_counts (trZ : Trace) (rest : list (option Trace)) : bool :=
  forallb (fun x => match x with
                    | Some tr => len (data trZ) =? len (data tr)
                    | None => false
                    end) rest.

(** The required traces are all there, have the sample count of the
    vertical one, and that count is within one sample of the expected
    count. *)
Definition accepts (req : list (option Trace)) (rate : option Trace) : bool :=
  match req, rate with
  | Some trZ :: rest, Some tr0 =>
      same_counts trZ rest
      && match expected_count tr0 with
         | inl ll => Z.abs (len (data trZ) - ll) <=? 1
         | inr _ => false
         end
  | _, _ => false
  end.

(** The exception of a length test that comes to compute the expected
    count and finds the product of [dt] and the rate not finite. *)
Definition count_error (req : list (option Trace)) (rate : option Trace)
    : option exn :=
  match req, rate with
  | Some trZ :: rest, Some tr0 =>
      if same_counts trZ rest then
        match expected_count tr0 with
        | inl _ => None
        | inr ex => Some ex
        end
      else None
  | _, _ => None
  end.

(** What the data center answers to the requests of a day: the seismic
    bundle and, when pressure is selected, the pressure bundle; [None] when
    a request raises. *)
Definition fetched (e : Env) (o : Options) (client : Client) (sta : Station)
    (t1 t2 : Z) : option (Stream * option Stream) :=
  match head (location sta) with
  | None => None
  | Some loc =>
      match get_waveforms e client
              (request sta loc (first_channels o sta) t1 t2) with
      | None => None
      | Some sth =>
          if negb (PyStr.mem "P" (channels o)) then Some (sth, None)
          else option_map (fun stp => (sth, Some stp))
                 (get_waveforms e client (request sta loc "??H" t1 t2))
      end
  end.

(** The requests a day that is not skipped makes. *)
Definition fetch_events (e : Env) (o : Options) (client : Client)
    (sta : Station) (loc : string) (t1 t2 : Z) : list Event :=
  EFetch client (request sta loc (first_channels o sta) t1 t2)
  :: (if negb (PyStr.mem "P" (channels o)) then []
      else match get_waveforms e client
                   (request sta loc (first_channels o sta) t1 t2) with
           | None => []
           | Some _ => [EFetch client (request sta loc "??H" t1 t2)]
           end).

(** One per-trace operation after another. *)
Definition and_then (f g : Trace -> option Trace) (tr : Trace)
    : option Trace :=
  match f tr with
  | Some tr' => g tr'
  | None => None
  end.

(** What lines 378-396 do to one trace: [output] is ["DISP"] for the
    seismic bundle and absent for the pressure bundle. *)
Definition process (e : Env) (o : Options) (output : option string)
    : Trace -> option Trace :=
  and_then (on_data (op_remove_response e (pre_filt o) output))
    (and_then (on_data (op_detrend e "demean"))
       (and_then (on_data (op_detrend e "linear"))
          (and_then (on_data (op_filter e "lowpass"
                                (0.5 * new_sampling_rate o)%float 2 true))
                    (resample_trace e (new_sampling_rate o))))).

(** A per-trace operation on every trace of a bundle, when none raises. *)
Fixpoint map_opt (f : Trace -> option Trace) (s : Stream) : option Stream :=
  match s with
  | [] => Some []
  | tr :: rest =>
      match f tr with
      | None => None
      | Some tr' =>
          match map_opt f rest with
          | None => None
          | Some rest' => Some (tr' :: rest')
          end
      end
  end.

(** The bundles after lines 378-396, when no operation raises. *)
Definition preprocessed (e : Env) (o : Options) (sth : Stream)
    (stp : option Stream) : option (Stream * option Stream) :=
  match map_opt (process e o (Some "DISP")) sth with
  | None => None
  | Some sth' =>
      if PyStr.mem "P" (channels o) then
        match stp with
        | Some p =>
            option_map (fun p' => (sth', Some p'))
                       (map_opt (process e o None) p)
        | None => None
        end
      else Some (sth', stp)
  end.

(** The state after [tr.write(path)]. *)
Definition after_write (st : State) (w : string * Trace) : State :=
  {| db := db st; dirs := dirs st; files := fst w :: files st;
     log := (log st ++ [EWrite (fst w) (snd w)])%list |}.

Definition written (st : State) (ws : list (string * Trace)) : State :=
  fold_left after_write ws st.

Definition write_of (sta : Station) (path : string) (x : option Trace)
    (cha : string) : list (string * Trace) :=
  match x with
  | Some tr =>
      [(path, update_stats tr (latitude sta) (longitude sta) (elevation sta)
                           cha)]
  | None => []
  end.

(** Lines 398-416 on the first traces [xZ], [x1], [x2], [xP] of the
    preprocessed bundles: the files written and their contents. *)
Definition day_writes (o : Options) (sta : Station) (datapath : string)
    (t1 : Z) (xZ x1 x2 xP : option Trace) : list (string * Trace) :=
  (write_of sta (fileZ datapath sta t1) xZ "Z"
   ++ (if PyStr.mem "H" (channels o) then
         write_of sta (file1 datapath sta t1) x1 "1"
         ++ write_of sta (file2 datapath sta t1) x2 "2"
       else [])
   ++ (if PyStr.mem "P" (channels o) then
         write_of sta (fileP datapath sta t1) xP "P"
       else []))%list.

(** Lines 145-156 of the station loop: the data directory and the
    client. *)
Definition station_setup (o : Options) (stkey : string) : M Client :=
  let datapath := "DATA/" ++ stkey ++ "/" in
  d <- isdir datapath ;;
  _ <- (if negb d then makedirs datapath else ret tt) ;;
  make_client o.

(** [loop_reaches ... tend (ta, tb, st_a) (t1, t2, st)]: the day loop,
    entered with cursor [(ta, tb)] in state [st_a], comes to test the
    cursor [(t1, t2)] in state [st] after days that all returned. *)
Inductive loop_reaches (e : Env) (o : Options) (client : Client)
    (stkey : string) (sta : Station) (datapath : string) (tend : Z)
    : Z * Z * State -> Z * Z * State -> Prop :=
| reaches_here (c : Z * Z * State) :
    loop_reaches e o client stkey sta datapath tend c c
| reaches_later (ta tb : Z) (st_a : State) (s : status) (ta' tb' : Z)
    (st_a' : State) (c : Z * Z * State) :
    tb <= tend ->
    day_body e o client stkey sta datapath ta tb st_a = Ok (s, ta', tb') st_a' ->
    loop_reaches e o client stkey sta datapath tend (ta', tb', st_a') c ->
    loop_reaches e o client stkey sta datapath tend (ta, tb, st_a) c.

(** ** Concrete stations, bundles and environments *)

Module Fixtures.

(** 2012-03-09T00:00:00, day 069 of 2012. *)
Definition day069 : Z := 1331251200.

Definition sta0 : Station :=
  {| network := "XX"; station := "YYYY"; channel := "BH";
     location := [""; "01"];
     latitude := 44 # 1; longitude := (-125) # 1; elevation := (-130) # 1;
     startdate := day069; enddate := day069 + 10 * 86400 |}.

(** A trace of [n] samples at the double nearest to one sample per
    8640 s: a full day holds 10 samples. *)
Definition trace (chan : string) (n : nat) : Trace :=
  {| tr_channel := chan; data := repeat (0 # 1) n;
     sampling_rate := (1 / 8640)%float; sac := None |}.

Definition seismic (n : nat) : Stream :=
  [trace "BH1" n; trace "BH2" n; trace "BHZ" n].

Definition pressure (n : nat) : Stream := [trace "BDH" n].

(** The seismic bundle of [n] samples, at another sampling rate. *)
Definition seismic_at (rate : float) (n : nat) : Stream :=
  map (fun tr => set_rate tr rate) (seismic n).

(** A data center that answers a pressure request ("??H") with [stp] and
    any other request with [sth]; signal processing leaves the samples as
    they are. *)
Definition env (sth stp : option Stream) : Env :=
  {| get_waveforms := fun _ rq =>
       if String.eqb (rq_channel rq) "??H" then stp else sth;
     op_remove_response := fun _ _ tr => Some (data tr);
     op_detrend := fun _ tr => Some (data tr);
     op_filter := fun _ _ _ _ tr => Some (data tr);
     op_resample := fun _ tr => Some (data tr) |}.

(** The same data center with a response removal that raises. *)
Definition env_bad_response (sth stp : option Stream) : Env :=
  {| get_waveforms := get_waveforms (env sth stp);
     op_remove_response := fun _ _ _ => None;
     op_detrend := fun _ tr => Some (data tr);
     op_filter := fun _ _ _ _ tr => Some (data tr);
     op_resample := fun _ tr => Some (data tr) |}.

Definition opts (chans : list string) (overwrite : bool)
    (t0 t1 : option Z) : Options :=
  {| stkeys := []; channels := chans; ovr := overwrite;
     Server := "IRIS"; UserAuth := [];
     startT := t0; endT := t1;
     new_sampling_rate := 5%float;
     pre_filt := [1 # 1000; 5 # 1000; 45 # 1; 50 # 1] |}.

Definition client0 : Client :=
  {| cl_server := "IRIS"; cl_user := None; cl_password := None |}.

Definition store (stations : list (string * Station))
    (present : list string) : State :=
  {| db := stations; dirs := []; files := present; log := [] |}.

Definition st0 : State := store [("XX.YYYY", sta0)] [].

(** A data center that has full days of all four components. *)
Definition e_full : Env := env (Some (seismic 10)) (Some (pressure 10)).

(** Options asking for the one day 2012.069. *)
Definition o_day (chans : list string) (overwrite : bool) : Options :=
  opts chans overwrite None (Some (day069 + 86400)).

Definition datapath0 : string := "DATA/XX.YYYY/".

(** [sta0] as the day loop sees it, its location codes normalized. *)
Definition sta0n : Station :=
  with_location sta0 (normalize_location (location sta0)).

(** A store in which the four files of day 2012.069 exist. *)
Definition st_done : State :=
  store [("XX.YYYY", sta0n)]
        [fileZ datapath0 sta0n day069; file1 datapath0 sta0n day069;
         file2 datapath0 sta0n day069; fileP datapath0 sta0n day069].

(** A second station of the same network. *)
Definition sta1 : Station :=
  {| network := "XX"; station := "ZZZZ"; channel := "BH";
     location := [];
     latitude := 45 # 1; longitude := (-126) # 1; elevation := (-200) # 1;
     startdate := day069; enddate := day069 + 10 * 86400 |}.

Definition st_two : State :=
  store [("XX.YYYY", sta0); ("XX.ZZZZ", sta1)] [].

(** A data center with full days whose responses cannot be removed. *)
Definition e_bad : Env :=
  env_bad_response (Some (seismic 10)) (Some (pressure 10)).

(** [st0] after the banner and the two requests of day 2012.069. *)
Definition st_fetched : State :=
  log_event
    (EFetch client0 (request sta0n "--" "??H" day069 (day069 + 86400)))
    (log_event
       (EFetch client0
               (request sta0n "--" "BH1,BH2,BHZ" day069 (day069 + 86400)))
       (log_event (EDay "XX.YYYY" day069 (day069 + 86400)) st0)).

(** Bundles with gaps: a second, shorter trace for some components. *)
Definition seismic_gapped : Stream :=
  [trace "BH1" 10; trace "BH1" 3; trace "BH2" 10; trace "BHZ" 10;
   trace "BHZ" 5].

Definition pressure_gapped : Stream := [trace "BDH" 10; trace "BDH" 4].

Definition e_gapped : Env :=
  env (Some seismic_gapped) (Some pressure_gapped).

(** Options that restrict the run to the stations matching [keys]. *)
Definition opts_keys (keys : list string) : Options :=
  {| stkeys := keys; channels := ["H"; "P"]; ovr := false;
     Server := "IRIS"; UserAuth := [];
     startT := None; endT := Some (day069 + 86400);
     new_sampling_rate := 5%float;
     pre_filt := [1 # 1000; 5 # 1000; 45 # 1; 50 # 1] |}.

(** Options with a user name and no password. *)
Definition opts_lone_user : Options :=
  {| stkeys := []; channels := ["H"; "P"]; ovr := false;
     Server := "IRIS"; UserAuth := ["me"];
     startT := None; endT := Some (day069 + 86400);
     new_sampling_rate := 5%float;
     pre_filt := [1 # 1000; 5 # 1000; 45 # 1; 50 # 1] |}.

(** Options asking for ten days that start after the station was
    recovered. *)
Definition o_far : Options :=
  opts ["H"; "P"] false (Some (day069 + 20 * 86400))
       (Some (day069 + 30 * 86400)).

End Fixtures.

(** ** Notions used to state the properties *)

(** A [continue] branch left the cursor one day further. *)
Definition advanced (t1 t2 : Z) (a : acquired) : Prop :=
  match a with
  | Continue _ t1' t2' => t1' = t1 + dt /\ t2' = t2 + dt
  | Accepted _ _ => True
  end.

(** The requests a day can make are [P]. *)
Definition fetches_in (P : Event -> Prop) (client : Client) (sta : Station)
    (t1 t2 : Z) : Prop :=
  forall loc chans,
    head (location sta) = Some loc ->
    P (EFetch client (request sta loc chans t1 t2)).

(** [returns Q m]: [m] never runs out of fuel, and what it returns is in
    [Q]. *)
Definition returns {A} (Q : A -> Prop) (m : M A) : Prop :=
  forall st,
    match m st with
    | Ok a _ => Q a
    | Raised _ _ => True
    | OutOfFuel => False
    end.

(** The number of iterations left when the loop test sees [t2]. *)
Definition days_left (tend t2 : Z) : nat := Z.to_nat ((tend - t2) / dt + 1).

Definition not_day (ev : Event) : Prop :=
  match ev with EDay _ _ _ => False | _ => True end.

Definition setup_event (ev : Event) : Prop :=
  match ev with
  | EMakedirs _ | EClient _ => True
  | _ => False
  end.

(** [pure m]: [m] neither changes the state nor runs out of fuel. *)
Definition pure {A} (m : M A) : Prop :=
  forall st,
    match m st with
    | Ok _ st' | Raised _ st' => st' = st
    | OutOfFuel => False
    end.

Definition not_write (ev : Event) : Prop :=
  match ev with EWrite _ _ => False | _ => True end.

(** The first trace of a component after a per-trace operation. *)
Definition then_first (f : Trace -> option Trace) (x : option Trace)
    : option Trace :=
  match x with
  | Some tr => f tr
  | None => None
  end.

Definition keeps_channel (f : Trace -> option Trace) : Prop :=
  forall a b, f a = Some b -> tr_channel b = tr_channel a.

(** The outcome of a day whose requests were answered with [sth] and
    [stp], from the state [st1] reached after the requests. *)
Definition window_outcome (e : Env) (o : Options) (sta : Station)
    (datapath : string) (t1 t2 : Z) (st1 : State) (sth : Stream)
    (stp : option Stream) : Res (status * Z * Z) :=
  if all_present (required_traces o sth stp) then
    match count_error (required_traces o sth stp) (rate_trace o sth stp) with
    | Some ex => Raised ex st1
    | None =>
        if accepts (required_traces o sth stp) (rate_trace o sth stp) then
          match preprocessed e o sth stp with
          | None => Raised ProcessingError st1
          | Some (sth', stp') =>
              Ok (WRITTEN, t1 + dt, t2 + dt)
                 (written st1
                    (day_writes o sta datapath t1
                       (first_of "Z" sth') (first_of "1" sth')
                       (first_of "2" sth') (first_pressure stp')))
          end
        else Ok (VALIDATION_FAILED, t1 + dt, t2 + dt) st1
    end
  else Raised IndexError st1.

(** The outcome of a day that is not skipped. *)
Definition day_outcome (e : Env) (o : Options) (client : Client)
    (stkey : string) (sta : Station) (datapath : string) (loc : string)
    (t1 t2 : Z) (st : State) : Res (status * Z * Z) :=
  let st1 := add_events st (EDay stkey t1 t2
                            :: fetch_events e o client sta loc t1 t2) in
  match fetched e o client sta t1 t2 with
  | None => Ok (FETCH_FAILED, t1 + dt, t2 + dt) st1
  | Some (sth, stp) => window_outcome e o sta datapath t1 t2 st1 sth stp
  end.

(** The files a day that is not skipped writes, with their contents. *)
Definition day_written (e : Env) (o : Options) (client : Client)
    (sta : Station) (datapath : string) (t1 t2 : Z)
    : list (string * Trace) :=
  match fetched e o client sta t1 t2 with
  | None => []
  | Some (sth, stp) =>
      if all_present (required_traces o sth stp)
         && accepts (required_traces o sth stp) (rate_trace o sth stp)
      then
        match preprocessed e o sth stp with
        | None => []
        | Some (sth', stp') =>
            day_writes o sta datapath t1
              (first_of "Z" sth') (first_of "1" sth')
              (first_of "2" sth') (first_pressure stp')
        end
      else []
  end.

Definition write_events (ws : list (string * Trace)) : list Event :=
  map (fun w => EWrite (fst w) (snd w)) ws.

(** The name the script gives the file of component [c] for the day that
    starts at [t1]. *)
Definition sac_name (stkey : string) (sta : Station) (t1 : Z) (c : string)
    : string :=
  "DATA/" ++ stkey ++ "/"
  ++ PyStr.zfill 4 (PyStr.str (UTCDateTime.year t1)) ++ "."
  ++ PyStr.zfill 3 (PyStr.str (UTCDateTime.julday t1)) ++ ".."
  ++ channel sta ++ c ++ ".SAC".

(** [e] with another data center behind the client. *)
Definition with_waveforms (e : Env)
    (gw : Client -> Request -> option Stream) : Env :=
  {| get_waveforms := gw;
     op_remove_response := op_remove_response e;
     op_detrend := op_detrend e;
     op_filter := op_filter e;
     op_resample := op_resample e |}.

(** Two seismic bundles with the same first trace and the same first trace
    of each of the components Z, 1 and 2. *)
Definition same_first_seismic (s s' : Stream) : Prop :=
  head s = head s'
  /\ first_of "Z" s = first_of "Z" s'
  /\ first_of "1" s = first_of "1" s'
  /\ first_of "2" s = first_of "2" s'.

(** Two pressure bundles with the same first trace. *)
Definition same_first_pressure (s s' : Stream) : Prop := head s = head s'.

(** Two answers of the data center: both raise, or both are bundles
    related by [R]. *)
Definition same_answer (R : Stream -> Stream -> Prop)
    (a a' : option Stream) : Prop :=
  match a, a' with
  | Some s, Some s' => R s s'
  | None, None => True
  | _, _ => False
  end.

(** Two runs end alike, unless one of them raised in preprocessing. *)
Definition same_outcome {A} (r r' : Res A) : Prop :=
  match r, r' with
  | Ok a s, Ok a' s' => a = a' /\ s = s'
  | Raised ex s, Raised ex' s' =>
      ex = ProcessingError \/ ex' = ProcessingError \/ (ex = ex' /\ s = s')
  | Raised ex _, Ok _ _ => ex = ProcessingError
  | Ok _ _, Raised ex' _ => ex' = ProcessingError
  | _, _ => False
  end.

(** [preserves I m]: whatever [m] does, the state it leaves is related by
    [I] to the state it started from. *)
Definition preserves (I : State -> State -> Prop) {A} (m : M A) : Prop :=
  forall st,
    match m st with
    | Ok _ st' | Raised _ st' => I st st'
    | OutOfFuel => True
    end.

(** [only_raises E m]: an exception that [m] raises is in [E]. *)
Definition only_raises (E : exn -> Prop) {A} (m : M A) : Prop :=
  forall st,
    match m st with
    | Raised ex _ => E ex
    | _ => True
    end.

(** The exception is neither the KeyError of a failed [db[stkey]] nor the
    NameError of a use of [stp] where it is not bound. *)
Definition names_resolve (ex : exn) : Prop :=
  ex <> KeyError /\ ex <> NameError.

(** The keys of the station dictionary are the same. *)
Definition same_keys (st st' : State) : Prop :=
  map fst (db st') = map fst (db st).

(** What was on disk is still there. *)
Definition disk_grows (st st' : State) : Prop :=
  incl (dirs st) (dirs st') /\ incl (files st) (files st').

(** Lines 401, 409-410, 416: the files a day writes, in the order in
    which it writes them. *)
Definition written_files (o : Options) (sta : Station) (datapath : string)
    (t1 : Z) : list string :=
  (fileZ datapath sta t1
   :: (if PyStr.mem "H" (channels o) then
         [file1 datapath sta t1; file2 datapath sta t1]
       else [])
   ++ (if PyStr.mem "P" (channels o) then [fileP datapath sta t1] else []))%list.


(** * Properties *)

(** ** The library models on known values *)

Example year_2012_069 : UTCDateTime.year 1331251200 = 2012.
Proof. reflexivity. Qed.

Example julday_2012_069 : UTCDateTime.julday 1331251200 = 69.
Proof. reflexivity. Qed.

Example julday_leap_end : UTCDateTime.julday 1356998399 = 366.
Proof. reflexivity. Qed.

Example julday_new_year : UTCDateTime.julday 1356998400 = 1.
Proof. reflexivity. Qed.

Example zfill_year : PyStr.zfill 4 (PyStr.str 987) = "0987".
Proof. reflexivity. Qed.

Example zfill_julday : PyStr.zfill 3 (PyStr.str 69) = "069".
Proof. reflexivity. Qed.

Example zfill_sign : PyStr.zfill 4 (PyStr.str (-5)) = "-005".
Proof. reflexivity. Qed.

Example upper_bh : PyStr.upper "bh" = "BH".
Proof. reflexivity. Qed.

Example contains_net : PyStr.contains "7D" "7D.M08A" = true.
Proof. reflexivity. Qed.

Example tstamp_2012_069 : tstamp Fixtures.day069 = "2012.069.".
Proof. reflexivity. Qed.

Example select_Z : select "Z" (Fixtures.seismic 2) = [Fixtures.trace "BHZ" 2].
Proof. reflexivity. Qed.

Example normalize_empty : normalize_location [] = ["--"].
Proof. reflexivity. Qed.

Example normalize_blank : normalize_location [""; "01"] = ["--"; "01"].
Proof. reflexivity. Qed.

(** ** Events of the building blocks *)

Lemma skipn_log (l evs : list Event) :
  skipn (List.length l) (l ++ evs)%list = evs.
Proof.
  induction l as [|x l IH]; simpl; auto.
Qed.

Section Emits.

Variable P : Event -> Prop.

Lemma emits_ret {A} (a : A) : emits P (ret a).
Proof.
  intros st; simpl. exists []. rewrite app_nil_r. auto.
Qed.

Lemma emits_raise {A} (ex : exn) : emits P (@raise A ex).
Proof.
  intros st; simpl. exists []. rewrite app_nil_r. auto.
Qed.

Lemma emits_bind {A B} (m : M A) (f : A -> M B) :
  emits P m -> (forall a, emits P (f a)) -> emits P (bind m f).
Proof.
  intros Hm Hf st. unfold bind. specialize (Hm st).
  destruct (m st) as [a st'|ex st'|]; auto.
  destruct Hm as (evs & Hlog & Hall).
  specialize (Hf a st').
  destruct (f a st') as [b st''|ex st''|]; auto;
    destruct Hf as (evs' & Hlog' & Hall');
    exists (evs ++ evs')%list;
    (split; [rewrite Hlog', Hlog, app_assoc; reflexivity
            | apply Forall_app; auto]).
Qed.

Lemma emits_emit (ev : Event) : P ev -> emits P (emit ev).
Proof.
  intros H st; simpl. exists [ev]. auto.
Qed.

Lemma emits_item0 {A} (l : list A) : emits P (item0 l).
Proof.
  destruct l; [apply emits_raise | apply emits_ret].
Qed.

Lemma emits_int (x : float) : emits P (int x).
Proof.
  unfold int. destruct (truncate x); [apply emits_ret | apply emits_raise].
Qed.

Lemma emits_item1 {A} (l : list A) : emits P (item1 l).
Proof.
  destruct l as [|x [|y l]];
    [apply emits_raise | apply emits_raise | apply emits_ret].
Qed.

Lemma emits_glob (path : string) : emits P (glob path).
Proof.
  intros st; simpl. exists []. rewrite app_nil_r. auto.
Qed.

Lemma emits_isdir (path : string) : emits P (isdir path).
Proof.
  intros st; simpl. exists []. rewrite app_nil_r. auto.
Qed.

Lemma emits_makedirs (path : string) :
  P (EMakedirs path) -> emits P (makedirs path).
Proof.
  intros H st; simpl. exists [EMakedirs path]. auto.
Qed.

Lemma emits_write (path : string) (tr : Trace) :
  P (EWrite path tr) -> emits P (write path tr).
Proof.
  intros H st; simpl. exists [EWrite path tr]. auto.
Qed.

Lemma emits_bound (stp : option Stream) : emits P (bound stp).
Proof.
  destruct stp; [apply emits_ret | apply emits_raise].
Qed.

Lemma emits_db_get (stkey : string) : emits P (db_get stkey).
Proof.
  intros st. unfold db_get.
  destruct (find _ (db st)); exists []; rewrite app_nil_r; auto.
Qed.

Lemma emits_db_set_location (stkey : string) (locs : list string) :
  emits P (db_set_location stkey locs).
Proof.
  intros st; simpl. exists []. rewrite app_nil_r. auto.
Qed.

Lemma emits_each_trace (f : Trace -> option Trace) (s : Stream) :
  emits P (each_trace f s).
Proof.
  induction s as [|tr s IH]; simpl.
  - apply emits_ret.
  - destruct (f tr); [|apply emits_raise].
    apply emits_bind; [exact IH | intros; apply emits_ret].
Qed.

End Emits.

Create HintDb emits.

#[local] Hint Resolve emits_ret emits_raise emits_item0 emits_item1 emits_int
  emits_glob emits_isdir emits_bound emits_db_get emits_db_set_location
  emits_each_trace : emits.

(** Take a monadic program apart along its binds and branches. *)
Ltac emits_step :=
  match goal with
  | |- emits _ (bind _ _) => apply emits_bind; [|intros ?]
  | |- emits _ (if ?b then _ else _) => destruct b
  | |- emits _ (match ?x with _ => _ end) => destruct x
  | |- emits _ (emit _) => apply emits_emit
  | |- emits _ (write _ _) => apply emits_write
  | |- emits _ (makedirs _) => apply emits_makedirs
  | |- emits _ _ => solve [auto with emits]
  end.

Ltac emits_auto := repeat emits_step.

Lemma emits_weaken {A} (P Q : Event -> Prop) (m : M A) :
  (forall ev, P ev -> Q ev) -> emits P m -> emits Q m.
Proof.
  intros HPQ Hm st. specialize (Hm st).
  destruct (m st) as [a st'|ex st'|]; auto;
    destruct Hm as (evs & Hlog & Hall); exists evs; split; auto;
    eapply Forall_impl; eauto.
Qed.

Lemma emits_events {A} (P : Event -> Prop) (m : M A) (st : State) :
  emits P m -> Forall P (events_since st (m st)).
Proof.
  intros Hm. specialize (Hm st). unfold events_since.
  destruct (m st) as [a st'|ex st'|]; auto;
    destruct Hm as (evs & Hlog & Hall); rewrite Hlog, skipn_log; auto.
Qed.

(** ** Events of the stages of a day *)

Section Stages.

Variable P : Event -> Prop.
Variables (e : Env) (o : Options) (client : Client) (sta : Station).
Variables (datapath : string) (t1 t2 : Z).

Lemma emits_try_get_waveforms (chans : string) :
  fetches_in P client sta t1 t2 ->
  emits P (try_get_waveforms e client sta chans t1 t2).
Proof.
  intros HP. unfold try_get_waveforms.
  destruct (location sta) as [|loc locs] eqn:Hloc; emits_auto.
  apply HP. rewrite Hloc. reflexivity.
Qed.

Lemma emits_acquire :
  fetches_in P client sta t1 t2 ->
  emits P (acquire e o client sta datapath t1 t2).
Proof.
  intros HP.
  unfold acquire, acquire_H, acquire_P, acquire_both,
    check_H, check_P, check_both.
  repeat first [apply emits_try_get_waveforms; assumption | emits_step].
Qed.

Lemma emits_preprocess (sth : Stream) (stp : option Stream) :
  emits P (preprocess e o sth stp).
Proof.
  unfold preprocess, remove_response, detrend, filter, resample.
  emits_auto.
Qed.

Lemma emits_write_traces (sth : Stream) (stp : option Stream) :
  (forall p tr, P (EWrite p tr)) ->
  emits P (write_traces o sta datapath t1 sth stp).
Proof.
  intros HP. unfold write_traces. emits_auto; apply HP.
Qed.

End Stages.

(** ** Results of the stages of a day *)

Lemma returns_ret {A} (Q : A -> Prop) (a : A) : Q a -> returns Q (ret a).
Proof. intros H st; exact H. Qed.

Lemma returns_raise {A} (Q : A -> Prop) (ex : exn) : returns Q (raise ex).
Proof. intros st; exact I. Qed.

Lemma returns_bind_with {A B} (R : A -> Prop) (Q : B -> Prop) (m : M A)
    (f : A -> M B) :
  returns R m -> (forall a, R a -> returns Q (f a)) -> returns Q (bind m f).
Proof.
  intros Hm Hf st. unfold bind. specialize (Hm st).
  destruct (m st) as [a st'|ex st'|]; auto. apply Hf, Hm.
Qed.

Lemma returns_bind {A B} (Q : B -> Prop) (m : M A) (f : A -> M B) :
  returns (fun _ => True) m -> (forall a, returns Q (f a)) ->
  returns Q (bind m f).
Proof.
  intros Hm Hf. apply returns_bind_with with (R := fun _ => True); auto.
Qed.

Lemma returns_weaken {A} (Q R : A -> Prop) (m : M A) :
  (forall a, Q a -> R a) -> returns Q m -> returns R m.
Proof.
  intros HQR Hm st. specialize (Hm st).
  destruct (m st); auto.
Qed.

Lemma returns_item0 {A} (l : list A) : returns (fun _ => True) (item0 l).
Proof. destruct l; intros st; exact I. Qed.

Lemma returns_int (x : float) : returns (fun _ => True) (int x).
Proof. unfold int. destruct (truncate x); intros st; exact I. Qed.

Lemma returns_bound (stp : option Stream) : returns (fun _ => True) (bound stp).
Proof. destruct stp; intros st; exact I. Qed.

Lemma returns_each_trace (f : Trace -> option Trace) (s : Stream) :
  returns (fun _ => True) (each_trace f s).
Proof.
  induction s as [|tr s IH]; simpl.
  - intros st; exact I.
  - destruct (f tr); [|intros st; exact I].
    apply returns_bind; [exact IH | intros a st; exact I].
Qed.

Ltac returns_step :=
  match goal with
  | |- returns _ (bind _ _) => apply returns_bind; [|intros ?]
  | |- returns _ (if ?b then _ else _) => destruct b
  | |- returns _ (match ?x with _ => _ end) => destruct x
  | |- returns _ (ret _) => apply returns_ret
  | |- returns _ (raise _) => apply returns_raise
  | |- returns _ (item0 _) => apply returns_item0
  | |- returns _ (int _) => apply returns_int
  | |- returns _ (bound _) => apply returns_bound
  | |- returns _ (each_trace _ _) => apply returns_each_trace
  | |- returns _ (glob _) => intros ?; exact I
  | |- returns _ (emit _) => intros ?; exact I
  | |- returns _ (write _ _) => intros ?; exact I
  end.

Section DayResults.

Variables (e : Env) (o : Options) (client : Client) (stkey : string).
Variables (sta : Station) (datapath : string) (t1 t2 : Z).

Lemma returns_try_get_waveforms (chans : string) :
  returns (fun _ => True) (try_get_waveforms e client sta chans t1 t2).
Proof.
  unfold try_get_waveforms. repeat returns_step; exact I.
Qed.

Lemma acquire_advances :
  returns (advanced t1 t2) (acquire e o client sta datapath t1 t2).
Proof.
  unfold acquire, acquire_H, acquire_P, acquire_both,
    check_H, check_P, check_both.
  repeat first [apply returns_try_get_waveforms | returns_step];
    simpl; auto.
Qed.

Lemma returns_preprocess (sth : Stream) (stp : option Stream) :
  returns (fun _ => True) (preprocess e o sth stp).
Proof.
  unfold preprocess, remove_response, detrend, filter, resample.
  repeat returns_step; exact I.
Qed.

Lemma returns_write_traces (sth : Stream) (stp : option Stream) :
  returns (fun _ => True) (write_traces o sta datapath t1 sth stp).
Proof.
  unfold write_traces. repeat returns_step; exact I.
Qed.

Lemma day_body_advances :
  returns (fun r => snd (fst r) = t1 + dt /\ snd r = t2 + dt)
          (day_body e o client stkey sta datapath t1 t2).
Proof.
  unfold day_body.
  apply returns_bind; [intros ?; exact I|intros _].
  apply returns_bind_with with (R := advanced t1 t2);
    [apply acquire_advances|].
  intros [s t1' t2'|sth stp] Ha.
  - apply returns_ret. exact Ha.
  - apply returns_bind; [apply returns_preprocess|intros [sth' stp']].
    apply returns_bind; [apply returns_write_traces|intros _].
    apply returns_ret. simpl. auto.
Qed.

End DayResults.

(** ** The day loop *)

Lemma dt_value : dt = 86400.
Proof. reflexivity. Qed.

Lemma window_list_S (t1 t2 : Z) (n : nat) :
  window_list t1 t2 (S n) = (t1, t2) :: window_list (t1 + dt) (t2 + dt) n.
Proof.
  unfold window_list. cbn [seq]. rewrite <- seq_shift. cbn [map].
  rewrite map_map. f_equal.
  - f_equal; lia.
  - apply map_ext. intros k. f_equal; lia.
Qed.

Lemma days_left_stop (tend t2 : Z) : tend < t2 -> days_left tend t2 = O.
Proof.
  intros H. unfold days_left. rewrite dt_value.
  assert ((tend - t2) / 86400 < 0) by (apply Z.div_lt_upper_bound; lia).
  lia.
Qed.

Lemma days_left_go (tend t2 : Z) :
  t2 <= tend -> days_left tend t2 = S (days_left tend (t2 + dt)).
Proof.
  intros H. unfold days_left. rewrite dt_value.
  replace (tend - (t2 + 86400)) with ((tend - t2) + (-1) * 86400) by lia.
  rewrite Z.div_add by lia.
  assert (0 <= (tend - t2) / 86400) by (apply Z.div_pos; lia).
  lia.
Qed.

Lemma day_fuel_days_left (tstart tend : Z) :
  day_fuel tstart tend = days_left tend (tstart + dt).
Proof.
  unfold day_fuel, days_left. rewrite dt_value.
  replace (tend - (tstart + 86400)) with ((tend - tstart) + (-1) * 86400) by lia.
  rewrite Z.div_add by lia. f_equal. lia.
Qed.

Lemma day_fuel_spec (tstart tend : Z) (k : nat) :
  (k < day_fuel tstart tend)%nat <->
  tstart + 86400 * (Z.of_nat k + 1) <= tend.
Proof.
  unfold day_fuel. rewrite dt_value. split; intros H.
  - assert (Z.of_nat k + 1 <= (tend - tstart) / 86400) as Hq by lia.
    pose proof (Z.mul_div_le (tend - tstart) 86400 ltac:(lia)). nia.
  - assert (Z.of_nat k + 1 <= (tend - tstart) / 86400)
      by (apply Z.div_le_lower_bound; lia).
    lia.
Qed.

Lemma days_of_not_day (evs : list Event) :
  Forall not_day evs -> days_of evs = [].
Proof.
  induction 1 as [|ev evs Hev _ IH]; simpl; auto.
  destruct ev; simpl in *; auto; contradiction.
Qed.

Lemma days_of_app (a b : list Event) :
  days_of (a ++ b) = (days_of a ++ days_of b)%list.
Proof. unfold days_of. apply flat_map_app. Qed.

Section DayLoop.

Variables (e : Env) (o : Options) (client : Client) (stkey : string).
Variables (sta : Station) (datapath : string).

(** A day announces itself and then only appends events in [P]. *)
Lemma day_body_events (P : Event -> Prop) (t1 t2 : Z) (st : State) :
  fetches_in P client sta t1 t2 ->
  (forall p tr, P (EWrite p tr)) ->
  match day_body e o client stkey sta datapath t1 t2 st with
  | Ok _ st' | Raised _ st' =>
      exists evs, log st' = (log st ++ EDay stkey t1 t2 :: evs)%list
                  /\ Forall P evs
  | OutOfFuel => True
  end.
Proof.
  intros HF HW. unfold day_body.
  match goal with |- context [bind (emit ?ev) ?k] => set (rest := k tt) end.
  assert (emits P rest) as Hrest.
  { subst rest. apply emits_bind; [apply emits_acquire; assumption|].
    intros [s a b|sth stp]; [apply emits_ret|].
    apply emits_bind; [apply emits_preprocess|intros [sth' stp']].
    apply emits_bind; [apply emits_write_traces; assumption|intros _].
    apply emits_ret. }
  unfold bind at 1. cbn [emit].
  match goal with |- context [rest ?s] => specialize (Hrest s) end.
  cbn [log] in Hrest. fold rest.
  destruct (rest _) as [r st'|ex st'|]; auto;
    destruct Hrest as (evs & Hlog & Hall); exists evs;
    (split; [rewrite Hlog, <- app_assoc; reflexivity | assumption]).
Qed.

Lemma emits_day_body (P : Event -> Prop) (t1 t2 : Z) :
  (forall k a b, P (EDay k a b)) ->
  fetches_in P client sta t1 t2 ->
  (forall p tr, P (EWrite p tr)) ->
  emits P (day_body e o client stkey sta datapath t1 t2).
Proof.
  intros HD HF HW st.
  pose proof (day_body_events P t1 t2 st HF HW) as H.
  destruct (day_body e o client stkey sta datapath t1 t2 st); auto;
    destruct H as (evs & Hlog & Hall); eexists; split; eauto.
Qed.

Lemma emits_while_days (P : Event -> Prop) (fuel : nat) (tend : Z) :
  (forall k a b, P (EDay k a b)) ->
  (forall t1 t2, fetches_in P client sta t1 t2) ->
  (forall p tr, P (EWrite p tr)) ->
  forall t1 t2,
    emits P (while_days fuel e o client stkey sta datapath tend t1 t2).
Proof.
  intros HD HF HW. induction fuel as [|n IH]; intros t1 t2; simpl.
  - destruct (t2 <=? tend); [intros st; exact I | apply emits_ret].
  - destruct (t2 <=? tend); [|apply emits_ret].
    apply emits_bind; [apply emits_day_body; auto|].
    intros [[s a] b]. apply IH.
Qed.

(** With fuel for every day left, the loop visits successive windows:
    all of them when it ends normally, the first of them when a day
    raises. *)
Lemma while_days_windows (tend : Z) (fuel : nat) :
  forall t1 t2 st,
    (days_left tend t2 <= fuel)%nat ->
    match while_days fuel e o client stkey sta datapath tend t1 t2 st with
    | Ok _ st' =>
        exists evs, log st' = (log st ++ evs)%list /\
                    days_of evs = window_list t1 t2 (days_left tend t2)
    | Raised _ st' =>
        exists evs n, log st' = (log st ++ evs)%list /\
                      (n <= days_left tend t2)%nat /\
                      days_of evs = window_list t1 t2 n
    | OutOfFuel => False
    end.
Proof.
  induction fuel as [|n IH]; intros t1 t2 st Hfuel; simpl.
  - destruct (t2 <=? tend) eqn:Ht.
    + apply Z.leb_le in Ht. rewrite days_left_go in Hfuel by assumption. lia.
    + apply Z.leb_gt in Ht. rewrite days_left_stop by assumption.
      simpl. exists []. rewrite app_nil_r. auto.
  - destruct (t2 <=? tend) eqn:Ht.
    2:{ apply Z.leb_gt in Ht. rewrite days_left_stop by assumption.
        simpl. exists []. rewrite app_nil_r. auto. }
    apply Z.leb_le in Ht.
    rewrite days_left_go in * by assumption.
    unfold bind.
    pose proof (day_body_events not_day t1 t2 st
                  (fun _ _ _ => I) (fun _ _ => I)) as Hev.
    pose proof (day_body_advances e o client stkey sta datapath t1 t2 st)
      as Hadv.
    destruct (day_body e o client stkey sta datapath t1 t2 st)
      as [[[s a] b] st1|ex st1|]; [| |contradiction].
    + simpl in Hadv. destruct Hadv as [-> ->].
      destruct Hev as (evs & Hlog & Hall).
      specialize (IH (t1 + dt) (t2 + dt) st1 ltac:(lia)).
      destruct (while_days n e o client stkey sta datapath tend
                  (t1 + dt) (t2 + dt) st1) as [u st2|ex st2|];
        [| |contradiction].
      * destruct IH as (evs' & Hlog' & Hdays).
        exists ((EDay stkey t1 t2 :: evs) ++ evs')%list. split.
        { rewrite Hlog', Hlog, app_assoc. reflexivity. }
        rewrite days_of_app, window_list_S, Hdays. simpl.
        rewrite days_of_not_day by assumption. reflexivity.
      * destruct IH as (evs' & m & Hlog' & Hm & Hdays).
        exists ((EDay stkey t1 t2 :: evs) ++ evs')%list, (S m). split.
        { rewrite Hlog', Hlog, app_assoc. reflexivity. }
        split; [lia|].
        rewrite days_of_app, window_list_S, Hdays. simpl.
        rewrite days_of_not_day by assumption. reflexivity.
    + destruct Hev as (evs & Hlog & Hall).
      exists (EDay stkey t1 t2 :: evs), 1%nat. split; [assumption|].
      split; [lia|].
      rewrite window_list_S. simpl.
      rewrite days_of_not_day by assumption. reflexivity.
Qed.

End DayLoop.

(** ** The station loop *)

Section StationRun.

Variables (e : Env) (o : Options) (stkey : string) (sta : Station).

Lemma emits_make_client (P : Event -> Prop) :
  (forall c, P (EClient c)) -> emits P (make_client o).
Proof.
  intros HC. unfold make_client. emits_auto; apply HC.
Qed.

Lemma returns_make_client : returns (fun _ => True) (make_client o).
Proof.
  unfold make_client.
  destruct (Z.of_nat (List.length (UserAuth o)) =? 0).
  - repeat returns_step; exact I.
  - apply returns_bind; [apply returns_item0|intros u].
    apply returns_bind;
      [destruct (UserAuth o) as [|x [|y l]]; intros st; exact I|intros p].
    repeat returns_step; exact I.
Qed.

Lemma while_days_stop (fuel : nat) (client : Client) (sta' : Station)
    (datapath : string) (tend t1 t2 : Z) :
  tend < t2 ->
  while_days fuel e o client stkey sta' datapath tend t1 t2 = ret tt.
Proof.
  intros H. apply Z.leb_gt in H. destruct fuel; simpl; rewrite H; reflexivity.
Qed.

(** The day loop of a station never runs out of the fuel it is given. *)
Lemma while_days_total (client : Client) (sta' : Station)
    (datapath : string) (tstart tend : Z) :
  returns (fun _ => True)
    (while_days (day_fuel tstart tend) e o client stkey sta' datapath tend
                tstart (tstart + dt)).
Proof.
  intros st.
  pose proof (while_days_windows e o client stkey sta' datapath tend
                (day_fuel tstart tend) tstart (tstart + dt) st) as H.
  rewrite day_fuel_days_left in *. specialize (H (le_n _)).
  destruct (while_days _ e o client stkey sta' datapath tend tstart
              (tstart + dt) st); auto.
Qed.

Lemma station_run_total : returns (fun _ => True) (station_run e o stkey sta).
Proof.
  unfold station_run.
  apply returns_bind; [intros st; exact I|intros d].
  apply returns_bind; [destruct d; intros st; exact I|intros _].
  apply returns_bind; [apply returns_make_client|intros client].
  destruct (out_of_range o sta); [intros st; exact I|].
  apply returns_bind; [intros st; exact I|intros _].
  apply while_days_total.
Qed.

(** The events of a station: directory and client set-up, then days with
    requests at the first normalized location code. *)
Lemma emits_station_run (P : Event -> Prop) :
  (forall p, P (EMakedirs p)) ->
  (forall c, P (EClient c)) ->
  (forall k a b, P (EDay k a b)) ->
  (forall c loc chans t1 t2,
      head (normalize_location (location sta)) = Some loc ->
      P (EFetch c (request sta loc chans t1 t2))) ->
  (forall p tr, P (EWrite p tr)) ->
  emits P (station_run e o stkey sta).
Proof.
  intros HM HC HD HF HW. unfold station_run.
  apply emits_bind; [auto with emits|intros d].
  apply emits_bind; [destruct d; emits_auto; apply HM|intros _].
  apply emits_bind; [apply emits_make_client; assumption|intros client].
  destruct (out_of_range o sta); [apply emits_ret|].
  apply emits_bind; [auto with emits|intros _].
  apply emits_while_days; auto.
  intros t1 t2 loc chans Hloc. apply (HF client loc chans t1 t2). exact Hloc.
Qed.

End StationRun.

Lemma setup_events_only (evs : list Event) :
  Forall setup_event evs ->
  days_of evs = [] /\ fetches_of evs = [] /\ writes_of evs = [].
Proof.
  induction 1 as [|ev evs Hev _ IH]; simpl; auto.
  destruct ev; simpl in *; auto; contradiction.
Qed.

(** * The claims *)

(** C1 (the code departs from it).  Without an end-date override the end
    of the day search is taken from the station's START date (line 166),
    not from its end date as the option's help text says: for a station
    that lived ten days the search range is empty and no day is requested.
    An override, when given, does replace it. *)
Theorem C1_default_end_is_start_date :
  let o := Fixtures.opts ["H"; "P"] false None None in
  search_end o Fixtures.sta0 = startdate Fixtures.sta0
  /\ search_end o Fixtures.sta0 <> enddate Fixtures.sta0
  /\ fetches_of (events_since Fixtures.st0
                   (main Fixtures.e_full o Fixtures.st0)) = []
  /\ (forall t, search_end (Fixtures.opts ["H"; "P"] false None (Some t))
                           Fixtures.sta0 = t).
Proof.
  repeat split; try reflexivity. vm_compute. discriminate.
Qed.

(** C4.  A station whose requested range [search_start, search_end] has no
    instant in common with its lifetime [startdate, enddate] is skipped:
    its run ends without announcing a day, without a waveform request and
    without writing a file. *)
Theorem C4_out_of_range_station_skipped
    (e : Env) (o : Options) (stkey : string) (sta : Station) (st : State) :
  startdate sta <= enddate sta ->
  (forall t, ~ (search_start o sta <= t <= search_end o sta
                /\ startdate sta <= t <= enddate sta)) ->
  let r := station_run e o stkey sta st in
  r <> OutOfFuel
  /\ fetches_of (events_since st r) = []
  /\ writes_of (events_since st r) = []
  /\ days_of (events_since st r) = [].
Proof.
  intros Hlife Hdisj r. split.
  { subst r. pose proof (station_run_total e o stkey sta st) as H.
    intros Heq. rewrite Heq in H. exact H. }
  assert (emits setup_event (station_run e o stkey sta)) as Hem.
  { unfold station_run.
    apply emits_bind; [auto with emits|intros d].
    apply emits_bind; [destruct d; emits_auto; exact I|intros _].
    apply emits_bind; [apply emits_make_client; intros; exact I|intros client].
    destruct (out_of_range o sta) eqn:Hout; [apply emits_ret|].
    apply emits_bind; [auto with emits|intros _].
    rewrite while_days_stop; [apply emits_ret|].
    unfold out_of_range in Hout. apply orb_false_elim in Hout.
    destruct Hout as [H1 H2].
    rewrite Z.gtb_ltb in H1. rewrite Z.ltb_ge in H1, H2.
    rewrite dt_value.
    destruct (Z_lt_le_dec (search_end o sta) (search_start o sta)); [lia|].
    exfalso. apply (Hdisj (Z.max (search_start o sta) (startdate sta))). lia. }
  apply (emits_events _ _ st) in Hem. fold r in Hem.
  destruct (setup_events_only _ Hem) as (? & ? & ?). auto.
Qed.

Lemma C4_out_of_range_station_skipped_witness :
  station_run Fixtures.e_full Fixtures.o_far "XX.YYYY" Fixtures.sta0
              Fixtures.st0 <> OutOfFuel
  /\ fetches_of (events_since Fixtures.st0
                   (station_run Fixtures.e_full Fixtures.o_far "XX.YYYY"
                                Fixtures.sta0 Fixtures.st0)) = []
  /\ writes_of (events_since Fixtures.st0
                  (station_run Fixtures.e_full Fixtures.o_far "XX.YYYY"
                               Fixtures.sta0 Fixtures.st0)) = []
  /\ days_of (events_since Fixtures.st0
                (station_run Fixtures.e_full Fixtures.o_far "XX.YYYY"
                             Fixtures.sta0 Fixtures.st0)) = [].
Proof.
  apply (C4_out_of_range_station_skipped
           Fixtures.e_full Fixtures.o_far "XX.YYYY" Fixtures.sta0 Fixtures.st0).
  - vm_compute. discriminate.
  - intros t. cbn. unfold Fixtures.day069. lia.
Defined.

(** C5.  The day loop of a station walks the successive 24-hour windows
    [(tstart + 86400 k, tstart + 86400 (k + 1))], k = 0, 1, ..., as long
    as the window's end does not exceed [tend]: a day that returns, however
    it ended, hands on a cursor with both endpoints moved by 86400 s; the
    windows announced are the first [n] of that sequence, and all
    [day_fuel tstart tend] of them when no day raised; and the k-th window
    is one of these exactly when its end is at most [tend]. *)
Theorem C5_day_segmenter
    (e : Env) (o : Options) (client : Client) (stkey : string)
    (sta : Station) (datapath : string) (tstart tend : Z) (st : State) :
  let run := while_days (day_fuel tstart tend) e o client stkey sta datapath
                        tend tstart (tstart + dt) in
  (forall t1 t2 st1,
      match day_body e o client stkey sta datapath t1 t2 st1 with
      | Ok (_, t1', t2') _ => t1' = t1 + 86400 /\ t2' = t2 + 86400
      | Raised _ _ => True
      | OutOfFuel => False
      end)
  /\ run st <> OutOfFuel
  /\ (exists n,
         (n <= day_fuel tstart tend)%nat
         /\ days_of (events_since st (run st))
            = map (fun k => (tstart + 86400 * Z.of_nat k,
                             tstart + 86400 * Z.of_nat k + 86400)) (seq 0 n)
         /\ match run st with
            | Ok _ _ => n = day_fuel tstart tend
            | _ => True
            end)
  /\ (forall k : nat,
         (k < day_fuel tstart tend)%nat <->
         tstart + 86400 * Z.of_nat k + 86400 <= tend).
Proof.
  intros run. split; [|split; [|split]].
  - intros t1 t2 st1.
    pose proof (day_body_advances e o client stkey sta datapath t1 t2 st1) as H.
    destruct (day_body e o client stkey sta datapath t1 t2 st1)
      as [[[s a] b] st'|ex st'|]; auto.
  - pose proof (while_days_total e o stkey client sta datapath tstart tend st)
      as H.
    fold run in H. intros Heq. rewrite Heq in H. exact H.
  - pose proof (while_days_windows e o client stkey sta datapath tend
                  (day_fuel tstart tend) tstart (tstart + dt) st) as H.
    assert (days_left tend (tstart + dt) <= day_fuel tstart tend)%nat as Hfuel
      by (rewrite day_fuel_days_left; apply le_n).
    specialize (H Hfuel). rewrite <- day_fuel_days_left in H.
    fold run in H.
    assert (forall n, window_list tstart (tstart + dt) n
                      = map (fun k => (tstart + 86400 * Z.of_nat k,
                                       tstart + 86400 * Z.of_nat k + 86400))
                            (seq 0 n)) as Hwin.
    { intros n. unfold window_list. apply map_ext. intros k.
      rewrite dt_value. f_equal. lia. }
    unfold events_since.
    destruct (run st) as [u st'|ex st'|]; [| |contradiction].
    + destruct H as (evs & Hlog & Hdays).
      exists (day_fuel tstart tend).
      rewrite Hlog, skipn_log, Hdays, Hwin. auto.
    + destruct H as (evs & n & Hlog & Hn & Hdays).
      exists n. rewrite Hlog, skipn_log, Hdays, Hwin. auto.
  - intros k. rewrite day_fuel_spec. lia.
Qed.

(** C9.  Every waveform request made for a station, whatever the channel
    set and the day, carries as its location the first entry of the
    station's normalized location list. *)
Theorem C9_first_location_only
    (e : Env) (o : Options) (stkey : string) (sta : Station) (st : State)
    (c : Client) (rq : Request) :
  In (EFetch c rq) (events_since st (station_run e o stkey sta st)) ->
  head (normalize_location (location sta)) = Some (rq_location rq).
Proof.
  intros Hin.
  pose (P := fun ev => match ev with
                       | EFetch _ rq' =>
                           head (normalize_location (location sta))
                           = Some (rq_location rq')
                       | _ => True
                       end).
  assert (emits P (station_run e o stkey sta)) as Hem.
  { apply emits_station_run; intros; simpl; auto. }
  apply (emits_events _ _ st) in Hem.
  rewrite Forall_forall in Hem. exact (Hem _ Hin).
Qed.

Lemma C9_first_location_only_witness :
  head (normalize_location (location Fixtures.sta0)) = Some "--".
Proof.
  apply (C9_first_location_only
           Fixtures.e_full (Fixtures.o_day ["H"; "P"] false)
           "XX.YYYY" Fixtures.sta0 Fixtures.st0 Fixtures.client0
           (request Fixtures.sta0 "--" "??H" Fixtures.day069
                    (Fixtures.day069 + 86400))).
  vm_compute. do 4 right. left. reflexivity.
Defined.

(** ** Days that start with given events *)

Section StartsWith.

Variable P : Event -> Prop.

Lemma starts_with_nil {A} (m : M A) : emits P m -> starts_with [] P m.
Proof. exact (fun H => H). Qed.

Lemma starts_with_emit {A} (ev : Event) (pre : list Event) (k : unit -> M A) :
  starts_with pre P (k tt) -> starts_with (ev :: pre) P (bind (emit ev) k).
Proof.
  intros Hk st. unfold bind. cbn [emit].
  match goal with |- context [k tt ?s] => specialize (Hk s) end.
  cbn [log] in Hk.
  destruct (k tt _) as [a st'|ex st'|]; auto;
    destruct Hk as (evs & Hlog & Hall); exists evs;
    (split; [rewrite Hlog, <- app_assoc; reflexivity | assumption]).
Qed.

Lemma starts_with_glob {A} (path : string) (pre : list Event)
    (k : bool -> M A) :
  (forall b, starts_with pre P (k b)) -> starts_with pre P (bind (glob path) k).
Proof.
  intros Hk st. unfold bind. cbn [glob]. apply Hk.
Qed.

Lemma starts_with_bind {A B} (pre : list Event) (m : M A) (f : A -> M B) :
  starts_with pre P m -> (forall a, emits P (f a)) ->
  starts_with pre P (bind m f).
Proof.
  intros Hm Hf st. unfold bind. specialize (Hm st).
  destruct (m st) as [a st'|ex st'|]; auto.
  destruct Hm as (evs & Hlog & Hall).
  specialize (Hf a st').
  destruct (f a st') as [b st''|ex st''|]; auto;
    destruct Hf as (evs' & Hlog' & Hall');
    exists (evs ++ evs')%list;
    (split; [rewrite Hlog', Hlog, <- !app_assoc; reflexivity
            | apply Forall_app; auto]).
Qed.

Lemma starts_with_events {A} (pre : list Event) (m : M A) (st : State) :
  starts_with pre P m -> m st <> OutOfFuel ->
  exists evs, events_since st (m st) = (pre ++ evs)%list /\ Forall P evs.
Proof.
  intros Hm Hfuel. specialize (Hm st). unfold events_since.
  destruct (m st) as [a st'|ex st'|]; [| |contradiction];
    destruct Hm as (evs & Hlog & Hall); exists evs;
    rewrite Hlog, skipn_log; auto.
Qed.

End StartsWith.

Section FirstFetch.

Variable P : Event -> Prop.
Variables (e : Env) (o : Options) (client : Client) (stkey : string).
Variables (sta : Station) (datapath : string) (t1 t2 : Z).
Variable loc : string.
Hypothesis Hloc : head (location sta) = Some loc.
Hypothesis HP : fetches_in P client sta t1 t2.

Lemma starts_with_try_get_waveforms (chans : string) :
  starts_with [EFetch client (request sta loc chans t1 t2)] P
              (try_get_waveforms e client sta chans t1 t2).
Proof.
  unfold try_get_waveforms.
  destruct (location sta) as [|l ls]; [discriminate|].
  injection Hloc as ->.
  apply starts_with_emit. apply starts_with_nil, emits_ret.
Qed.

Lemma emits_check_H (sth : Stream) : emits P (check_H t1 t2 sth).
Proof. unfold check_H. emits_auto. Qed.

Lemma emits_check_P (sth stp : Stream) : emits P (check_P t1 t2 sth stp).
Proof. unfold check_P. emits_auto. Qed.

Lemma emits_check_both (sth stp : Stream) :
  emits P (check_both t1 t2 sth stp).
Proof. unfold check_both. emits_auto. Qed.

(** A day that is not skipped starts by requesting the seismic
    channels. *)
Lemma acquire_starts_with_fetch :
  ovr o = true ->
  starts_with [EFetch client (request sta loc (first_channels o sta) t1 t2)]
              P (acquire e o client sta datapath t1 t2).
Proof.
  intros Hovr. unfold acquire, first_channels.
  destruct (negb (PyStr.mem "P" (channels o)));
    [|destruct (negb (PyStr.mem "H" (channels o)))];
    unfold acquire_H, acquire_P, acquire_both;
    repeat (apply starts_with_glob; intros ?);
    rewrite Hovr, andb_false_r;
    (apply starts_with_bind; [apply starts_with_try_get_waveforms|]);
    intros [sth|]; try apply emits_ret;
    try apply emits_check_H;
    (apply emits_bind; [apply emits_try_get_waveforms; exact HP|]);
    intros [stp|]; try apply emits_ret;
    try apply emits_check_P; apply emits_check_both.
Qed.

End FirstFetch.

(** C3.  A day whose expected files all exist is skipped, when overwriting
    is off, right after its banner: the day ends as SKIPPED_EXISTING with
    the cursor moved on and without any waveform request.  When overwriting
    is on, the files are not consulted: whatever exists, the day's first
    action after the banner is the request for its seismic channels. *)
Theorem C3_existing_day_skipped_before_any_request
    (e : Env) (client : Client) (stkey : string) (sta : Station)
    (datapath : string) (t1 t2 : Z) (st : State) :
  (forall o,
      ovr o = false ->
      all_exist st (expected_files o sta datapath t1) = true ->
      day_body e o client stkey sta datapath t1 t2 st
      = Ok (SKIPPED_EXISTING, t1 + 86400, t2 + 86400)
           (log_event (EDay stkey t1 t2) st)
      /\ fetches_of (events_since st
                       (day_body e o client stkey sta datapath t1 t2 st)) = [])
  /\ (forall o loc,
         ovr o = true ->
         head (location sta) = Some loc ->
         exists evs,
           events_since st (day_body e o client stkey sta datapath t1 t2 st)
           = EDay stkey t1 t2
               :: EFetch client (request sta loc (first_channels o sta) t1 t2)
               :: evs).
Proof.
  split.
  - intros o Hovr Hex.
    assert (day_body e o client stkey sta datapath t1 t2 st
            = Ok (SKIPPED_EXISTING, t1 + 86400, t2 + 86400)
                 (log_event (EDay stkey t1 t2) st)) as Hrun.
    { unfold day_body, acquire, expected_files, all_exist in *.
      destruct (negb (PyStr.mem "P" (channels o)));
        [|destruct (negb (PyStr.mem "H" (channels o)))];
        cbn [forallb] in Hex; rewrite !andb_true_iff in Hex;
        unfold acquire_H, acquire_P, acquire_both, bind, emit, glob;
        cbn [files];
        repeat match goal with
               | H : _ /\ _ |- _ => destruct H
               | H : PyStr.mem _ _ = true |- _ => rewrite H; clear H
               end;
        rewrite Hovr; reflexivity. }
    split; [exact Hrun|].
    rewrite Hrun. unfold events_since, log_event. cbn [log].
    rewrite skipn_log. reflexivity.
  - intros o loc Hovr Hloc.
    assert (starts_with
              [EDay stkey t1 t2;
               EFetch client (request sta loc (first_channels o sta) t1 t2)]
              (fun _ => True)
              (day_body e o client stkey sta datapath t1 t2)) as Hsw.
    { unfold day_body. apply starts_with_emit. apply starts_with_bind.
      - apply acquire_starts_with_fetch; [exact Hloc| |exact Hovr].
        intros l c _. exact I.
      - intros [s a b|sth stp]; [apply emits_ret|].
        apply emits_bind; [apply emits_preprocess|intros [sth' stp']].
        apply emits_bind; [apply emits_write_traces; intros; exact I|].
        intros _. apply emits_ret. }
    destruct (starts_with_events _ _ _ st Hsw) as (evs & Hev & _).
    { pose proof (day_body_advances e o client stkey sta datapath t1 t2 st)
        as H.
      intros Heq. rewrite Heq in H. exact H. }
    exists evs. exact Hev.
Qed.

Lemma C3_existing_day_skipped_before_any_request_witness :
  (day_body Fixtures.e_full (Fixtures.o_day ["H"; "P"] false) Fixtures.client0
            "XX.YYYY" Fixtures.sta0n Fixtures.datapath0 Fixtures.day069
            (Fixtures.day069 + 86400) Fixtures.st_done
   = Ok (SKIPPED_EXISTING, Fixtures.day069 + 86400,
         Fixtures.day069 + 86400 + 86400)
        (log_event (EDay "XX.YYYY" Fixtures.day069 (Fixtures.day069 + 86400))
                   Fixtures.st_done)
   /\ fetches_of
        (events_since Fixtures.st_done
           (day_body Fixtures.e_full (Fixtures.o_day ["H"; "P"] false)
                     Fixtures.client0 "XX.YYYY" Fixtures.sta0n
                     Fixtures.datapath0 Fixtures.day069
                     (Fixtures.day069 + 86400) Fixtures.st_done)) = [])
  /\ exists evs,
      events_since Fixtures.st_done
        (day_body Fixtures.e_full (Fixtures.o_day ["H"; "P"] true)
                  Fixtures.client0 "XX.YYYY" Fixtures.sta0n Fixtures.datapath0
                  Fixtures.day069 (Fixtures.day069 + 86400) Fixtures.st_done)
      = EDay "XX.YYYY" Fixtures.day069 (Fixtures.day069 + 86400)
          :: EFetch Fixtures.client0
               (request Fixtures.sta0n "--"
                  (first_channels (Fixtures.o_day ["H"; "P"] true)
                                  Fixtures.sta0n)
                  Fixtures.day069 (Fixtures.day069 + 86400))
          :: evs.
Proof.
  destruct (C3_existing_day_skipped_before_any_request
              Fixtures.e_full Fixtures.client0 "XX.YYYY" Fixtures.sta0n
              Fixtures.datapath0 Fixtures.day069 (Fixtures.day069 + 86400)
              Fixtures.st_done) as [Hskip Hovr].
  split.
  - apply (Hskip (Fixtures.o_day ["H"; "P"] false)); reflexivity.
  - apply (Hovr (Fixtures.o_day ["H"; "P"] true) "--"); reflexivity.
Defined.

(** ** Fetch errors *)

Lemma while_days_step (fuel : nat) (e : Env) (o : Options) (client : Client)
    (stkey : string) (sta : Station) (datapath : string) (tend t1 t2 : Z)
    (st st' : State) (s : status) (t1' t2' : Z) :
  t2 <= tend ->
  day_body e o client stkey sta datapath t1 t2 st = Ok (s, t1', t2') st' ->
  while_days (S fuel) e o client stkey sta datapath tend t1 t2 st
  = while_days fuel e o client stkey sta datapath tend t1' t2' st'.
Proof.
  intros Ht Hday. apply Z.leb_le in Ht. simpl. rewrite Ht.
  unfold bind. rewrite Hday. reflexivity.
Qed.

Lemma while_days_raise (fuel : nat) (e : Env) (o : Options) (client : Client)
    (stkey : string) (sta : Station) (datapath : string) (tend t1 t2 : Z)
    (st st' : State) (ex : exn) :
  t2 <= tend ->
  day_body e o client stkey sta datapath t1 t2 st = Raised ex st' ->
  while_days (S fuel) e o client stkey sta datapath tend t1 t2 st
  = Raised ex st'.
Proof.
  intros Ht Hday. apply Z.leb_le in Ht. simpl. rewrite Ht.
  unfold bind. rewrite Hday. reflexivity.
Qed.

(** In the branch for both channel sets, a failing request ends the day
    as FETCH_FAILED after one or two requests and no write. *)
Lemma day_body_both_fetch_failed
    (e : Env) (o : Options) (client : Client) (stkey : string)
    (sta : Station) (datapath : string) (t1 t2 : Z) (st : State)
    (loc : string) :
  PyStr.mem "P" (channels o) = true ->
  PyStr.mem "H" (channels o) = true ->
  head (location sta) = Some loc ->
  all_exist st (expected_files o sta datapath t1) && negb (ovr o) = false ->
  get_waveforms e client (request sta loc (seismic_channels sta) t1 t2) = None
  \/ get_waveforms e client (request sta loc "??H" t1 t2) = None ->
  exists evs,
    day_body e o client stkey sta datapath t1 t2 st
    = Ok (FETCH_FAILED, t1 + 86400, t2 + 86400)
         {| db := db st; dirs := dirs st; files := files st;
            log := (log st ++ EDay stkey t1 t2 :: evs)%list |}
    /\ writes_of evs = [].
Proof.
  intros HP HH Hloc Hskip Hfail.
  unfold day_body, acquire, expected_files, all_exist in *.
  rewrite HP, HH in *. cbn [negb forallb] in *.
  unfold acquire_both, bind, emit, glob, try_get_waveforms. cbn [files].
  destruct (location sta) as [|l ls]; [discriminate|].
  injection Hloc as ->.
  assert ((PyStr.mem (fileZ datapath sta t1) (files st)
           && PyStr.mem (file1 datapath sta t1) (files st)
           && PyStr.mem (file2 datapath sta t1) (files st)
           && PyStr.mem (fileP datapath sta t1) (files st)
           && negb (ovr o)) = false) as Hskip'.
  { rewrite <- Hskip.
    destruct (PyStr.mem (fileZ datapath sta t1) (files st)),
      (PyStr.mem (file1 datapath sta t1) (files st)),
      (PyStr.mem (file2 datapath sta t1) (files st)),
      (PyStr.mem (fileP datapath sta t1) (files st)); reflexivity. }
  rewrite Hskip'. unfold bind, emit, ret. cbn [db dirs files log].
  destruct (get_waveforms e client
              (request sta loc (seismic_channels sta) t1 t2)) as [sth|] eqn:Hs.
  - destruct Hfail as [Hfail|Hfail]; [discriminate|].
    rewrite Hfail.
    exists [EFetch client (request sta loc (seismic_channels sta) t1 t2);
            EFetch client (request sta loc "??H" t1 t2)].
    split; [|reflexivity].
    cbn [db dirs files log]. rewrite <- !app_assoc. reflexivity.
  - exists [EFetch client (request sta loc (seismic_channels sta) t1 t2)].
    split; [|reflexivity].
    cbn [db dirs files log]. rewrite <- !app_assoc. reflexivity.
Qed.

(** C7.  With both channel sets selected, when the seismic request or the
    pressure request of a day that is not skipped raises, the day ends as
    FETCH_FAILED: nothing is raised further, the files on disk are those
    from before, no file is written, and the loop goes on with the window
    of the next day. *)
Theorem C7_fetch_error_skips_day
    (e : Env) (o : Options) (client : Client) (stkey : string)
    (sta : Station) (datapath : string) (t1 t2 : Z) (st : State)
    (loc : string) :
  PyStr.mem "P" (channels o) = true ->
  PyStr.mem "H" (channels o) = true ->
  head (location sta) = Some loc ->
  all_exist st (expected_files o sta datapath t1) && negb (ovr o) = false ->
  get_waveforms e client (request sta loc (seismic_channels sta) t1 t2) = None
  \/ get_waveforms e client (request sta loc "??H" t1 t2) = None ->
  exists st',
    day_body e o client stkey sta datapath t1 t2 st
    = Ok (FETCH_FAILED, t1 + 86400, t2 + 86400) st'
    /\ files st' = files st
    /\ writes_of (events_since st
                    (day_body e o client stkey sta datapath t1 t2 st)) = []
    /\ forall fuel tend,
        t2 <= tend ->
        while_days (S fuel) e o client stkey sta datapath tend t1 t2 st
        = while_days fuel e o client stkey sta datapath tend
                     (t1 + 86400) (t2 + 86400) st'.
Proof.
  intros HP HH Hloc Hskip Hfail.
  destruct (day_body_both_fetch_failed e o client stkey sta datapath t1 t2 st
              loc HP HH Hloc Hskip Hfail) as (evs & Hrun & Hw).
  eexists. split; [exact Hrun|]. split; [reflexivity|]. split.
  - rewrite Hrun. unfold events_since. cbn [log]. rewrite skipn_log.
    simpl. exact Hw.
  - intros fuel tend Ht.
    apply (while_days_step fuel e o client stkey sta datapath tend t1 t2
             st _ FETCH_FAILED); assumption.
Qed.

Lemma C7_fetch_error_skips_day_witness :
  exists st',
    day_body (Fixtures.env (Some (Fixtures.seismic 10)) None)
             (Fixtures.o_day ["H"; "P"] false) Fixtures.client0 "XX.YYYY"
             Fixtures.sta0n Fixtures.datapath0 Fixtures.day069
             (Fixtures.day069 + 86400) Fixtures.st0
    = Ok (FETCH_FAILED, Fixtures.day069 + 86400,
          Fixtures.day069 + 86400 + 86400) st'
    /\ files st' = files Fixtures.st0
    /\ writes_of
         (events_since Fixtures.st0
            (day_body (Fixtures.env (Some (Fixtures.seismic 10)) None)
                      (Fixtures.o_day ["H"; "P"] false) Fixtures.client0
                      "XX.YYYY" Fixtures.sta0n Fixtures.datapath0
                      Fixtures.day069 (Fixtures.day069 + 86400)
                      Fixtures.st0)) = []
    /\ forall fuel tend,
        Fixtures.day069 + 86400 <= tend ->
        while_days (S fuel) (Fixtures.env (Some (Fixtures.seismic 10)) None)
                   (Fixtures.o_day ["H"; "P"] false) Fixtures.client0
                   "XX.YYYY" Fixtures.sta0n Fixtures.datapath0 tend
                   Fixtures.day069 (Fixtures.day069 + 86400) Fixtures.st0
        = while_days fuel (Fixtures.env (Some (Fixtures.seismic 10)) None)
                     (Fixtures.o_day ["H"; "P"] false) Fixtures.client0
                     "XX.YYYY" Fixtures.sta0n Fixtures.datapath0 tend
                     (Fixtures.day069 + 86400)
                     (Fixtures.day069 + 86400 + 86400) st'.
Proof.
  apply (C7_fetch_error_skips_day
           (Fixtures.env (Some (Fixtures.seismic 10)) None)
           (Fixtures.o_day ["H"; "P"] false) Fixtures.client0 "XX.YYYY"
           Fixtures.sta0n Fixtures.datapath0 Fixtures.day069
           (Fixtures.day069 + 86400) Fixtures.st0 "--").
  - reflexivity.
  - reflexivity.
  - reflexivity.
  - reflexivity.
  - right. reflexivity.
Defined.

(** ** Stages that leave the state alone *)

Lemma pure_ret {A} (a : A) : pure (ret a).
Proof. intros st; reflexivity. Qed.

Lemma pure_raise {A} (ex : exn) : pure (@raise A ex).
Proof. intros st; reflexivity. Qed.

Lemma pure_bind {A B} (m : M A) (f : A -> M B) :
  pure m -> (forall a, pure (f a)) -> pure (bind m f).
Proof.
  intros Hm Hf st. unfold bind. specialize (Hm st).
  destruct (m st) as [a st'|ex st'|]; auto. subst st'. apply Hf.
Qed.

Lemma pure_item0 {A} (l : list A) : pure (item0 l).
Proof. destruct l; intros st; reflexivity. Qed.

Lemma pure_int (x : float) : pure (int x).
Proof. unfold int. destruct (truncate x); intros st; reflexivity. Qed.

Lemma pure_bound (stp : option Stream) : pure (bound stp).
Proof. destruct stp; intros st; reflexivity. Qed.

Lemma pure_each_trace (f : Trace -> option Trace) (s : Stream) :
  pure (each_trace f s).
Proof.
  induction s as [|tr s IH]; simpl.
  - apply pure_ret.
  - destruct (f tr); [|apply pure_raise].
    apply pure_bind; [exact IH|intros; apply pure_ret].
Qed.

Ltac pure_step :=
  match goal with
  | |- pure (bind _ _) => apply pure_bind; [|intros ?]
  | |- pure (if ?b then _ else _) => destruct b
  | |- pure (match ?x with _ => _ end) => destruct x
  | |- pure (ret _) => apply pure_ret
  | |- pure (raise _) => apply pure_raise
  | |- pure (item0 _) => apply pure_item0
  | |- pure (int _) => apply pure_int
  | |- pure (bound _) => apply pure_bound
  | |- pure (each_trace _ _) => apply pure_each_trace
  end.

Lemma pure_preprocess (e : Env) (o : Options) (sth : Stream)
    (stp : option Stream) : pure (preprocess e o sth stp).
Proof.
  unfold preprocess, remove_response, detrend, filter, resample.
  repeat pure_step.
Qed.

Lemma pure_check_H (t1 t2 : Z) (sth : Stream) : pure (check_H t1 t2 sth).
Proof. unfold check_H. repeat pure_step. Qed.

Lemma pure_check_P (t1 t2 : Z) (sth stp : Stream) :
  pure (check_P t1 t2 sth stp).
Proof. unfold check_P. repeat pure_step. Qed.

Lemma pure_check_both (t1 t2 : Z) (sth stp : Stream) :
  pure (check_both t1 t2 sth stp).
Proof. unfold check_both. repeat pure_step. Qed.

Lemma writes_of_not_write (evs : list Event) :
  Forall not_write evs -> writes_of evs = [].
Proof.
  induction 1 as [|ev evs Hev _ IH]; simpl; auto.
  destruct ev; simpl in *; auto; contradiction.
Qed.

(** ** Errors that nothing catches *)

Lemma loop_reaches_raise
    (e : Env) (o : Options) (client : Client) (stkey : string)
    (sta : Station) (datapath : string) (tend : Z)
    (c c' : Z * Z * State) (ex : exn) (st2 : State) :
  loop_reaches e o client stkey sta datapath tend c c' ->
  snd (fst c') <= tend ->
  day_body e o client stkey sta datapath (fst (fst c')) (snd (fst c')) (snd c')
  = Raised ex st2 ->
  forall fuel,
    (days_left tend (snd (fst c)) <= fuel)%nat ->
    while_days fuel e o client stkey sta datapath tend
               (fst (fst c)) (snd (fst c)) (snd c)
    = Raised ex st2.
Proof.
  intros Hreach. induction Hreach as [[[t1 t2] st]|ta tb st_a s ta' tb' st_a' c' Ht Hday _ IH];
    intros Hend Hraise fuel Hfuel; cbn [fst snd] in *.
  - rewrite days_left_go in Hfuel by assumption.
    destruct fuel as [|n]; [lia|]. apply while_days_raise; assumption.
  - rewrite days_left_go in Hfuel by assumption.
    destruct fuel as [|n]; [lia|].
    rewrite (while_days_step n e o client stkey sta datapath tend ta tb
               st_a st_a' s ta' tb' Ht Hday).
    pose proof (day_body_advances e o client stkey sta datapath ta tb st_a)
      as Hadv.
    rewrite Hday in Hadv. cbn [fst snd] in Hadv. destruct Hadv as [-> ->].
    apply IH; auto. lia.
Qed.

Lemma station_run_loop
    (e : Env) (o : Options) (stkey : string) (sta : Station)
    (st_a st_b : State) (client : Client) :
  station_setup o stkey st_a = Ok client st_b ->
  out_of_range o sta = false ->
  station_run e o stkey sta st_a
  = while_days (day_fuel (search_start o sta) (search_end o sta)) e o client
               stkey
               (with_location sta (normalize_location (location sta)))
               ("DATA/" ++ stkey ++ "/") (search_end o sta)
               (search_start o sta) (search_start o sta + dt)
               {| db := map (fun kv =>
                               if String.eqb (fst kv) stkey
                               then (fst kv,
                                     with_location (snd kv)
                                       (normalize_location (location sta)))
                               else kv) (db st_b);
                  dirs := dirs st_b; files := files st_b; log := log st_b |}.
Proof.
  intros Hsetup Hout. unfold station_run, station_setup in *.
  unfold bind in *.
  destruct (isdir ("DATA/" ++ stkey ++ "/") st_a) as [d st1|ex st1|];
    try discriminate.
  destruct ((if negb d then makedirs ("DATA/" ++ stkey ++ "/") else ret tt) st1)
    as [u st2|ex st2|]; try discriminate.
  rewrite Hsetup, Hout. reflexivity.
Qed.

Lemma for_stations_raise (e : Env) (o : Options) (pre post : list string)
    (k : string) (st0 st_a st2 : State) (ex : exn) :
  for_stations e o pre st0 = Ok tt st_a ->
  station_body e o k st_a = Raised ex st2 ->
  for_stations e o (pre ++ k :: post) st0 = Raised ex st2.
Proof.
  revert st0. induction pre as [|k' pre IH]; intros st0 Hpre Hk; simpl in *.
  - injection Hpre as ->. unfold bind. rewrite Hk. reflexivity.
  - unfold bind in *.
    destruct (station_body e o k' st0) as [u st1|ex1 st1|]; try discriminate.
    apply IH; assumption.
Qed.

(** C8.  When the preprocessing of an accepted window raises, nothing
    catches it: the day raises the same exception without having written a
    file; the day loop raises it, from whichever earlier window it was
    entered; the run of the station, which is that day loop once the
    directory and the client are set up, raises it; and so does the
    station loop after any stations it had processed, leaving the stations
    that follow unprocessed. *)
Theorem C8_preprocessing_error_is_fatal
    (e : Env) (o : Options) (client : Client) (stkey : string)
    (sta : Station) (datapath : string) (t1 t2 : Z) (st st1 st2 : State)
    (sth : Stream) (stp : option Stream) (ex : exn) :
  acquire e o client sta datapath t1 t2 (log_event (EDay stkey t1 t2) st)
  = Ok (Accepted sth stp) st1 ->
  preprocess e o sth stp st1 = Raised ex st2 ->
  day_body e o client stkey sta datapath t1 t2 st = Raised ex st2
  /\ st2 = st1
  /\ writes_of (events_since st
                  (day_body e o client stkey sta datapath t1 t2 st)) = []
  /\ (forall tend ta tb st_a fuel,
         loop_reaches e o client stkey sta datapath tend
                      (ta, tb, st_a) (t1, t2, st) ->
         t2 <= tend ->
         (days_left tend tb <= fuel)%nat ->
         while_days fuel e o client stkey sta datapath tend ta tb st_a
         = Raised ex st2)
  /\ (forall sta0 st_a st_b,
         station_setup o stkey st_a = Ok client st_b ->
         out_of_range o sta0 = false ->
         sta = with_location sta0 (normalize_location (location sta0)) ->
         datapath = "DATA/" ++ stkey ++ "/" ->
         loop_reaches e o client stkey sta datapath (search_end o sta0)
           (search_start o sta0, search_start o sta0 + dt,
            {| db := map (fun kv =>
                            if String.eqb (fst kv) stkey
                            then (fst kv,
                                  with_location (snd kv)
                                    (normalize_location (location sta0)))
                            else kv) (db st_b);
               dirs := dirs st_b; files := files st_b; log := log st_b |})
           (t1, t2, st) ->
         t2 <= search_end o sta0 ->
         station_run e o stkey sta0 st_a = Raised ex st2)
  /\ (forall pre post k st0 st_a,
         for_stations e o pre st0 = Ok tt st_a ->
         station_body e o k st_a = Raised ex st2 ->
         for_stations e o (pre ++ k :: post) st0 = Raised ex st2).
Proof.
  intros Hacq Hpre.
  assert (day_body e o client stkey sta datapath t1 t2 st = Raised ex st2)
    as Hday.
  { unfold day_body, bind. cbn [emit]. fold (log_event (EDay stkey t1 t2) st).
    rewrite Hacq, Hpre. reflexivity. }
  assert (st2 = st1) as Hst.
  { pose proof (pure_preprocess e o sth stp st1) as H.
    rewrite Hpre in H. exact H. }
  split; [exact Hday|]. split; [exact Hst|]. split.
  { rewrite Hday. subst st2.
    pose proof (emits_acquire not_write e o client sta datapath t1 t2
                  (fun _ _ _ => I) (log_event (EDay stkey t1 t2) st)) as H.
    rewrite Hacq in H. destruct H as (evs & Hlog & Hall).
    unfold events_since. rewrite Hlog. cbn [log_event log].
    rewrite <- app_assoc, skipn_log. simpl.
    apply writes_of_not_write. exact Hall. }
  split; [|split].
  - intros tend ta tb st_a fuel Hreach Ht Hfuel.
    apply (loop_reaches_raise e o client stkey sta datapath tend
             (ta, tb, st_a) (t1, t2, st) ex st2 Hreach Ht Hday fuel Hfuel).
  - intros sta0 st_a st_b Hsetup Hout -> -> Hreach Ht.
    rewrite (station_run_loop e o stkey sta0 st_a st_b client Hsetup Hout).
    apply (loop_reaches_raise _ _ _ _ _ _ _ _ _ ex st2 Hreach Ht Hday).
    cbn [fst snd]. rewrite day_fuel_days_left. apply le_n.
  - intros pre post k st0 st_a. apply for_stations_raise.
Qed.

Lemma C8_preprocessing_error_is_fatal_witness :
  day_body Fixtures.e_bad (Fixtures.o_day ["H"; "P"] false) Fixtures.client0
           "XX.YYYY" Fixtures.sta0n Fixtures.datapath0 Fixtures.day069
           (Fixtures.day069 + 86400) Fixtures.st0
  = Raised ProcessingError Fixtures.st_fetched
  /\ writes_of
       (events_since Fixtures.st0
          (day_body Fixtures.e_bad (Fixtures.o_day ["H"; "P"] false)
                    Fixtures.client0 "XX.YYYY" Fixtures.sta0n
                    Fixtures.datapath0 Fixtures.day069
                    (Fixtures.day069 + 86400) Fixtures.st0)) = [].
Proof.
  destruct (C8_preprocessing_error_is_fatal
              Fixtures.e_bad (Fixtures.o_day ["H"; "P"] false)
              Fixtures.client0 "XX.YYYY" Fixtures.sta0n Fixtures.datapath0
              Fixtures.day069 (Fixtures.day069 + 86400)
              Fixtures.st0 Fixtures.st_fetched Fixtures.st_fetched
              (Fixtures.seismic 10) (Some (Fixtures.pressure 10))
              ProcessingError)
    as (Hday & _ & Hwrites & _).
  - vm_compute. reflexivity.
  - vm_compute. reflexivity.
  - split; assumption.
Defined.

(** The whole program on two stations: the first day of the first station
    cannot be preprocessed, and the second station is never asked for. *)
Example main_stops_at_preprocessing_error :
  exists st',
    main Fixtures.e_bad (Fixtures.o_day ["H"; "P"] false) Fixtures.st_two
    = Raised ProcessingError st'
    /\ map rq_station (fetches_of (log st')) = ["YYYY"; "YYYY"]
    /\ files st' = [].
Proof.
  eexists. split; [vm_compute; reflexivity|]. split; reflexivity.
Qed.

(** ** The length checks as one test on the first traces *)

Lemma select_nonempty (c : ascii) (s : Stream) :
  is_some (first_of c s) = true -> is_some (head s) = true.
Proof.
  unfold first_of, select. destruct s as [|tr s]; simpl; auto.
Qed.

Lemma within_one (x : Z) : (x >? 1) = negb (x <=? 1).
Proof. rewrite Z.gtb_ltb, Z.leb_antisym, negb_involutive. reflexivity. Qed.

Lemma count_error_rejects (req : list (option Trace)) (rate : option Trace)
    (ex : exn) :
  count_error req rate = Some ex -> accepts req rate = false.
Proof.
  unfold count_error, accepts.
  destruct req as [|[trZ|] rest]; try discriminate.
  destruct rate as [tr0|]; try discriminate.
  destruct (same_counts trZ rest); [|discriminate].
  destruct (expected_count tr0); [discriminate|reflexivity].
Qed.


Lemma check_H_spec (t1 t2 : Z) (sth : Stream) (st : State) :
  let req := [first_of "Z" sth; first_of "1" sth; first_of "2" sth] in
  check_H t1 t2 sth st
  = if all_present req then
      match count_error req (head sth) with
      | Some ex => Raised ex st
      | None =>
          if accepts req (head sth) then Ok (Accepted sth None) st
          else Ok (Continue VALIDATION_FAILED (t1 + dt) (t2 + dt)) st
      end
    else Raised IndexError st.
Proof.
  intros req. subst req.
  unfold check_H, all_present, accepts, count_error, same_counts, first_of.
  pose proof (select_nonempty "Z" sth) as HZ. unfold first_of in HZ.
  destruct (select "Z" sth) as [|trZ sZ]; [reflexivity|].
  destruct (select "1" sth) as [|tr1 s1]; [reflexivity|].
  destruct (select "2" sth) as [|tr2 s2]; [reflexivity|].
  destruct sth as [|tr0 sth]; [specialize (HZ eq_refl); discriminate|].
  cbn [head forallb is_some andb].
  unfold int, expected_count. unfold bind, item0, ret, raise.
  destruct (len (data trZ) =? len (data tr1)),
    (len (data trZ) =? len (data tr2));
    cbn [negb orb andb]; try reflexivity.
  destruct (truncate _) as [ll|ex]; cbn beta iota; try reflexivity.
  rewrite within_one. destruct (_ <=? 1); reflexivity.
Qed.

Lemma check_P_spec (t1 t2 : Z) (sth stp : Stream) (st : State) :
  let req := [first_of "Z" sth; head stp] in
  check_P t1 t2 sth stp st
  = if all_present req then
      match count_error req (head stp) with
      | Some ex => Raised ex st
      | None =>
          if accepts req (head stp) then Ok (Accepted sth (Some stp)) st
          else Ok (Continue VALIDATION_FAILED (t1 + dt) (t2 + dt)) st
      end
    else Raised IndexError st.
Proof.
  intros req. subst req.
  unfold check_P, all_present, accepts, count_error, same_counts, first_of.
  destruct (select "Z" sth) as [|trZ sZ]; [reflexivity|].
  destruct stp as [|trP stp]; [reflexivity|].
  cbn [head forallb is_some andb].
  unfold int, expected_count. unfold bind, item0, ret, raise.
  destruct (len (data trZ) =? len (data trP));
    cbn [negb orb andb]; try reflexivity.
  destruct (truncate _) as [ll|ex]; cbn beta iota; try reflexivity.
  rewrite within_one. destruct (_ <=? 1); reflexivity.
Qed.

Lemma check_both_spec (t1 t2 : Z) (sth stp : Stream) (st : State) :
  let req := [first_of "Z" sth; first_of "1" sth; first_of "2" sth; head stp] in
  check_both t1 t2 sth stp st
  = if all_present req then
      match count_error req (head sth) with
      | Some ex => Raised ex st
      | None =>
          if accepts req (head sth) then Ok (Accepted sth (Some stp)) st
          else Ok (Continue VALIDATION_FAILED (t1 + dt) (t2 + dt)) st
      end
    else Raised IndexError st.
Proof.
  intros req. subst req.
  unfold check_both, all_present, accepts, count_error, same_counts, first_of.
  pose proof (select_nonempty "Z" sth) as HZ. unfold first_of in HZ.
  destruct (select "Z" sth) as [|trZ sZ]; [reflexivity|].
  destruct (select "1" sth) as [|tr1 s1]; [reflexivity|].
  destruct (select "2" sth) as [|tr2 s2]; [reflexivity|].
  destruct stp as [|trP stp]; [reflexivity|].
  destruct sth as [|tr0 sth]; [specialize (HZ eq_refl); discriminate|].
  cbn [head forallb is_some andb].
  unfold int, expected_count. unfold bind, item0, ret, raise.
  destruct (len (data trZ) =? len (data tr1)),
    (len (data trZ) =? len (data tr2)),
    (len (data trZ) =? len (data trP));
    cbn [negb orb andb]; try reflexivity.
  destruct (truncate _) as [ll|ex]; cbn beta iota; try reflexivity.
  rewrite within_one. destruct (_ <=? 1); reflexivity.
Qed.

(** ** The acquisition stage as one function of the answers *)

Lemma add_events_add (st : State) (a b : list Event) :
  add_events (add_events st a) b = add_events st (a ++ b).
Proof.
  unfold add_events. cbn [db dirs files log]. rewrite <- app_assoc.
  reflexivity.
Qed.

Lemma skip_test_H (st : State) (o : Options) (sta : Station)
    (datapath : string) (t1 : Z) :
  PyStr.mem (fileZ datapath sta t1) (files st)
  && PyStr.mem (file1 datapath sta t1) (files st)
  && PyStr.mem (file2 datapath sta t1) (files st)
  = all_exist st [fileZ datapath sta t1; file1 datapath sta t1;
                  file2 datapath sta t1].
Proof.
  unfold all_exist. cbn [forallb].
  rewrite andb_true_r, andb_assoc. reflexivity.
Qed.

Lemma skip_test_P (st : State) (o : Options) (sta : Station)
    (datapath : string) (t1 : Z) :
  PyStr.mem (fileZ datapath sta t1) (files st)
  && PyStr.mem (fileP datapath sta t1) (files st)
  = all_exist st [fileZ datapath sta t1; fileP datapath sta t1].
Proof.
  unfold all_exist. cbn [forallb]. rewrite andb_true_r. reflexivity.
Qed.

Lemma skip_test_both (st : State) (o : Options) (sta : Station)
    (datapath : string) (t1 : Z) :
  PyStr.mem (fileZ datapath sta t1) (files st)
  && PyStr.mem (file1 datapath sta t1) (files st)
  && PyStr.mem (file2 datapath sta t1) (files st)
  && PyStr.mem (fileP datapath sta t1) (files st)
  = all_exist st [fileZ datapath sta t1; file1 datapath sta t1;
                  file2 datapath sta t1; fileP datapath sta t1].
Proof.
  unfold all_exist. cbn [forallb].
  rewrite andb_true_r, !andb_assoc. reflexivity.
Qed.

Section Acquire.

Variables (e : Env) (o : Options) (client : Client) (sta : Station).
Variables (datapath : string) (t1 t2 : Z).

(** A day whose files exist, with overwriting off, is skipped at once. *)
Lemma acquire_skipped (st : State) :
  all_exist st (expected_files o sta datapath t1) && negb (ovr o) = true ->
  acquire e o client sta datapath t1 t2 st
  = Ok (Continue SKIPPED_EXISTING (t1 + dt) (t2 + dt)) st.
Proof.
  intros Hskip. unfold acquire, expected_files in *.
  destruct (negb (PyStr.mem "P" (channels o)));
    [|destruct (negb (PyStr.mem "H" (channels o)))];
    unfold acquire_H, acquire_P, acquire_both, bind, glob;
    [rewrite skip_test_H|rewrite skip_test_P|rewrite skip_test_both];
    auto; rewrite Hskip; reflexivity.
Qed.

(** Without a location code the request cannot even be built. *)
Lemma acquire_no_location (st : State) :
  all_exist st (expected_files o sta datapath t1) && negb (ovr o) = false ->
  head (location sta) = None ->
  acquire e o client sta datapath t1 t2 st
  = Ok (Continue FETCH_FAILED (t1 + dt) (t2 + dt)) st.
Proof.
  intros Hskip Hloc. unfold acquire, expected_files in *.
  destruct (location sta) as [|l ls] eqn:Hl; [|discriminate].
  destruct (negb (PyStr.mem "P" (channels o)));
    [|destruct (negb (PyStr.mem "H" (channels o)))];
    unfold acquire_H, acquire_P, acquire_both, bind, glob;
    [rewrite skip_test_H|rewrite skip_test_P|rewrite skip_test_both];
    auto; rewrite Hskip; unfold try_get_waveforms; rewrite Hl; reflexivity.
Qed.

(** Otherwise the day makes its requests and, when they are answered,
    tests the first traces of the required components. *)
Lemma acquire_run (st : State) (loc : string) :
  all_exist st (expected_files o sta datapath t1) && negb (ovr o) = false ->
  head (location sta) = Some loc ->
  acquire e o client sta datapath t1 t2 st
  = let st1 := add_events st (fetch_events e o client sta loc t1 t2) in
    match fetched e o client sta t1 t2 with
    | None => Ok (Continue FETCH_FAILED (t1 + dt) (t2 + dt)) st1
    | Some (sth, stp) =>
        if all_present (required_traces o sth stp) then
          match count_error (required_traces o sth stp)
                            (rate_trace o sth stp) with
          | Some ex => Raised ex st1
          | None =>
              if accepts (required_traces o sth stp) (rate_trace o sth stp)
              then Ok (Accepted sth stp) st1
              else Ok (Continue VALIDATION_FAILED (t1 + dt) (t2 + dt)) st1
          end
        else Raised IndexError st1
    end.
Proof.
  intros Hskip Hloc.
  unfold acquire, expected_files, fetched, fetch_events, required_traces,
    rate_trace, first_channels in *.
  rewrite Hloc.
  destruct (location sta) as [|l ls] eqn:Hl; [discriminate|].
  injection Hloc as ->.
  destruct (negb (PyStr.mem "P" (channels o)));
    [|destruct (negb (PyStr.mem "H" (channels o)))];
    unfold acquire_H, acquire_P, acquire_both, bind, glob;
    [rewrite skip_test_H|rewrite skip_test_P|rewrite skip_test_both];
    auto; rewrite Hskip; unfold try_get_waveforms; rewrite Hl;
    unfold bind, emit, ret;
    fold (add_events st
            [EFetch client (request sta loc (seismic_channels sta) t1 t2)]);
    fold (add_events st
            [EFetch client (request sta loc (vertical_channel sta) t1 t2)]).
  - destruct (get_waveforms e client
                (request sta loc (seismic_channels sta) t1 t2)) as [sth|];
      [|reflexivity].
    rewrite check_H_spec. reflexivity.
  - destruct (get_waveforms e client
                (request sta loc (vertical_channel sta) t1 t2)) as [sth|];
      [|reflexivity].
    match goal with
    | |- _ ?s = _ =>
        replace s with (add_events st
                          [EFetch client (request sta loc (vertical_channel sta) t1 t2);
                           EFetch client (request sta loc "??H" t1 t2)])
          by (unfold add_events; cbn [db dirs files log];
              rewrite <- app_assoc; reflexivity)
    end.
    destruct (get_waveforms e client (request sta loc "??H" t1 t2))
      as [stp|]; [|reflexivity].
    cbn [option_map]. rewrite check_P_spec. reflexivity.
  - destruct (get_waveforms e client
                (request sta loc (seismic_channels sta) t1 t2)) as [sth|];
      [|reflexivity].
    match goal with
    | |- _ ?s = _ =>
        replace s with (add_events st
                          [EFetch client (request sta loc (seismic_channels sta) t1 t2);
                           EFetch client (request sta loc "??H" t1 t2)])
          by (unfold add_events; cbn [db dirs files log];
              rewrite <- app_assoc; reflexivity)
    end.
    destruct (get_waveforms e client (request sta loc "??H" t1 t2))
      as [stp|]; [|reflexivity].
    cbn [option_map]. rewrite check_both_spec. reflexivity.
Qed.

End Acquire.

(** ** Preprocessing as a map over the traces *)

Lemma each_trace_spec (f : Trace -> option Trace) (s : Stream) (st : State) :
  each_trace f s st
  = match map_opt f s with
    | Some s' => Ok s' st
    | None => Raised ProcessingError st
    end.
Proof.
  induction s as [|tr s IH]; simpl; [reflexivity|].
  destruct (f tr) as [tr'|]; [|reflexivity].
  unfold bind. rewrite IH. destruct (map_opt f s); reflexivity.
Qed.

Lemma map_opt_and_then (f g : Trace -> option Trace) (s : Stream) :
  map_opt (and_then f g) s
  = match map_opt f s with
    | Some s' => map_opt g s'
    | None => None
    end.
Proof.
  induction s as [|tr s IH]; simpl; [reflexivity|].
  unfold and_then at 1. destruct (f tr) as [tr'|]; [|reflexivity].
  rewrite IH. destruct (map_opt f s) as [s'|]; simpl.
  - reflexivity.
  - destruct (g tr'); reflexivity.
Qed.

Lemma bind_each_trace {B} (f : Trace -> option Trace) (s : Stream)
    (k : Stream -> M B) (st : State) :
  bind (each_trace f s) k st
  = match map_opt f s with
    | Some s' => k s' st
    | None => Raised ProcessingError st
    end.
Proof.
  unfold bind. rewrite each_trace_spec. destruct (map_opt f s); reflexivity.
Qed.

Lemma map_opt_process (e : Env) (o : Options) (output : option string)
    (s : Stream) :
  map_opt (process e o output) s
  = match map_opt (on_data (op_remove_response e (pre_filt o) output)) s with
    | None => None
    | Some s1 =>
        match map_opt (on_data (op_detrend e "demean")) s1 with
        | None => None
        | Some s2 =>
            match map_opt (on_data (op_detrend e "linear")) s2 with
            | None => None
            | Some s3 =>
                match map_opt (on_data (op_filter e "lowpass"
                                          (0.5 * new_sampling_rate o)%float
                                          2 true)) s3 with
                | None => None
                | Some s4 => map_opt (resample_trace e (new_sampling_rate o)) s4
                end
            end
        end
    end.
Proof.
  unfold process.
  rewrite map_opt_and_then. destruct (map_opt _ s) as [s1|]; [|reflexivity].
  rewrite map_opt_and_then. destruct (map_opt _ s1) as [s2|]; [|reflexivity].
  rewrite map_opt_and_then. destruct (map_opt _ s2) as [s3|]; [|reflexivity].
  rewrite map_opt_and_then. reflexivity.
Qed.

Ltac stage :=
  rewrite ?each_trace_spec;
  match goal with
  | |- context [match map_opt ?f ?s with _ => _ end] => destruct (map_opt f s)
  end;
  cbn beta iota; cbn [option_map]; try reflexivity.

Lemma preprocess_spec (e : Env) (o : Options) (sth : Stream)
    (stp : option Stream) (st : State) :
  (PyStr.mem "P" (channels o) = true -> stp <> None) ->
  preprocess e o sth stp st
  = match preprocessed e o sth stp with
    | Some r => Ok r st
    | None => Raised ProcessingError st
    end.
Proof.
  intros Hstp. unfold preprocess, preprocessed.
  unfold remove_response, detrend, filter, resample.
  destruct (PyStr.mem "P" (channels o)) eqn:HP;
    [destruct stp as [p|]; [|exfalso; apply Hstp; reflexivity]|];
    rewrite ?map_opt_process; unfold bound; unfold bind, ret, raise;
    repeat stage.
Qed.

(** ** First traces before and after preprocessing *)

Lemma keeps_channel_on_data (op : Trace -> option (list Q)) :
  keeps_channel (on_data op).
Proof.
  intros a b. unfold on_data. destruct (op a); simpl; [|discriminate].
  intros H. injection H as <-. reflexivity.
Qed.

Lemma keeps_channel_resample (e : Env) (rate : float) :
  keeps_channel (resample_trace e rate).
Proof.
  intros a b. unfold resample_trace.
  destruct (op_resample e rate a); simpl; [|discriminate].
  intros H. injection H as <-. reflexivity.
Qed.

Lemma keeps_channel_and_then (f g : Trace -> option Trace) :
  keeps_channel f -> keeps_channel g -> keeps_channel (and_then f g).
Proof.
  intros Hf Hg a b. unfold and_then. destruct (f a) as [a'|] eqn:Ha;
    [|discriminate].
  intros Hb. rewrite (Hg _ _ Hb). apply Hf. exact Ha.
Qed.

Lemma keeps_channel_process (e : Env) (o : Options) (output : option string) :
  keeps_channel (process e o output).
Proof.
  unfold process.
  repeat first [apply keeps_channel_and_then
               | apply keeps_channel_on_data
               | apply keeps_channel_resample].
Qed.

Lemma map_opt_head (f : Trace -> option Trace) (s s' : Stream) :
  map_opt f s = Some s' -> head s' = then_first f (head s).
Proof.
  destruct s as [|a s]; simpl.
  - intros H. injection H as <-. reflexivity.
  - destruct (f a) as [b|]; [|discriminate].
    destruct (map_opt f s); [|discriminate].
    intros H. injection H as <-. reflexivity.
Qed.

Lemma map_opt_first_of (f : Trace -> option Trace) (c : ascii) :
  keeps_channel f ->
  forall s s', map_opt f s = Some s' ->
               first_of c s' = then_first f (first_of c s).
Proof.
  intros Hf. unfold first_of, select.
  induction s as [|a s IH]; simpl; intros s' H.
  - injection H as <-. reflexivity.
  - destruct (f a) as [b|] eqn:Hb; [|discriminate].
    destruct (map_opt f s) as [r|]; [|discriminate].
    injection H as <-. simpl.
    assert (has_component c b = has_component c a) as Hc.
    { unfold has_component, component. rewrite (Hf _ _ Hb). reflexivity. }
    rewrite Hc. destruct (has_component c a); simpl.
    + symmetry. exact Hb.
    + apply IH. reflexivity.
Qed.

Lemma preprocessed_firsts (e : Env) (o : Options) (sth : Stream)
    (stp : option Stream) (sth' : Stream) (stp' : option Stream) :
  preprocessed e o sth stp = Some (sth', stp') ->
  (forall c, first_of c sth'
             = then_first (process e o (Some "DISP")) (first_of c sth))
  /\ (PyStr.mem "P" (channels o) = true ->
      first_pressure stp'
      = then_first (process e o None) (first_pressure stp)).
Proof.
  unfold preprocessed.
  destruct (map_opt (process e o (Some "DISP")) sth) as [s1|] eqn:Hs;
    [|discriminate].
  destruct (PyStr.mem "P" (channels o)).
  - destruct stp as [p|]; [|discriminate].
    destruct (map_opt (process e o None) p) as [p1|] eqn:Hp; [|discriminate].
    simpl. intros H. injection H as <- <-. split.
    + intros c. apply map_opt_first_of; [apply keeps_channel_process|exact Hs].
    + intros _. simpl. apply map_opt_head. exact Hp.
  - intros H. injection H as <- <-. split; [|discriminate].
    intros c. apply map_opt_first_of; [apply keeps_channel_process|exact Hs].
Qed.

(** A trace that was there before a bundle was preprocessed is there
    after. *)
Lemma map_opt_first_present (f : Trace -> option Trace) (c : ascii)
    (s s' : Stream) :
  keeps_channel f -> map_opt f s = Some s' ->
  is_some (first_of c s') = is_some (first_of c s).
Proof.
  intros Hf. unfold first_of, select. revert s'.
  induction s as [|a s IH]; simpl; intros s' H.
  - injection H as <-. reflexivity.
  - destruct (f a) as [b|] eqn:Hb; [|discriminate].
    destruct (map_opt f s) as [r|]; [|discriminate].
    injection H as <-. simpl.
    assert (has_component c b = has_component c a) as Hc.
    { unfold has_component, component. rewrite (Hf _ _ Hb). reflexivity. }
    rewrite Hc. destruct (has_component c a); simpl; auto.
Qed.

Lemma map_opt_head_present (f : Trace -> option Trace) (s s' : Stream) :
  map_opt f s = Some s' -> is_some (head s') = is_some (head s).
Proof.
  destruct s as [|a s]; simpl.
  - intros H. injection H as <-. reflexivity.
  - destruct (f a) as [b|]; [|discriminate].
    destruct (map_opt f s); [|discriminate].
    intros H. injection H as <-. reflexivity.
Qed.

Lemma preprocessed_present (e : Env) (o : Options) (sth : Stream)
    (stp : option Stream) (sth' : Stream) (stp' : option Stream) :
  preprocessed e o sth stp = Some (sth', stp') ->
  (forall c, is_some (first_of c sth') = is_some (first_of c sth))
  /\ (PyStr.mem "P" (channels o) = true ->
      is_some (first_pressure stp') = is_some (first_pressure stp)).
Proof.
  unfold preprocessed.
  destruct (map_opt (process e o (Some "DISP")) sth) as [s1|] eqn:Hs;
    [|discriminate].
  destruct (PyStr.mem "P" (channels o)).
  - destruct stp as [p|]; [|discriminate].
    destruct (map_opt (process e o None) p) as [p1|] eqn:Hp; [|discriminate].
    simpl. intros H. injection H as <- <-. split.
    + intros c. eapply map_opt_first_present;
        [apply keeps_channel_process|exact Hs].
    + intros _. simpl. eapply map_opt_head_present. exact Hp.
  - intros H. injection H as <- <-. split; [|discriminate].
    intros c. eapply map_opt_first_present;
      [apply keeps_channel_process|exact Hs].
Qed.

(** ** Writing *)

Lemma write_traces_spec (o : Options) (sta : Station) (datapath : string)
    (t1 : Z) (sth : Stream) (stp : option Stream) (st : State) :
  is_some (first_of "Z" sth) = true ->
  (PyStr.mem "H" (channels o) = true ->
   is_some (first_of "1" sth) = true /\ is_some (first_of "2" sth) = true) ->
  (PyStr.mem "P" (channels o) = true -> is_some (first_pressure stp) = true) ->
  write_traces o sta datapath t1 sth stp st
  = Ok tt (written st (day_writes o sta datapath t1
                         (first_of "Z" sth) (first_of "1" sth)
                         (first_of "2" sth) (first_pressure stp))).
Proof.
  intros HZ HH HP. unfold write_traces, day_writes, first_of in *.
  destruct (select "Z" sth) as [|trZ sZ]; [discriminate|].
  destruct (PyStr.mem "H" (channels o)), (PyStr.mem "P" (channels o)).
  - destruct (HH eq_refl) as [H1 H2]. specialize (HP eq_refl).
    destruct (select "1" sth) as [|tr1 s1]; [discriminate|].
    destruct (select "2" sth) as [|tr2 s2]; [discriminate|].
    destruct stp as [[|trP p]|]; try discriminate. reflexivity.
  - destruct (HH eq_refl) as [H1 H2].
    destruct (select "1" sth) as [|tr1 s1]; [discriminate|].
    destruct (select "2" sth) as [|tr2 s2]; [discriminate|].
    reflexivity.
  - specialize (HP eq_refl).
    destruct stp as [[|trP p]|]; try discriminate. reflexivity.
  - reflexivity.
Qed.

(** ** A day as one function of the answers of the data center *)

Lemma fetched_pressure_bound (e : Env) (o : Options) (client : Client)
    (sta : Station) (t1 t2 : Z) (sth : Stream) (stp : option Stream) :
  fetched e o client sta t1 t2 = Some (sth, stp) ->
  PyStr.mem "P" (channels o) = true -> stp <> None.
Proof.
  unfold fetched. intros H HP.
  destruct (head (location sta)); [|discriminate].
  destruct (get_waveforms e client _); [|discriminate].
  rewrite HP in H. simpl in H.
  destruct (get_waveforms e client _); [|discriminate].
  injection H as <- <-. discriminate.
Qed.

Lemma all_present_written (o : Options) (sth : Stream) (stp : option Stream) :
  all_present (required_traces o sth stp) = true ->
  is_some (first_of "Z" sth) = true
  /\ (PyStr.mem "H" (channels o) = true ->
      is_some (first_of "1" sth) = true /\ is_some (first_of "2" sth) = true)
  /\ (PyStr.mem "P" (channels o) = true ->
      is_some (first_pressure stp) = true).
Proof.
  unfold all_present, required_traces.
  destruct (PyStr.mem "P" (channels o)), (PyStr.mem "H" (channels o));
    cbn [negb forallb]; rewrite ?andb_true_iff;
    intros H; repeat split; try discriminate; tauto.
Qed.

Lemma day_body_run (e : Env) (o : Options) (client : Client)
    (stkey : string) (sta : Station) (datapath : string) (loc : string)
    (t1 t2 : Z) (st : State) :
  all_exist st (expected_files o sta datapath t1) && negb (ovr o) = false ->
  head (location sta) = Some loc ->
  day_body e o client stkey sta datapath t1 t2 st
  = day_outcome e o client stkey sta datapath loc t1 t2 st.
Proof.
  intros Hskip Hloc. unfold day_body, day_outcome, window_outcome.
  unfold bind at 1. cbn [emit]. fold (log_event (EDay stkey t1 t2) st).
  unfold bind at 1.
  rewrite (acquire_run e o client sta datapath t1 t2
             (log_event (EDay stkey t1 t2) st) loc Hskip Hloc).
  cbv zeta.
  replace (add_events (log_event (EDay stkey t1 t2) st)
                      (fetch_events e o client sta loc t1 t2))
    with (add_events st (EDay stkey t1 t2
                         :: fetch_events e o client sta loc t1 t2))
    by (unfold add_events, log_event; cbn [db dirs files log];
        rewrite <- app_assoc; reflexivity).
  destruct (fetched e o client sta t1 t2) as [[sth stp]|] eqn:Hf;
    [|reflexivity].
  destruct (all_present (required_traces o sth stp)) eqn:Hall; [|reflexivity].
  destruct (count_error (required_traces o sth stp) (rate_trace o sth stp));
    [reflexivity|].
  destruct (accepts (required_traces o sth stp) (rate_trace o sth stp));
    [|reflexivity].
  unfold bind at 1.
  rewrite preprocess_spec by (eapply fetched_pressure_bound; exact Hf).
  destruct (preprocessed e o sth stp) as [[sth' stp']|] eqn:Hpre;
    [|reflexivity].
  destruct (all_present_written o sth stp Hall) as (HZ & HH & HP).
  destruct (preprocessed_present e o sth stp sth' stp' Hpre) as (Hs & Hp).
  unfold bind. rewrite write_traces_spec.
  - reflexivity.
  - rewrite Hs. exact HZ.
  - intros Hm. rewrite !Hs. apply HH. exact Hm.
  - intros Hm. rewrite Hp by exact Hm. apply HP. exact Hm.
Qed.

Lemma day_body_skipped (e : Env) (o : Options) (client : Client)
    (stkey : string) (sta : Station) (datapath : string)
    (t1 t2 : Z) (st : State) :
  all_exist st (expected_files o sta datapath t1) && negb (ovr o) = true ->
  day_body e o client stkey sta datapath t1 t2 st
  = Ok (SKIPPED_EXISTING, t1 + dt, t2 + dt) (log_event (EDay stkey t1 t2) st).
Proof.
  intros Hskip. unfold day_body.
  unfold bind at 1. cbn [emit]. fold (log_event (EDay stkey t1 t2) st).
  unfold bind. rewrite acquire_skipped by exact Hskip. reflexivity.
Qed.

Lemma day_body_no_location (e : Env) (o : Options) (client : Client)
    (stkey : string) (sta : Station) (datapath : string)
    (t1 t2 : Z) (st : State) :
  all_exist st (expected_files o sta datapath t1) && negb (ovr o) = false ->
  head (location sta) = None ->
  day_body e o client stkey sta datapath t1 t2 st
  = Ok (FETCH_FAILED, t1 + dt, t2 + dt) (log_event (EDay stkey t1 t2) st).
Proof.
  intros Hskip Hloc. unfold day_body.
  unfold bind at 1. cbn [emit]. fold (log_event (EDay stkey t1 t2) st).
  unfold bind. rewrite acquire_no_location by assumption. reflexivity.
Qed.

Lemma log_written (st : State) (ws : list (string * Trace)) :
  log (written st ws)
  = (log st ++ map (fun w => EWrite (fst w) (snd w)) ws)%list.
Proof.
  unfold written. revert st.
  induction ws as [|w ws IH]; intros st; simpl.
  - rewrite app_nil_r. reflexivity.
  - rewrite IH. cbn [after_write log]. rewrite <- app_assoc. reflexivity.
Qed.

(** ** The events of a day *)

Lemma events_since_add {A} (st : State) (evs : list Event)
    (r : Res A) (st' : State) :
  (exists a, r = Ok a st') \/ (exists ex, r = Raised ex st') ->
  log st' = (log st ++ evs)%list ->
  events_since st r = evs.
Proof.
  intros [[a ->]|[ex ->]] Hlog; unfold events_since;
    rewrite Hlog; apply skipn_log.
Qed.

Lemma day_outcome_events (e : Env) (o : Options) (client : Client)
    (stkey : string) (sta : Station) (datapath : string) (loc : string)
    (t1 t2 : Z) (st : State) :
  events_since st (day_outcome e o client stkey sta datapath loc t1 t2 st)
  = (EDay stkey t1 t2 :: fetch_events e o client sta loc t1 t2
     ++ write_events (day_written e o client sta datapath t1 t2))%list.
Proof.
  unfold day_outcome, window_outcome, day_written, write_events.
  destruct (fetched e o client sta t1 t2) as [[sth stp]|].
  2:{ eapply events_since_add; [left; eauto|].
      cbn [add_events log map]. rewrite app_nil_r. reflexivity. }
  destruct (all_present (required_traces o sth stp)); cbn [andb].
  2:{ eapply events_since_add; [right; eauto|].
      cbn [add_events log map]. rewrite app_nil_r. reflexivity. }
  destruct (count_error (required_traces o sth stp) (rate_trace o sth stp))
    as [ex|] eqn:Hce.
  { rewrite (count_error_rejects _ _ _ Hce).
    eapply events_since_add; [right; eauto|].
    cbn [add_events log map]. rewrite app_nil_r. reflexivity. }
  destruct (accepts (required_traces o sth stp) (rate_trace o sth stp)).
  2:{ eapply events_since_add; [left; eauto|].
      cbn [add_events log map]. rewrite app_nil_r. reflexivity. }
  destruct (preprocessed e o sth stp) as [[sth' stp']|].
  2:{ eapply events_since_add; [right; eauto|].
      cbn [add_events log map]. rewrite app_nil_r. reflexivity. }
  eapply events_since_add; [left; eauto|].
  rewrite log_written. cbn [add_events log].
  rewrite <- app_assoc. reflexivity.
Qed.

Lemma fetches_of_app (a b : list Event) :
  fetches_of (a ++ b) = (fetches_of a ++ fetches_of b)%list.
Proof. unfold fetches_of. apply flat_map_app. Qed.

Lemma writes_of_app (a b : list Event) :
  writes_of (a ++ b) = (writes_of a ++ writes_of b)%list.
Proof. unfold writes_of. apply flat_map_app. Qed.

Lemma fetches_of_write_events (ws : list (string * Trace)) :
  fetches_of (write_events ws) = [].
Proof. induction ws; simpl; auto. Qed.

Lemma writes_of_write_events (ws : list (string * Trace)) :
  writes_of (write_events ws) = map fst ws.
Proof. induction ws as [|w ws IH]; simpl; [|rewrite IH]; reflexivity. Qed.

Lemma writes_of_fetch_events (e : Env) (o : Options) (client : Client)
    (sta : Station) (loc : string) (t1 t2 : Z) :
  writes_of (fetch_events e o client sta loc t1 t2) = [].
Proof.
  unfold fetch_events.
  destruct (negb (PyStr.mem "P" (channels o))); [reflexivity|].
  destruct (get_waveforms e client _); reflexivity.
Qed.

Lemma str_app_assoc (a b c : string) : ((a ++ b) ++ c = a ++ (b ++ c))%string.
Proof.
  induction a as [|x a IH]; simpl; [reflexivity|]. rewrite IH. reflexivity.
Qed.

Lemma file_names (stkey : string) (sta : Station) (t1 : Z) :
  fileZ ("DATA/" ++ stkey ++ "/") sta t1 = sac_name stkey sta t1 "Z"
  /\ file1 ("DATA/" ++ stkey ++ "/") sta t1 = sac_name stkey sta t1 "1"
  /\ file2 ("DATA/" ++ stkey ++ "/") sta t1 = sac_name stkey sta t1 "2"
  /\ fileP ("DATA/" ++ stkey ++ "/") sta t1 = sac_name stkey sta t1 "H".
Proof.
  unfold fileZ, file1, file2, fileP, sac_name, tstamp.
  repeat split; rewrite !str_app_assoc; reflexivity.
Qed.

(** C6 as the specification states it fails: the script puts a dot at the
    end of the time stamp and another one in front of the channel code, so
    the files of day 069 of 2012 are named [2012.069..BH1.SAC] and so on,
    with two dots, and no file [2012.069.BH1.SAC] is written. *)
Lemma C6_file_names_have_two_dots :
  writes_of
    (events_since Fixtures.st0
       (day_body Fixtures.e_full (Fixtures.o_day ["H"] false)
                 Fixtures.client0 "XX.YYYY" Fixtures.sta0n "DATA/XX.YYYY/"
                 Fixtures.day069 (Fixtures.day069 + 86400) Fixtures.st0))
  = ["DATA/XX.YYYY/2012.069..BHZ.SAC"; "DATA/XX.YYYY/2012.069..BH1.SAC";
     "DATA/XX.YYYY/2012.069..BH2.SAC"]
  /\ ~ In "DATA/XX.YYYY/2012.069.BH1.SAC"
        (writes_of
           (events_since Fixtures.st0
              (day_body Fixtures.e_full (Fixtures.o_day ["H"] false)
                        Fixtures.client0 "XX.YYYY" Fixtures.sta0n
                        "DATA/XX.YYYY/" Fixtures.day069
                        (Fixtures.day069 + 86400) Fixtures.st0))).
Proof.
  assert (writes_of
            (events_since Fixtures.st0
               (day_body Fixtures.e_full (Fixtures.o_day ["H"] false)
                         Fixtures.client0 "XX.YYYY" Fixtures.sta0n
                         "DATA/XX.YYYY/" Fixtures.day069
                         (Fixtures.day069 + 86400) Fixtures.st0))
          = ["DATA/XX.YYYY/2012.069..BHZ.SAC";
             "DATA/XX.YYYY/2012.069..BH1.SAC";
             "DATA/XX.YYYY/2012.069..BH2.SAC"]) as H
      by (vm_compute; reflexivity).
  split; [exact H|]. rewrite H. simpl.
  intros [F|[F|[F|F]]]; try discriminate F. exact F.
Qed.

(** C6, amended.  With the horizontal channels and no pressure selected, a
    day that is not skipped makes exactly one waveform request, for the
    channels "{CH}1,{CH}2,{CH}Z" with {CH} the station's channel code in
    upper case; and when the day ends as WRITTEN exactly three files were
    written, in the order Z, 1, 2, named
    [DATA/<key>/YYYY.DDD..<ch>Z.SAC], [..1.SAC] and [..2.SAC]: the year on
    four digits, the day of the year on three, two dots, and the channel
    code as the station record has it. *)
Theorem C6_H_mode_one_fetch_three_files
    (e : Env) (o : Options) (client : Client) (stkey : string)
    (sta : Station) (loc : string) (t1 t2 : Z) (st : State) :
  PyStr.mem "P" (channels o) = false ->
  PyStr.mem "H" (channels o) = true ->
  head (location sta) = Some loc ->
  all_exist st (expected_files o sta ("DATA/" ++ stkey ++ "/") t1)
  && negb (ovr o) = false ->
  let r := day_body e o client stkey sta ("DATA/" ++ stkey ++ "/") t1 t2 st in
  fetches_of (events_since st r)
  = [request sta loc
       (PyStr.upper (channel sta) ++ "1," ++ PyStr.upper (channel sta)
        ++ "2," ++ PyStr.upper (channel sta) ++ "Z") t1 t2]
  /\ (forall a b st',
         r = Ok (WRITTEN, a, b) st' ->
         writes_of (events_since st r)
         = [sac_name stkey sta t1 "Z"; sac_name stkey sta t1 "1";
            sac_name stkey sta t1 "2"]).
Proof.
  intros HP HH Hloc Hskip r. subst r.
  rewrite (day_body_run e o client stkey sta _ loc t1 t2 st Hskip Hloc).
  rewrite day_outcome_events. split.
  - cbn [fetches_of flat_map app]. fold fetches_of.
    rewrite fetches_of_app, fetches_of_write_events, app_nil_r.
    unfold fetch_events, first_channels. rewrite HP. reflexivity.
  - intros a b st' Hr.
    cbn [writes_of flat_map app]. fold writes_of.
    rewrite writes_of_app, writes_of_fetch_events, writes_of_write_events.
    cbn [app].
    unfold day_outcome, window_outcome in Hr. unfold day_written.
    destruct (fetched e o client sta t1 t2) as [[sth stp]|]; [|discriminate].
    destruct (all_present (required_traces o sth stp)) eqn:Hall;
      [|discriminate].
    destruct (count_error (required_traces o sth stp) (rate_trace o sth stp));
      [discriminate|].
    destruct (accepts (required_traces o sth stp) (rate_trace o sth stp));
      [|discriminate].
    destruct (preprocessed e o sth stp) as [[sth' stp']|] eqn:Hpre;
      [|discriminate].
    cbn [andb].
    destruct (all_present_written o sth stp Hall) as (HZ & H12 & _).
    destruct (H12 HH) as [H1 H2].
    destruct (preprocessed_present e o sth stp sth' stp' Hpre) as (Hs & _).
    rewrite <- (Hs "Z"%char) in HZ. rewrite <- (Hs "1"%char) in H1.
    rewrite <- (Hs "2"%char) in H2.
    unfold day_writes. rewrite HH, HP.
    destruct (first_of "Z" sth'); [|discriminate].
    destruct (first_of "1" sth'); [|discriminate].
    destruct (first_of "2" sth'); [|discriminate].
    cbn [write_of app map fst].
    destruct (file_names stkey sta t1) as (-> & -> & -> & _). reflexivity.
Qed.

Lemma C6_H_mode_one_fetch_three_files_witness :
  fetches_of
    (events_since Fixtures.st0
       (day_body Fixtures.e_full (Fixtures.o_day ["H"] false)
                 Fixtures.client0 "XX.YYYY" Fixtures.sta0n
                 ("DATA/" ++ "XX.YYYY" ++ "/")
                 Fixtures.day069 (Fixtures.day069 + 86400) Fixtures.st0))
  = [request Fixtures.sta0n "--"
       (PyStr.upper (channel Fixtures.sta0n) ++ "1,"
        ++ PyStr.upper (channel Fixtures.sta0n) ++ "2,"
        ++ PyStr.upper (channel Fixtures.sta0n) ++ "Z")
       Fixtures.day069 (Fixtures.day069 + 86400)]
  /\ writes_of
       (events_since Fixtures.st0
          (day_body Fixtures.e_full (Fixtures.o_day ["H"] false)
                    Fixtures.client0 "XX.YYYY" Fixtures.sta0n
                    ("DATA/" ++ "XX.YYYY" ++ "/")
                    Fixtures.day069 (Fixtures.day069 + 86400) Fixtures.st0))
     = [sac_name "XX.YYYY" Fixtures.sta0n Fixtures.day069 "Z";
        sac_name "XX.YYYY" Fixtures.sta0n Fixtures.day069 "1";
        sac_name "XX.YYYY" Fixtures.sta0n Fixtures.day069 "2"].
Proof.
  destruct (C6_H_mode_one_fetch_three_files
              Fixtures.e_full (Fixtures.o_day ["H"] false) Fixtures.client0
              "XX.YYYY" Fixtures.sta0n "--" Fixtures.day069
              (Fixtures.day069 + 86400) Fixtures.st0)
    as [Hfetch Hwrite]; try reflexivity.
  split; [exact Hfetch|].
  eapply Hwrite. vm_compute. reflexivity.
Defined.

(** The channel code goes into the request in upper case and into the
    file names as it is stored. *)
Example lower_case_channel :
  let sta := {| network := "XX"; station := "YYYY"; channel := "bh";
                location := ["--"]; latitude := 0; longitude := 0;
                elevation := 0; startdate := 0; enddate := 0 |} in
  seismic_channels sta = "BH1,BH2,BHZ"
  /\ sac_name "XX.YYYY" sta Fixtures.day069 "1"
     = "DATA/XX.YYYY/2012.069..bh1.SAC".
Proof. split; reflexivity. Qed.

(** ** The length test *)




Lemma files_written_nil (st : State) (evs : list Event) :
  files (add_events st evs) = files st.
Proof. reflexivity. Qed.




(** The tolerance on concrete bundles: a full day holds 10 samples; 9 and
    11 samples pass, 8 and 12 do not. *)
Example length_tolerance_boundary :
  map (fun n => accepts (required_traces (Fixtures.o_day ["H"] false)
                                         (Fixtures.seismic n) None)
                        (rate_trace (Fixtures.o_day ["H"] false)
                                    (Fixtures.seismic n) None))
      [8; 9; 10; 11; 12]%nat
  = [false; true; true; true; false].
Proof. reflexivity. Qed.

(** The expected count is the product as Python computes it.  The
    double nearest to 0.3 is 5404319552844595 / 2^54, just below 0.3, and
    86400 times it is just below 25920; the binary64 product rounds to
    25920.0, so that a full day at that rate is 25920 samples, and the
    test passes 25919 to 25921 of them. *)
Example expected_count_at_0_3_Hz :
  let rate := 0x1.3333333333333p-2%float in
  Prim2SF rate = S754_finite false 5404319552844595 (-54)
  /\ 86400 * 5404319552844595 < 25920 * 2 ^ 54
  /\ truncate (dt_float * rate)%float = inl 25920
  /\ map (fun n => accepts
                     (required_traces (Fixtures.o_day ["H"] false)
                        (Fixtures.seismic_at rate (Z.to_nat n)) None)
                     (rate_trace (Fixtures.o_day ["H"] false)
                        (Fixtures.seismic_at rate (Z.to_nat n)) None))
         [25918; 25919; 25920; 25921; 25922]
     = [false; true; true; true; false].
Proof.
  cbv zeta. split; [reflexivity|]. split; [reflexivity|].
  split; [reflexivity|]. vm_compute. reflexivity.
Qed.

(** [int] drops the fraction of a finite float, toward zero, and raises
    for a NaN and for an infinity. *)
Example truncate_values :
  truncate 2.5%float = inl 2
  /\ truncate (-2.5)%float = inl (-2)
  /\ truncate 0x1p60%float = inl (2 ^ 60)
  /\ truncate (-0)%float = inl 0
  /\ truncate dt_float = inl dt
  /\ truncate nan = inr ValueError
  /\ truncate infinity = inr OverflowError
  /\ truncate neg_infinity = inr OverflowError.
Proof. repeat split; reflexivity. Qed.

(** A bundle of equal counts whose sampling rate is an infinity: the
    product is an infinity, [int] raises OverflowError outside any [try],
    and nothing is written. *)
Example infinite_rate_raises :
  exists st',
    day_body (Fixtures.env (Some (Fixtures.seismic_at infinity 10)) None)
             (Fixtures.o_day ["H"] false) Fixtures.client0 "XX.YYYY"
             Fixtures.sta0n Fixtures.datapath0 Fixtures.day069
             (Fixtures.day069 + 86400) Fixtures.st0
    = Raised OverflowError st'
    /\ files st' = [].
Proof. eexists. split; [vm_compute; reflexivity|reflexivity]. Qed.

(** Each way a day can end is reached, and each moves the cursor. *)
Example day_statuses_reachable :
  map (fun r => match r with
                | Ok (s, t1', t2') _ => Some (s, t1', t2')
                | _ => None
                end)
      [day_body Fixtures.e_full (Fixtures.o_day ["H"; "P"] false)
                Fixtures.client0 "XX.YYYY" Fixtures.sta0n Fixtures.datapath0
                Fixtures.day069 (Fixtures.day069 + 86400) Fixtures.st_done;
       day_body (Fixtures.env None None) (Fixtures.o_day ["H"; "P"] false)
                Fixtures.client0 "XX.YYYY" Fixtures.sta0n Fixtures.datapath0
                Fixtures.day069 (Fixtures.day069 + 86400) Fixtures.st0;
       day_body (Fixtures.env (Some (Fixtures.seismic 10))
                              (Some (Fixtures.pressure 7)))
                (Fixtures.o_day ["H"; "P"] false)
                Fixtures.client0 "XX.YYYY" Fixtures.sta0n Fixtures.datapath0
                Fixtures.day069 (Fixtures.day069 + 86400) Fixtures.st0;
       day_body Fixtures.e_full (Fixtures.o_day ["H"; "P"] false)
                Fixtures.client0 "XX.YYYY" Fixtures.sta0n Fixtures.datapath0
                Fixtures.day069 (Fixtures.day069 + 86400) Fixtures.st0]
  = [Some (SKIPPED_EXISTING, 1331337600, 1331424000);
     Some (FETCH_FAILED, 1331337600, 1331424000);
     Some (VALIDATION_FAILED, 1331337600, 1331424000);
     Some (WRITTEN, 1331337600, 1331424000)].
Proof. vm_compute. reflexivity. Qed.

(** ** Bundles that differ after the first traces *)

Lemma fetch_events_same (e : Env)
    (gw' : Client -> Request -> option Stream) (o : Options)
    (client : Client) (sta : Station) (loc : string) (t1 t2 : Z) :
  same_answer same_first_seismic
    (get_waveforms e client (request sta loc (first_channels o sta) t1 t2))
    (gw' client (request sta loc (first_channels o sta) t1 t2)) ->
  fetch_events (with_waveforms e gw') o client sta loc t1 t2
  = fetch_events e o client sta loc t1 t2.
Proof.
  intros Hs. unfold fetch_events. cbn [get_waveforms with_waveforms].
  destruct (negb (PyStr.mem "P" (channels o))); [reflexivity|].
  destruct (get_waveforms e client
              (request sta loc (first_channels o sta) t1 t2)) as [a|],
    (gw' client (request sta loc (first_channels o sta) t1 t2)) as [a'|];
    simpl in Hs; try contradiction; reflexivity.
Qed.

Lemma window_outcome_same (e : Env)
    (gw' : Client -> Request -> option Stream) (o : Options) (sta : Station)
    (datapath : string) (t1 t2 : Z) (st1 : State) (sth sth' : Stream)
    (stp stp' : option Stream) :
  same_first_seismic sth sth' ->
  first_pressure stp = first_pressure stp' ->
  same_outcome
    (window_outcome e o sta datapath t1 t2 st1 sth stp)
    (window_outcome (with_waveforms e gw') o sta datapath t1 t2 st1 sth' stp').
Proof.
  intros (H0 & HZ & H1 & H2) HP. unfold window_outcome.
  change (preprocessed (with_waveforms e gw') o sth' stp')
    with (preprocessed e o sth' stp').
  assert (required_traces o sth stp = required_traces o sth' stp') as Hreq
      by (unfold required_traces; rewrite HZ, H1, H2, HP; reflexivity).
  assert (rate_trace o sth stp = rate_trace o sth' stp') as Hrate
      by (unfold rate_trace; rewrite H0, HP; reflexivity).
  rewrite <- Hreq, <- Hrate.
  destruct (all_present (required_traces o sth stp)); [|simpl; auto].
  destruct (count_error (required_traces o sth stp) (rate_trace o sth stp));
    [simpl; auto|].
  destruct (accepts (required_traces o sth stp) (rate_trace o sth stp));
    [|simpl; auto].
  destruct (preprocessed e o sth stp) as [[s1 p1]|] eqn:Hpre,
    (preprocessed e o sth' stp') as [[s1' p1']|] eqn:Hpre';
    simpl; auto.
  destruct (preprocessed_firsts e o sth stp s1 p1 Hpre) as (Hf & Hfp).
  destruct (preprocessed_firsts e o sth' stp' s1' p1' Hpre') as (Hf' & Hfp').
  split; [reflexivity|]. f_equal.
  unfold day_writes.
  rewrite !Hf, !Hf', HZ, H1, H2.
  destruct (PyStr.mem "P" (channels o)) eqn:HmP; [|reflexivity].
  rewrite Hfp, Hfp' by reflexivity. rewrite HP. reflexivity.
Qed.

(** C10.  Let two data centers answer the requests of a day with bundles
    that have the same first trace and the same first trace of each
    selected component, and differ in any other trace.  Then the day ends
    alike on both: the same status and cursor, the same requests, the same
    files with the same contents; or the same exception in the same state.
    Only preprocessing, which goes through every trace of a bundle, can
    raise on one and not on the other.  So no trace after the first of its
    selection is length-checked or written. *)
Theorem C10_only_first_traces
    (e : Env) (gw' : Client -> Request -> option Stream) (o : Options)
    (client : Client) (stkey : string) (sta : Station) (datapath : string)
    (t1 t2 : Z) (st : State) :
  (forall loc,
      head (location sta) = Some loc ->
      same_answer same_first_seismic
        (get_waveforms e client (request sta loc (first_channels o sta) t1 t2))
        (gw' client (request sta loc (first_channels o sta) t1 t2))
      /\ same_answer same_first_pressure
           (get_waveforms e client (request sta loc "??H" t1 t2))
           (gw' client (request sta loc "??H" t1 t2))) ->
  same_outcome
    (day_body e o client stkey sta datapath t1 t2 st)
    (day_body (with_waveforms e gw') o client stkey sta datapath t1 t2 st).
Proof.
  intros Hagree.
  destruct (all_exist st (expected_files o sta datapath t1) && negb (ovr o))
    eqn:Hskip.
  { rewrite !day_body_skipped by exact Hskip. simpl. auto. }
  destruct (head (location sta)) as [loc|] eqn:Hloc.
  2:{ rewrite !day_body_no_location by assumption. simpl. auto. }
  rewrite !(day_body_run _ o client stkey sta datapath loc t1 t2 st
              Hskip Hloc).
  destruct (Hagree loc eq_refl) as [Hs Hp]. clear Hagree.
  unfold day_outcome.
  rewrite (fetch_events_same e gw' o client sta loc t1 t2 Hs).
  unfold fetched. rewrite Hloc. cbn [get_waveforms with_waveforms].
  destruct (get_waveforms e client
              (request sta loc (first_channels o sta) t1 t2)) as [sth|],
    (gw' client (request sta loc (first_channels o sta) t1 t2)) as [sth'|];
    simpl in Hs; try contradiction; [|simpl; auto].
  destruct (negb (PyStr.mem "P" (channels o))) eqn:HmP.
  - apply window_outcome_same; [exact Hs|reflexivity].
  - destruct (get_waveforms e client (request sta loc "??H" t1 t2)) as [p|],
      (gw' client (request sta loc "??H" t1 t2)) as [p'|];
      simpl in Hp; try contradiction; [|simpl; auto].
    cbn [option_map]. apply window_outcome_same; [exact Hs|exact Hp].
Qed.

Lemma C10_only_first_traces_witness :
  same_outcome
    (day_body Fixtures.e_full (Fixtures.o_day ["H"; "P"] false)
              Fixtures.client0 "XX.YYYY" Fixtures.sta0n Fixtures.datapath0
              Fixtures.day069 (Fixtures.day069 + 86400) Fixtures.st0)
    (day_body (with_waveforms Fixtures.e_full
                              (get_waveforms Fixtures.e_gapped))
              (Fixtures.o_day ["H"; "P"] false)
              Fixtures.client0 "XX.YYYY" Fixtures.sta0n Fixtures.datapath0
              Fixtures.day069 (Fixtures.day069 + 86400) Fixtures.st0).
Proof.
  apply (C10_only_first_traces
           Fixtures.e_full (get_waveforms Fixtures.e_gapped)
           (Fixtures.o_day ["H"; "P"] false) Fixtures.client0 "XX.YYYY"
           Fixtures.sta0n Fixtures.datapath0 Fixtures.day069
           (Fixtures.day069 + 86400) Fixtures.st0).
  intros loc Hloc. injection Hloc as <-.
  split; [repeat split|reflexivity].
Defined.

(** A gapped answer, seven traces in all, is accepted on its first
    traces, and the four files hold those: ten samples each. *)
Example gapped_bundles_write_first_traces :
  flat_map (fun ev => match ev with
                      | EWrite p tr => [(p, List.length (data tr))]
                      | _ => []
                      end)
    (events_since Fixtures.st0
       (day_body Fixtures.e_gapped (Fixtures.o_day ["H"; "P"] false)
                 Fixtures.client0 "XX.YYYY" Fixtures.sta0n Fixtures.datapath0
                 Fixtures.day069 (Fixtures.day069 + 86400) Fixtures.st0))
  = [("DATA/XX.YYYY/2012.069..BHZ.SAC", 10%nat);
     ("DATA/XX.YYYY/2012.069..BH1.SAC", 10%nat);
     ("DATA/XX.YYYY/2012.069..BH2.SAC", 10%nat);
     ("DATA/XX.YYYY/2012.069..BHH.SAC", 10%nat)].
Proof. vm_compute. reflexivity. Qed.

(** * Further properties of the script *)

(** ** Location codes (lines 174-178) *)

Lemma empty_code (l : string) :
  (Z.of_nat (String.length l) =? 0) = true <-> l = "".
Proof.
  destruct l as [|c l]; simpl; split; intros H; try reflexivity;
    discriminate.
Qed.

Lemma normalize_code_fixed (l : string) :
  l <> "" -> (if Z.of_nat (String.length l) =? 0 then "--" else l) = l.
Proof.
  intros H. destruct (Z.of_nat (String.length l) =? 0) eqn:E; [|reflexivity].
  apply empty_code in E. contradiction.
Qed.

(** X1.  The normalized location list is never empty and holds no empty
    code; a list that was not empty keeps its length and its non-empty
    codes in place, each empty one becoming "--"; and normalizing twice
    is normalizing once, so a station visited again is unchanged. *)
Theorem normalize_location_spec (locs : list string) :
  normalize_location locs <> []
  /\ (forall l, In l (normalize_location locs) -> l <> "")
  /\ (locs <> [] ->
      List.length (normalize_location locs) = List.length locs)
  /\ (forall i l,
         nth_error locs i = Some l ->
         nth_error (normalize_location locs) i
         = Some (if String.eqb l "" then "--" else l))
  /\ (locs = [] -> normalize_location locs = ["--"])
  /\ normalize_location (normalize_location locs) = normalize_location locs.
Proof.
  assert (forall l, In l (normalize_location locs) -> l <> "") as Hne.
  { unfold normalize_location. intros l Hin. apply in_map_iff in Hin.
    destruct Hin as (x & Hx & _).
    destruct (Z.of_nat (String.length x) =? 0) eqn:E; subst l.
    - discriminate.
    - intros ->. discriminate E. }
  split; [|split; [exact Hne|split; [|split; [|split]]]].
  - unfold normalize_location. destruct locs; simpl; discriminate.
  - intros Hlocs. unfold normalize_location.
    destruct locs; [contradiction|]. simpl. rewrite length_map. reflexivity.
  - intros i l Hnth. unfold normalize_location.
    destruct locs as [|x locs]; [destruct i; discriminate|].
    cbn [List.length Nat.add Z.of_nat Z.eqb]. 
    replace (Z.of_nat (S (List.length locs)) =? 0) with false
      by (symmetry; apply Z.eqb_neq; lia).
    rewrite nth_error_map, Hnth. simpl. f_equal.
    destruct l as [|c l]; reflexivity.
  - intros ->. reflexivity.
  - assert (normalize_location locs <> []) as Hnil
        by (unfold normalize_location; destruct locs; simpl; discriminate).
    revert Hne Hnil. generalize (normalize_location locs) as ls.
    intros ls Hne Hnil. unfold normalize_location.
    destruct ls as [|x ls]; [contradiction|].
    replace (Z.of_nat (List.length (x :: ls)) =? 0) with false
      by (symmetry; apply Z.eqb_neq; simpl; lia).
    rewrite <- (map_id (x :: ls)) at 2. apply map_ext_in.
    intros l Hin. apply normalize_code_fixed. apply Hne. exact Hin.
Qed.

Lemma normalize_location_spec_witness :
  List.length (normalize_location [""; "01"]) = List.length [""; "01"]
  /\ nth_error (normalize_location [""; "01"]) 0 = Some "--"
  /\ nth_error (normalize_location [""; "01"]) 1 = Some "01"
  /\ normalize_location [] = ["--"].
Proof.
  destruct (normalize_location_spec [""; "01"])
    as (_ & _ & Hlen & Hnth & _ & _).
  destruct (normalize_location_spec []) as (_ & _ & _ & _ & Hnil & _).
  split; [apply Hlen; discriminate|].
  split; [apply (Hnth 0%nat ""); reflexivity|].
  split; [apply (Hnth 1%nat "01"); reflexivity|].
  apply Hnil. reflexivity.
Defined.

(** ** The station keys to process (lines 126-137) *)

Lemma count_occ_filter_NoDup (f : string -> bool) (l : list string)
    (k : string) :
  NoDup l -> In k l ->
  count_occ string_dec (List.filter f l) k = if f k then 1%nat else 0%nat.
Proof.
  intros Hnd. induction Hnd as [|x l Hx Hnd IH]; intros Hin; [contradiction|].
  simpl. destruct Hin as [->|Hin].
  - assert (count_occ string_dec (List.filter f l) k = 0%nat) as H0.
    { apply count_occ_not_In. intros H. apply filter_In in H.
      apply Hx, H. }
    destruct (f k); simpl.
    + destruct (string_dec k k); [|contradiction]. rewrite H0. reflexivity.
    + exact H0.
  - assert (x <> k) as Hxk by (intros ->; contradiction).
    destruct (f x); simpl.
    + destruct (string_dec x k); [contradiction|]. apply IH, Hin.
    + apply IH, Hin.
Qed.

Lemma count_occ_flat_map (g : string -> list string) (l : list string)
    (k : string) :
  count_occ string_dec (flat_map g l) k
  = list_sum (map (fun x => count_occ string_dec (g x) k) l).
Proof.
  induction l as [|x l IH]; simpl; [reflexivity|].
  rewrite count_occ_app, IH. reflexivity.
Qed.

Lemma list_sum_indicator (f : string -> bool) (l : list string) :
  list_sum (map (fun x => if f x then 1%nat else 0%nat) l)
  = List.length (List.filter f l).
Proof.
  induction l as [|x l IH]; simpl; [reflexivity|].
  destruct (f x); simpl; rewrite IH; reflexivity.
Qed.

Lemma select_keys_subset (o : Options) (allkeys : list string) (k : string) :
  In k (select_keys o allkeys) -> In k allkeys.
Proof.
  unfold select_keys.
  destruct (0 <? Z.of_nat (List.length (stkeys o))); [|auto].
  intros Hin. apply in_flat_map in Hin. destruct Hin as (skey & _ & Hin).
  apply filter_In in Hin. apply Hin.
Qed.

(** X2.  Only keys of the database are selected.  Without [--keys] they
    are all the keys, in the order of the dictionary.  With [--keys], the
    keys (distinct, as those of a dictionary are) are taken once per
    partial key they contain: a station that matches two of the partial
    keys is processed twice, one that matches none is never processed. *)
Theorem select_keys_spec (o : Options) (allkeys : list string) :
  (forall k, In k (select_keys o allkeys) -> In k allkeys)
  /\ (stkeys o = [] -> select_keys o allkeys = allkeys)
  /\ (stkeys o <> [] ->
      NoDup allkeys ->
      forall k,
        In k allkeys ->
        count_occ string_dec (select_keys o allkeys) k
        = List.length (List.filter (fun skey => PyStr.contains skey k)
                                   (stkeys o))).
Proof.
  unfold select_keys. split; [|split].
  - intros k. destruct (0 <? Z.of_nat (List.length (stkeys o))); [|auto].
    intros Hin. apply in_flat_map in Hin. destruct Hin as (skey & _ & Hin).
    apply filter_In in Hin. apply Hin.
  - intros ->. reflexivity.
  - intros Hne Hnd k Hin.
    destruct (stkeys o) as [|s ss] eqn:Hs; [contradiction|].
    replace (0 <? Z.of_nat (List.length (s :: ss))) with true
      by (symmetry; apply Z.ltb_lt; simpl; lia).
    rewrite count_occ_flat_map.
    rewrite <- list_sum_indicator. f_equal. apply map_ext.
    intros skey. apply count_occ_filter_NoDup; assumption.
Qed.

Lemma select_keys_spec_witness :
  count_occ string_dec
    (select_keys (Fixtures.opts_keys ["XX"; "YYYY"])
                 ["XX.YYYY"; "XX.ZZZZ"; "7D.M08A"]) "XX.YYYY"
  = 2%nat
  /\ count_occ string_dec
       (select_keys (Fixtures.opts_keys ["XX"; "YYYY"])
                    ["XX.YYYY"; "XX.ZZZZ"; "7D.M08A"]) "7D.M08A"
     = 0%nat.
Proof.
  destruct (select_keys_spec (Fixtures.opts_keys ["XX"; "YYYY"])
                             ["XX.YYYY"; "XX.ZZZZ"; "7D.M08A"])
    as (_ & _ & Hcount).
  assert (NoDup ["XX.YYYY"; "XX.ZZZZ"; "7D.M08A"]) as Hnd.
  { repeat constructor; simpl; intros H;
      repeat (destruct H as [H|H]; [discriminate H|]); exact H. }
  split.
  - rewrite (Hcount ltac:(discriminate) Hnd "XX.YYYY");
      [reflexivity|simpl; auto].
  - rewrite (Hcount ltac:(discriminate) Hnd "7D.M08A");
      [reflexivity|simpl; auto].
Defined.

(** ** What a run leaves of the state it started from *)

Section Preserves.

Variable I : State -> State -> Prop.
Hypothesis I_refl : forall st, I st st.
Hypothesis I_trans : forall a b c, I a b -> I b c -> I a c.
Hypothesis I_log :
  forall st l,
    I st {| db := db st; dirs := dirs st; files := files st; log := l |}.
Hypothesis I_dirs :
  forall st d l,
    I st {| db := db st; dirs := d :: dirs st; files := files st; log := l |}.
Hypothesis I_files :
  forall st f l,
    I st {| db := db st; dirs := dirs st; files := f :: files st; log := l |}.
Hypothesis I_db :
  forall st stkey locs,
    I st {| db := map (fun kv => if String.eqb (fst kv) stkey
                                 then (fst kv, with_location (snd kv) locs)
                                 else kv) (db st);
            dirs := dirs st; files := files st; log := log st |}.

Lemma preserves_ret {A} (a : A) : preserves I (ret a).
Proof. intros st. apply I_refl. Qed.

Lemma preserves_raise {A} (ex : exn) : preserves I (@raise A ex).
Proof. intros st. apply I_refl. Qed.

Lemma preserves_bind {A B} (m : M A) (f : A -> M B) :
  preserves I m -> (forall a, preserves I (f a)) -> preserves I (bind m f).
Proof.
  intros Hm Hf st. unfold bind. specialize (Hm st).
  destruct (m st) as [a st'|ex st'|]; auto.
  specialize (Hf a st').
  destruct (f a st') as [b st''|ex st''|]; auto; eapply I_trans; eauto.
Qed.

Lemma preserves_pure {A} (m : M A) : pure m -> preserves I m.
Proof.
  intros Hm st. specialize (Hm st).
  destruct (m st) as [a st'|ex st'|]; auto; subst st'; apply I_refl.
Qed.

Lemma preserves_emit (ev : Event) : preserves I (emit ev).
Proof. intros st. apply I_log. Qed.

Lemma preserves_glob (path : string) : preserves I (glob path).
Proof. intros st. apply I_refl. Qed.

Lemma preserves_isdir (path : string) : preserves I (isdir path).
Proof. intros st. apply I_refl. Qed.

Lemma preserves_makedirs (path : string) : preserves I (makedirs path).
Proof. intros st. apply I_dirs. Qed.

Lemma preserves_write (path : string) (tr : Trace) :
  preserves I (write path tr).
Proof. intros st. apply I_files. Qed.

Lemma preserves_db_get (stkey : string) : preserves I (db_get stkey).
Proof.
  intros st. unfold db_get. destruct (find _ (db st)); apply I_refl.
Qed.

Lemma preserves_db_set_location (stkey : string) (locs : list string) :
  preserves I (db_set_location stkey locs).
Proof. intros st. apply I_db. Qed.

Lemma preserves_item0 {A} (l : list A) : preserves I (item0 l).
Proof. apply preserves_pure, pure_item0. Qed.

Lemma preserves_item1 {A} (l : list A) : preserves I (item1 l).
Proof. destruct l as [|x [|y l]]; intros st; apply I_refl. Qed.

Lemma preserves_bound (stp : option Stream) : preserves I (bound stp).
Proof. apply preserves_pure, pure_bound. Qed.

Lemma preserves_try_get_waveforms (e : Env) (client : Client) (sta : Station)
    (chans : string) (t1 t2 : Z) :
  preserves I (try_get_waveforms e client sta chans t1 t2).
Proof.
  unfold try_get_waveforms. destruct (location sta); [apply preserves_ret|].
  apply preserves_bind; [apply preserves_emit|intros; apply preserves_ret].
Qed.

Ltac preserves_step :=
  match goal with
  | |- preserves _ (bind _ _) => apply preserves_bind; [|intros ?]
  | |- preserves _ (if ?b then _ else _) => destruct b
  | |- preserves _ (match ?x with _ => _ end) => destruct x
  | |- preserves _ (ret _) => apply preserves_ret
  | |- preserves _ (raise _) => apply preserves_raise
  | |- preserves _ (emit _) => apply preserves_emit
  | |- preserves _ (glob _) => apply preserves_glob
  | |- preserves _ (isdir _) => apply preserves_isdir
  | |- preserves _ (makedirs _) => apply preserves_makedirs
  | |- preserves _ (write _ _) => apply preserves_write
  | |- preserves _ (item0 _) => apply preserves_item0
  | |- preserves _ (item1 _) => apply preserves_item1
  | |- preserves _ (bound _) => apply preserves_bound
  | |- preserves _ (db_set_location _ _) => apply preserves_db_set_location
  | |- preserves _ (try_get_waveforms _ _ _ _ _ _) =>
      apply preserves_try_get_waveforms
  | |- preserves _ (check_H _ _ _) => apply preserves_pure, pure_check_H
  | |- preserves _ (check_P _ _ _ _) => apply preserves_pure, pure_check_P
  | |- preserves _ (check_both _ _ _ _) =>
      apply preserves_pure, pure_check_both
  | |- preserves _ (preprocess _ _ _ _) =>
      apply preserves_pure, pure_preprocess
  end.

Lemma preserves_acquire (e : Env) (o : Options) (client : Client)
    (sta : Station) (datapath : string) (t1 t2 : Z) :
  preserves I (acquire e o client sta datapath t1 t2).
Proof.
  unfold acquire, acquire_H, acquire_P, acquire_both.
  repeat preserves_step.
Qed.

Lemma preserves_write_traces (o : Options) (sta : Station)
    (datapath : string) (t1 : Z) (sth : Stream) (stp : option Stream) :
  preserves I (write_traces o sta datapath t1 sth stp).
Proof. unfold write_traces. repeat preserves_step. Qed.

Lemma preserves_day_body (e : Env) (o : Options) (client : Client)
    (stkey : string) (sta : Station) (datapath : string) (t1 t2 : Z) :
  preserves I (day_body e o client stkey sta datapath t1 t2).
Proof.
  unfold day_body.
  apply preserves_bind; [apply preserves_emit|intros _].
  apply preserves_bind; [apply preserves_acquire|intros [s a b|sth stp]].
  - apply preserves_ret.
  - apply preserves_bind;
      [apply preserves_pure, pure_preprocess|intros [sth' stp']].
    apply preserves_bind; [apply preserves_write_traces|intros _].
    apply preserves_ret.
Qed.

Lemma preserves_while_days (fuel : nat) (e : Env) (o : Options)
    (client : Client) (stkey : string) (sta : Station) (datapath : string)
    (tend : Z) :
  forall t1 t2,
    preserves I (while_days fuel e o client stkey sta datapath tend t1 t2).
Proof.
  induction fuel as [|n IH]; intros t1 t2; simpl.
  - destruct (t2 <=? tend); [intros st; exact Logic.I|apply preserves_ret].
  - destruct (t2 <=? tend); [|apply preserves_ret].
    apply preserves_bind; [apply preserves_day_body|].
    intros [[s a] b]. apply IH.
Qed.

Lemma preserves_make_client (o : Options) : preserves I (make_client o).
Proof. unfold make_client. repeat preserves_step. Qed.

Lemma preserves_station_run (e : Env) (o : Options) (stkey : string)
    (sta : Station) : preserves I (station_run e o stkey sta).
Proof.
  unfold station_run.
  apply preserves_bind; [apply preserves_isdir|intros d].
  apply preserves_bind;
    [destruct d; [apply preserves_ret|apply preserves_makedirs]|intros _].
  apply preserves_bind; [apply preserves_make_client|intros client].
  destruct (out_of_range o sta); [apply preserves_ret|].
  apply preserves_bind; [apply preserves_db_set_location|intros _].
  apply preserves_while_days.
Qed.

Lemma preserves_for_stations (e : Env) (o : Options) (keys : list string) :
  preserves I (for_stations e o keys).
Proof.
  induction keys as [|k keys IH]; simpl; [apply preserves_ret|].
  apply preserves_bind; [|intros _; exact IH].
  unfold station_body.
  apply preserves_bind; [apply preserves_db_get|intros sta].
  apply preserves_station_run.
Qed.

Lemma preserves_main (e : Env) (o : Options) : preserves I (main e o).
Proof. intros st. unfold main. apply preserves_for_stations. Qed.

End Preserves.

(** ** The names the script looks up *)

Lemma only_raises_bind (E : exn -> Prop) {A B} (m : M A) (f : A -> M B) :
  only_raises E m -> (forall a, only_raises E (f a)) ->
  only_raises E (bind m f).
Proof.
  intros Hm Hf st. unfold bind. specialize (Hm st).
  destruct (m st) as [a st'|ex st'|]; auto. apply Hf.
Qed.

Lemma only_raises_Ok (E : exn -> Prop) {A} (m : M A) :
  (forall st, exists a st', m st = Ok a st') -> only_raises E m.
Proof.
  intros H st. destruct (H st) as (a & st' & ->). exact I.
Qed.

Lemma count_error_exn (req : list (option Trace)) (rate : option Trace)
    (ex : exn) :
  count_error req rate = Some ex -> ex = ValueError \/ ex = OverflowError.
Proof.
  unfold count_error, expected_count, truncate.
  destruct req as [|[trZ|] rest]; try discriminate.
  destruct rate as [tr0|]; try discriminate.
  destruct (same_counts trZ rest); [|discriminate].
  destruct (Prim2SF _); try discriminate;
    intros H; injection H as <-; auto.
Qed.

(** In a day the name [stp] is never used unbound. *)
Lemma only_raises_day_body (e : Env) (o : Options) (client : Client)
    (stkey : string) (sta : Station) (datapath : string) (t1 t2 : Z) :
  only_raises names_resolve
              (day_body e o client stkey sta datapath t1 t2).
Proof.
  intros st.
  destruct (all_exist st (expected_files o sta datapath t1) && negb (ovr o))
    eqn:Hskip.
  { rewrite day_body_skipped by exact Hskip. exact I. }
  destruct (head (location sta)) as [loc|] eqn:Hloc.
  2:{ rewrite day_body_no_location by assumption. exact I. }
  rewrite (day_body_run e o client stkey sta datapath loc t1 t2 st Hskip Hloc).
  unfold day_outcome, window_outcome, names_resolve.
  destruct (fetched e o client sta t1 t2) as [[sth stp]|]; [|exact I].
  destruct (all_present (required_traces o sth stp));
    [|split; discriminate].
  destruct (count_error (required_traces o sth stp) (rate_trace o sth stp))
    as [ex|] eqn:Hce.
  { destruct (count_error_exn _ _ _ Hce) as [-> | ->]; split; discriminate. }
  destruct (accepts (required_traces o sth stp) (rate_trace o sth stp));
    [|exact I].
  destruct (preprocessed e o sth stp) as [[sth' stp']|];
    [exact I|split; discriminate].
Qed.

Lemma only_raises_while_days (fuel : nat) (e : Env) (o : Options)
    (client : Client) (stkey : string) (sta : Station) (datapath : string)
    (tend : Z) :
  forall t1 t2,
    only_raises names_resolve
      (while_days fuel e o client stkey sta datapath tend t1 t2).
Proof.
  induction fuel as [|n IH]; intros t1 t2; simpl.
  - destruct (t2 <=? tend); intros st; exact I.
  - destruct (t2 <=? tend); [|intros st; exact I].
    apply only_raises_bind; [apply only_raises_day_body|].
    intros [[s a] b]. apply IH.
Qed.

Lemma only_raises_make_client (o : Options) :
  only_raises names_resolve (make_client o).
Proof.
  unfold make_client, names_resolve.
  destruct (Z.of_nat (List.length (UserAuth o)) =? 0); [intros st; exact I|].
  destruct (UserAuth o) as [|u [|p l]]; intros st; simpl; auto;
    split; discriminate.
Qed.

Lemma only_raises_station_run (e : Env) (o : Options) (stkey : string)
    (sta : Station) :
  only_raises names_resolve (station_run e o stkey sta).
Proof.
  unfold station_run.
  apply only_raises_bind; [intros st; exact I|intros d].
  apply only_raises_bind; [destruct d; intros st; exact I|intros _].
  apply only_raises_bind; [apply only_raises_make_client|intros client].
  destruct (out_of_range o sta); [intros st; exact I|].
  apply only_raises_bind; [intros st; exact I|intros _].
  apply only_raises_while_days.
Qed.

Lemma db_get_present (stkey : string) (st : State) :
  In stkey (map fst (db st)) -> exists sta, db_get stkey st = Ok sta st.
Proof.
  intros Hin. unfold db_get.
  destruct (find (fun kv => String.eqb (fst kv) stkey) (db st)) as [kv|] eqn:Hf.
  - eauto.
  - exfalso. apply in_map_iff in Hin. destruct Hin as (kv & Hk & Hin).
    pose proof (find_none _ _ Hf kv Hin) as Hno. cbv beta in Hno.
    rewrite Hk, String.eqb_refl in Hno. discriminate.
Qed.

Lemma same_keys_run (e : Env) (o : Options) (stkey : string) (sta : Station) :
  preserves same_keys (station_run e o stkey sta).
Proof.
  apply preserves_station_run; unfold same_keys; cbn [db]; intros;
    try reflexivity.
  - congruence.
  - rewrite map_map. apply map_ext. intros kv.
    destruct (String.eqb (fst kv) _); reflexivity.
Qed.

Lemma for_stations_ends (e : Env) (o : Options) (keys : list string) :
  forall st,
    (forall k, In k keys -> In k (map fst (db st))) ->
    match for_stations e o keys st with
    | Ok _ _ => True
    | Raised ex _ => names_resolve ex
    | OutOfFuel => False
    end.
Proof.
  induction keys as [|k keys IH]; intros st Hkeys; simpl; [exact I|].
  unfold bind, station_body. unfold bind.
  destruct (db_get_present k st (Hkeys k (or_introl eq_refl))) as (sta & ->).
  pose proof (station_run_total e o k sta st) as Htot.
  pose proof (only_raises_station_run e o k sta st) as Hex.
  pose proof (same_keys_run e o k sta st) as Hsame.
  destruct (station_run e o k sta st) as [u st'|ex st'|];
    [|exact Hex|contradiction].
  apply IH. intros k' Hin. unfold same_keys in Hsame. rewrite Hsame.
  apply Hkeys. right. exact Hin.
Qed.

(** X3.  Whatever the data center and the signal processing answer, the
    station loop and the day loops of a run on a loaded station database
    come to an end, the day loop of a station after at most
    [day_fuel tstart tend] days; no station key the loop takes is missing
    from the database, so that [db[stkey]] never raises a KeyError; and
    the name [stp] is bound wherever preprocessing and writing use it, so
    that the run never stops on a NameError. *)
Theorem main_ends (e : Env) (o : Options) (st : State) :
  match main e o st with
  | Ok _ _ => True
  | Raised ex _ => ex <> KeyError /\ ex <> NameError
  | OutOfFuel => False
  end.
Proof.
  unfold main. apply for_stations_ends.
  intros k Hin. apply (select_keys_subset o (map fst (db st))). exact Hin.
Qed.

(** ** Credentials (lines 152-156) *)

Lemma mem_In (x : string) (l : list string) :
  PyStr.mem x l = true <-> In x l.
Proof.
  unfold PyStr.mem. rewrite existsb_exists. split.
  - intros (y & Hin & Heq). apply String.eqb_eq in Heq. subst y. exact Hin.
  - intros Hin. exists x. split; [exact Hin|apply String.eqb_refl].
Qed.

(** X4.  Credentials that hold a user name and no password stop the
    program at the first station it processes: its data directory exists
    by then, no client was built, no waveform was requested, and the
    IndexError of [opts.UserAuth[1]] ends the run. *)
Theorem lone_user_name_stops_the_run
    (e : Env) (o : Options) (st : State) (u k : string) (rest : list string) :
  UserAuth o = [u] ->
  select_keys o (map fst (db st)) = k :: rest ->
  exists st',
    main e o st = Raised IndexError st'
    /\ In ("DATA/" ++ k ++ "/")%string (dirs st')
    /\ fetches_of (events_since st (main e o st)) = []
    /\ forall c, ~ In (EClient c) (events_since st (main e o st)).
Proof.
  intros Hua Hkeys.
  assert (In k (map fst (db st))) as Hk.
  { apply (select_keys_subset o (map fst (db st))).
    rewrite Hkeys. left. reflexivity. }
  destruct (db_get_present k st Hk) as (sta & Hget).
  assert (main e o st
          = Raised IndexError
              (if PyStr.mem ("DATA/" ++ k ++ "/") (dirs st) then st
               else {| db := db st; dirs := ("DATA/" ++ k ++ "/") :: dirs st;
                       files := files st;
                       log := (log st
                               ++ [EMakedirs ("DATA/" ++ k ++ "/")])%list |}))
    as Hrun.
  { unfold main. rewrite Hkeys. cbn [for_stations].
    unfold bind at 1. unfold station_body. unfold bind at 1. rewrite Hget.
    unfold station_run, make_client. rewrite Hua.
    unfold bind, isdir.
    destruct (PyStr.mem ("DATA/" ++ k ++ "/") (dirs st)); reflexivity. }
  rewrite Hrun. eexists. split; [reflexivity|].
  unfold events_since.
  destruct (PyStr.mem ("DATA/" ++ k ++ "/") (dirs st)) eqn:Hdir.
  - split; [apply mem_In; exact Hdir|]. rewrite skipn_all.
    split; [reflexivity|]. intros c H. exact H.
  - cbn [dirs log]. split; [left; reflexivity|]. rewrite skipn_log.
    split; [reflexivity|]. intros c [H|H]; [discriminate H|exact H].
Qed.

Lemma lone_user_name_stops_the_run_witness :
  exists st',
    main Fixtures.e_full Fixtures.opts_lone_user Fixtures.st_two
    = Raised IndexError st'
    /\ In ("DATA/" ++ "XX.YYYY" ++ "/")%string (dirs st')
    /\ fetches_of (events_since Fixtures.st_two
                     (main Fixtures.e_full Fixtures.opts_lone_user
                           Fixtures.st_two)) = []
    /\ forall c,
        ~ In (EClient c)
             (events_since Fixtures.st_two
                (main Fixtures.e_full Fixtures.opts_lone_user
                      Fixtures.st_two)).
Proof.
  apply (lone_user_name_stops_the_run
           Fixtures.e_full Fixtures.opts_lone_user Fixtures.st_two
           "me" "XX.YYYY" ["XX.ZZZZ"]); reflexivity.
Defined.

(** ** A run without date overrides (lines 158-171 and 197-203) *)

Lemma emits_for_stations (P : Event -> Prop) (e : Env) (o : Options)
    (keys : list string) :
  (forall k sta, emits P (station_run e o k sta)) ->
  emits P (for_stations e o keys).
Proof.
  intros Hrun. induction keys as [|k keys IH]; simpl; [apply emits_ret|].
  apply emits_bind; [|intros _; exact IH].
  unfold station_body. apply emits_bind; [apply emits_db_get|].
  intros sta. apply Hrun.
Qed.

(** X5.  Run with neither [--start] nor [--end], the program requests no
    waveform and writes no file, whatever the database holds: the search
    of every station starts and ends at its start date, which leaves no
    room for a day. *)
Theorem no_overrides_no_request (e : Env) (o : Options) (st : State) :
  startT o = None ->
  endT o = None ->
  days_of (events_since st (main e o st)) = []
  /\ fetches_of (events_since st (main e o st)) = []
  /\ writes_of (events_since st (main e o st)) = [].
Proof.
  intros Hs He.
  assert (emits setup_event (main e o)) as Hem.
  { intros st0. unfold main. apply emits_for_stations. clear st0.
    intros k sta. unfold station_run.
    apply emits_bind; [auto with emits|intros d].
    apply emits_bind; [destruct d; emits_auto; exact I|intros _].
    apply emits_bind; [apply emits_make_client; intros; exact I|intros client].
    destruct (out_of_range o sta); [apply emits_ret|].
    apply emits_bind; [auto with emits|intros _].
    rewrite while_days_stop; [apply emits_ret|].
    unfold search_start, search_end. rewrite Hs, He, dt_value. lia. }
  apply setup_events_only. apply emits_events. exact Hem.
Qed.

Lemma no_overrides_no_request_witness :
  days_of (events_since Fixtures.st_two
             (main Fixtures.e_full (Fixtures.opts ["H"; "P"] false None None)
                   Fixtures.st_two)) = []
  /\ fetches_of (events_since Fixtures.st_two
                   (main Fixtures.e_full
                         (Fixtures.opts ["H"; "P"] false None None)
                         Fixtures.st_two)) = []
  /\ writes_of (events_since Fixtures.st_two
                  (main Fixtures.e_full
                        (Fixtures.opts ["H"; "P"] false None None)
                        Fixtures.st_two)) = [].
Proof.
  apply (no_overrides_no_request
           Fixtures.e_full (Fixtures.opts ["H"; "P"] false None None)
           Fixtures.st_two); reflexivity.
Defined.

(** ** The files of a day (lines 398-416) *)

Lemma files_written (st : State) (ws : list (string * Trace)) :
  files (written st ws) = (rev (map fst ws) ++ files st)%list.
Proof.
  unfold written. revert st.
  induction ws as [|w ws IH]; intros st; simpl; [reflexivity|].
  rewrite IH. cbn [after_write files]. rewrite <- app_assoc. reflexivity.
Qed.

Lemma day_writes_paths (o : Options) (sta : Station) (datapath : string)
    (t1 : Z) (xZ x1 x2 xP : option Trace) :
  is_some xZ = true ->
  (PyStr.mem "H" (channels o) = true ->
   is_some x1 = true /\ is_some x2 = true) ->
  (PyStr.mem "P" (channels o) = true -> is_some xP = true) ->
  map fst (day_writes o sta datapath t1 xZ x1 x2 xP)
  = written_files o sta datapath t1.
Proof.
  intros HZ HH HP. unfold day_writes, written_files.
  destruct xZ; [|discriminate].
  destruct (PyStr.mem "H" (channels o)), (PyStr.mem "P" (channels o)).
  - destruct (HH eq_refl) as [H1 H2]. specialize (HP eq_refl).
    destruct x1, x2, xP; try discriminate. reflexivity.
  - destruct (HH eq_refl) as [H1 H2].
    destruct x1, x2; try discriminate. reflexivity.
  - specialize (HP eq_refl). destruct xP; try discriminate. reflexivity.
  - reflexivity.
Qed.

(** What a day that is not skipped leaves on disk. *)
Lemma day_outcome_files (e : Env) (o : Options) (client : Client)
    (stkey : string) (sta : Station) (datapath : string) (loc : string)
    (t1 t2 : Z) (st : State) :
  match day_outcome e o client stkey sta datapath loc t1 t2 st with
  | Ok (s, _, _) st' =>
      if match s with WRITTEN => true | _ => false end then
        writes_of
          (events_since st
             (day_outcome e o client stkey sta datapath loc t1 t2 st))
        = written_files o sta datapath t1
        /\ files st'
           = (rev (written_files o sta datapath t1) ++ files st)%list
      else
        writes_of
          (events_since st
             (day_outcome e o client stkey sta datapath loc t1 t2 st)) = []
        /\ files st' = files st
  | Raised _ st' =>
      writes_of
        (events_since st
           (day_outcome e o client stkey sta datapath loc t1 t2 st)) = []
      /\ files st' = files st
  | OutOfFuel => False
  end.
Proof.
  rewrite day_outcome_events.
  cbn [writes_of flat_map app]. fold writes_of.
  rewrite writes_of_app, writes_of_fetch_events, writes_of_write_events.
  cbn [app].
  unfold day_outcome, window_outcome, day_written.
  destruct (fetched e o client sta t1 t2) as [[sth stp]|]; [|split; reflexivity].
  destruct (all_present (required_traces o sth stp)) eqn:Hall; cbn [andb];
    [|split; reflexivity].
  destruct (count_error (required_traces o sth stp) (rate_trace o sth stp))
    as [ex|] eqn:Hce;
    [rewrite (count_error_rejects _ _ _ Hce); split; reflexivity|].
  destruct (accepts (required_traces o sth stp) (rate_trace o sth stp));
    [|split; reflexivity].
  destruct (preprocessed e o sth stp) as [[sth' stp']|] eqn:Hpre;
    [|split; reflexivity].
  cbn iota.
  destruct (all_present_written o sth stp Hall) as (HZ & HH & HP).
  destruct (preprocessed_present e o sth stp sth' stp' Hpre) as (Hs & Hp).
  assert (map fst (day_writes o sta datapath t1 (first_of "Z" sth')
                     (first_of "1" sth') (first_of "2" sth')
                     (first_pressure stp'))
          = written_files o sta datapath t1) as Hpaths.
  { apply day_writes_paths.
    - rewrite Hs. exact HZ.
    - intros Hm. rewrite !Hs. apply HH. exact Hm.
    - intros Hm. rewrite Hp by exact Hm. apply HP. exact Hm. }
  split; [exact Hpaths|].
  rewrite files_written, Hpaths. reflexivity.
Qed.

Lemma written_day_files (e : Env) (o : Options) (client : Client)
    (stkey : string) (sta : Station) (datapath : string) (t1 t2 a b : Z)
    (st st' : State) :
  day_body e o client stkey sta datapath t1 t2 st = Ok (WRITTEN, a, b) st' ->
  files st' = (rev (written_files o sta datapath t1) ++ files st)%list.
Proof.
  intros Hday.
  destruct (all_exist st (expected_files o sta datapath t1) && negb (ovr o))
    eqn:Hskip.
  { rewrite day_body_skipped in Hday by exact Hskip. discriminate. }
  destruct (head (location sta)) as [loc|] eqn:Hloc.
  2:{ rewrite day_body_no_location in Hday by assumption. discriminate. }
  rewrite (day_body_run e o client stkey sta datapath loc t1 t2 st Hskip Hloc)
    in Hday.
  pose proof (day_outcome_files e o client stkey sta datapath loc t1 t2 st)
    as H.
  rewrite Hday in H. cbn iota in H. apply H.
Qed.


(** X6.  A day that was written is not downloaded again.  When "H" or
    "P" is selected and overwriting is off, a day that ended as WRITTEN
    has put on disk every file the existence check looks for: as long as
    these files stay, the same day is skipped, by this run or a later
    one, before any request. *)
Theorem written_day_is_skipped_next_time
    (e : Env) (o : Options) (client : Client) (stkey : string)
    (sta : Station) (datapath : string) (t1 t2 a b : Z) (st st' : State) :
  day_body e o client stkey sta datapath t1 t2 st = Ok (WRITTEN, a, b) st' ->
  PyStr.mem "H" (channels o) = true \/ PyStr.mem "P" (channels o) = true ->
  ovr o = false ->
  forall e' client' t2' st'',
    incl (files st') (files st'') ->
    day_body e' o client' stkey sta datapath t1 t2' st''
    = Ok (SKIPPED_EXISTING, t1 + 86400, t2' + 86400)
         (log_event (EDay stkey t1 t2') st'')
    /\ fetches_of
         (events_since st''
            (day_body e' o client' stkey sta datapath t1 t2' st'')) = [].
Proof.
  intros Hday Hsel Hovr e' client' t2' st'' Hincl.
  pose proof (written_day_files e o client stkey sta datapath t1 t2 a b
                st st' Hday) as Hfiles.
  assert (all_exist st'' (expected_files o sta datapath t1) = true) as Hex.
  { unfold all_exist. apply forallb_forall. intros p Hp.
    apply mem_In, Hincl. rewrite Hfiles. apply in_or_app. left.
    apply -> in_rev. revert Hp. unfold expected_files, written_files.
    destruct (PyStr.mem "P" (channels o)), (PyStr.mem "H" (channels o));
      cbn [negb app In]; try tauto.
    destruct Hsel; discriminate. }
  assert (day_body e' o client' stkey sta datapath t1 t2' st''
          = Ok (SKIPPED_EXISTING, t1 + 86400, t2' + 86400)
               (log_event (EDay stkey t1 t2') st'')) as Hrun.
  { apply day_body_skipped. rewrite Hex, Hovr. reflexivity. }
  split; [exact Hrun|]. rewrite Hrun.
  unfold events_since, log_event. cbn [log]. rewrite skipn_log. reflexivity.
Qed.

Lemma written_day_is_skipped_next_time_witness :
  exists st',
    day_body Fixtures.e_full (Fixtures.o_day ["P"] false) Fixtures.client0
             "XX.YYYY" Fixtures.sta0n Fixtures.datapath0 Fixtures.day069
             (Fixtures.day069 + 86400) Fixtures.st0
    = Ok (WRITTEN, Fixtures.day069 + 86400, Fixtures.day069 + 2 * 86400) st'
    /\ day_body (Fixtures.env None None) (Fixtures.o_day ["P"] false)
                Fixtures.client0 "XX.YYYY" Fixtures.sta0n Fixtures.datapath0
                Fixtures.day069 (Fixtures.day069 + 86400) st'
       = Ok (SKIPPED_EXISTING, Fixtures.day069 + 86400,
             Fixtures.day069 + 86400 + 86400)
            (log_event (EDay "XX.YYYY" Fixtures.day069
                             (Fixtures.day069 + 86400)) st').
Proof.
  eexists. split; [vm_compute; reflexivity|].
  eapply (written_day_is_skipped_next_time
            Fixtures.e_full (Fixtures.o_day ["P"] false) Fixtures.client0
            "XX.YYYY" Fixtures.sta0n Fixtures.datapath0 Fixtures.day069
            (Fixtures.day069 + 86400) (Fixtures.day069 + 86400)
            (Fixtures.day069 + 2 * 86400) Fixtures.st0).
  - vm_compute. reflexivity.
  - right. reflexivity.
  - reflexivity.
  - apply incl_refl.
Defined.

(** With neither "H" nor "P" selected the three seismic components are
    requested and checked, the vertical one alone is written, and the day
    is downloaded again on the next run: the existence check looks for the
    horizontal files too. *)
Example neither_channel_set_is_downloaded_again :
  exists st',
    day_body Fixtures.e_full (Fixtures.o_day [] false) Fixtures.client0
             "XX.YYYY" Fixtures.sta0n Fixtures.datapath0 Fixtures.day069
             (Fixtures.day069 + 86400) Fixtures.st0
    = Ok (WRITTEN, 1331337600, 1331424000) st'
    /\ files st' = ["DATA/XX.YYYY/2012.069..BHZ.SAC"]
    /\ map rq_channel
         (fetches_of
            (events_since st'
               (day_body Fixtures.e_full (Fixtures.o_day [] false)
                         Fixtures.client0 "XX.YYYY" Fixtures.sta0n
                         Fixtures.datapath0 Fixtures.day069
                         (Fixtures.day069 + 86400) st')))
       = ["BH1,BH2,BHZ"].
Proof.
  eexists. split; [vm_compute; reflexivity|]. split; reflexivity.
Qed.

(** ** The requests of a day (lines 231-238, 277-300, 332-355) *)

(** X8.  The waveform requests of a day, in order: none when the day is
    skipped; otherwise one for the station's first location code and the
    seismic channels of the selection, over the day window and with the
    response attached; and, when "P" is selected, a second one for "??H",
    made only if the first was answered. *)
Theorem day_requests
    (e : Env) (o : Options) (client : Client) (stkey : string)
    (sta : Station) (datapath : string) (t1 t2 : Z) (st : State) :
  fetches_of
    (events_since st (day_body e o client stkey sta datapath t1 t2 st))
  = if all_exist st (expected_files o sta datapath t1) && negb (ovr o) then []
    else
      match head (location sta) with
      | None => []
      | Some loc =>
          let first :=
            {| rq_network := network sta; rq_station := station sta;
               rq_location := loc;
               rq_channel :=
                 if PyStr.mem "P" (channels o)
                    && negb (PyStr.mem "H" (channels o))
                 then PyStr.upper (channel sta) ++ "Z"
                 else PyStr.upper (channel sta) ++ "1,"
                      ++ PyStr.upper (channel sta) ++ "2,"
                      ++ PyStr.upper (channel sta) ++ "Z";
               rq_starttime := t1; rq_endtime := t2;
               rq_attach_response := true |} in
          first
          :: (if PyStr.mem "P" (channels o) then
                match get_waveforms e client first with
                | Some _ =>
                    [{| rq_network := network sta; rq_station := station sta;
                        rq_location := loc; rq_channel := "??H";
                        rq_starttime := t1; rq_endtime := t2;
                        rq_attach_response := true |}]
                | None => []
                end
              else [])
      end.
Proof.
  destruct (all_exist st (expected_files o sta datapath t1) && negb (ovr o))
    eqn:Hskip.
  { rewrite day_body_skipped by exact Hskip.
    unfold events_since, log_event. cbn [log]. rewrite skipn_log.
    reflexivity. }
  destruct (head (location sta)) as [loc|] eqn:Hloc.
  2:{ rewrite day_body_no_location by assumption.
      unfold events_since, log_event. cbn [log]. rewrite skipn_log.
      reflexivity. }
  rewrite (day_body_run e o client stkey sta datapath loc t1 t2 st Hskip Hloc).
  rewrite day_outcome_events.
  cbn [fetches_of flat_map app]. fold fetches_of.
  rewrite fetches_of_app, fetches_of_write_events, app_nil_r.
  unfold fetch_events, first_channels, request, seismic_channels,
    vertical_channel.
  destruct (PyStr.mem "P" (channels o)), (PyStr.mem "H" (channels o));
    cbn [negb andb]; cbv zeta;
    try reflexivity;
    destruct (get_waveforms e client _); reflexivity.
Qed.

(** ** A station out of range (lines 145-171) *)

(** X10.  A station whose requested range lies outside its lifetime is
    skipped only after it was set up: its data directory is created if it
    was missing, and a client is built for the server of the options,
    anonymous without credentials and else with the first two entries of
    the credentials; then the run of the station ends normally, with the
    database and the files as they were. *)
Theorem skipped_station_is_set_up
    (e : Env) (o : Options) (stkey : string) (sta : Station) (st : State) :
  out_of_range o sta = true ->
  List.length (UserAuth o) <> 1%nat ->
  exists c st',
    station_run e o stkey sta st = Ok tt st'
    /\ events_since st (station_run e o stkey sta st)
       = ((if PyStr.mem ("DATA/" ++ stkey ++ "/") (dirs st) then []
           else [EMakedirs ("DATA/" ++ stkey ++ "/")%string])
          ++ [EClient c])%list
    /\ In ("DATA/" ++ stkey ++ "/")%string (dirs st')
    /\ db st' = db st
    /\ files st' = files st
    /\ cl_server c = Server o
    /\ cl_user c = nth_error (UserAuth o) 0
    /\ cl_password c = nth_error (UserAuth o) 1.
Proof.
  intros Hout Hua.
  assert (exists c,
             forall s,
               make_client o s
               = Ok c {| db := db s; dirs := dirs s; files := files s;
                         log := (log s ++ [EClient c])%list |}
               /\ cl_server c = Server o
               /\ cl_user c = nth_error (UserAuth o) 0
               /\ cl_password c = nth_error (UserAuth o) 1) as (c & Hc).
  { unfold make_client. destruct (UserAuth o) as [|u [|p l]].
    - eexists. intros s. split; [reflexivity|]. repeat split.
    - exfalso. apply Hua. reflexivity.
    - eexists. intros s. split; [reflexivity|]. repeat split. }
  exists c.
  assert (station_run e o stkey sta st
          = Ok tt
              (if PyStr.mem ("DATA/" ++ stkey ++ "/") (dirs st) then
                 {| db := db st; dirs := dirs st; files := files st;
                    log := (log st ++ [EClient c])%list |}
               else
                 {| db := db st; dirs := ("DATA/" ++ stkey ++ "/") :: dirs st;
                    files := files st;
                    log := (log st
                            ++ [EMakedirs ("DATA/" ++ stkey ++ "/")%string;
                                EClient c])%list |})) as Hrun.
  { unfold station_run. unfold bind at 1. cbn [isdir]. unfold bind at 1.
    destruct (PyStr.mem ("DATA/" ++ stkey ++ "/") (dirs st)) eqn:Hdir;
      cbn [negb ret makedirs]; unfold bind at 1;
      match goal with
      | |- context [make_client o ?s] => destruct (Hc s) as (-> & _)
      end;
      rewrite Hout; cbn [ret db dirs files log]; [reflexivity|].
    rewrite <- app_assoc. reflexivity. }
  rewrite Hrun. eexists. split; [reflexivity|].
  destruct (Hc st) as (_ & Hserver & Huser & Hpass).
  unfold events_since.
  destruct (PyStr.mem ("DATA/" ++ stkey ++ "/") (dirs st)) eqn:Hdir;
    cbn [db dirs files log]; rewrite skipn_log;
    repeat split; auto.
  - apply mem_In. exact Hdir.
  - left. reflexivity.
Qed.

Lemma skipped_station_is_set_up_witness :
  exists c st',
    station_run Fixtures.e_full Fixtures.o_far "XX.YYYY" Fixtures.sta0
                Fixtures.st0 = Ok tt st'
    /\ events_since Fixtures.st0
         (station_run Fixtures.e_full Fixtures.o_far "XX.YYYY" Fixtures.sta0
                      Fixtures.st0)
       = ((if PyStr.mem ("DATA/" ++ "XX.YYYY" ++ "/") (dirs Fixtures.st0)
           then []
           else [EMakedirs ("DATA/" ++ "XX.YYYY" ++ "/")%string])
          ++ [EClient c])%list
    /\ In ("DATA/" ++ "XX.YYYY" ++ "/")%string (dirs st')
    /\ db st' = db Fixtures.st0
    /\ files st' = files Fixtures.st0
    /\ cl_server c = Server Fixtures.o_far
    /\ cl_user c = nth_error (UserAuth Fixtures.o_far) 0
    /\ cl_password c = nth_error (UserAuth Fixtures.o_far) 1.
Proof.
  apply (skipped_station_is_set_up
           Fixtures.e_full Fixtures.o_far "XX.YYYY" Fixtures.sta0
           Fixtures.st0).
  - vm_compute. reflexivity.
  - simpl. discriminate.
Defined.

(** ** The names of the files of a station *)

Section WriteNames.

Variable P : Event -> Prop.
Variables (e : Env) (o : Options) (client : Client) (stkey : string).
Variables (sta : Station) (datapath : string).
Hypothesis P_day : forall k a b, P (EDay k a b).
Hypothesis P_fetch : forall rq, P (EFetch client rq).
Hypothesis P_write :
  forall t1 tr,
    P (EWrite (fileZ datapath sta t1) tr)
    /\ P (EWrite (file1 datapath sta t1) tr)
    /\ P (EWrite (file2 datapath sta t1) tr)
    /\ P (EWrite (fileP datapath sta t1) tr).

Lemma emits_write_traces_named (t1 : Z) (sth : Stream) (stp : option Stream) :
  emits P (write_traces o sta datapath t1 sth stp).
Proof.
  unfold write_traces. emits_auto; apply P_write.
Qed.

Lemma emits_day_body_named (t1 t2 : Z) :
  emits P (day_body e o client stkey sta datapath t1 t2).
Proof.
  unfold day_body.
  apply emits_bind; [apply emits_emit, P_day|intros _].
  apply emits_bind;
    [apply emits_acquire; intros loc chans _; apply P_fetch|].
  intros [s a b|sth stp]; [apply emits_ret|].
  apply emits_bind; [apply emits_preprocess|intros [sth' stp']].
  apply emits_bind; [apply emits_write_traces_named|intros _].
  apply emits_ret.
Qed.

Lemma emits_while_days_named (fuel : nat) (tend : Z) :
  forall t1 t2,
    emits P (while_days fuel e o client stkey sta datapath tend t1 t2).
Proof.
  induction fuel as [|n IH]; intros t1 t2; simpl.
  - destruct (t2 <=? tend); [intros st; exact I|apply emits_ret].
  - destruct (t2 <=? tend); [|apply emits_ret].
    apply emits_bind; [apply emits_day_body_named|].
    intros [[s a] b]. apply IH.
Qed.

End WriteNames.

(** X9.  Every file that the run of a station writes is named
    [DATA/<key>/YYYY.DDD..<ch><c>.SAC], for the day of some timestamp, the
    channel code of the station and a component [c] among Z, 1, 2 and H:
    the program writes nowhere but in the directory of the station. *)
Theorem station_files_are_named
    (e : Env) (o : Options) (stkey : string) (sta : Station) (st : State)
    (p : string) (tr : Trace) :
  In (EWrite p tr) (events_since st (station_run e o stkey sta st)) ->
  exists t c,
    In c ["Z"; "1"; "2"; "H"]
    /\ p = ("DATA/" ++ stkey ++ "/"
            ++ PyStr.zfill 4 (PyStr.str (UTCDateTime.year t)) ++ "."
            ++ PyStr.zfill 3 (PyStr.str (UTCDateTime.julday t)) ++ ".."
            ++ channel sta ++ c ++ ".SAC")%string.
Proof.
  intros Hin.
  pose (P := fun ev =>
               match ev with
               | EWrite p' _ =>
                   exists t c,
                     In c ["Z"; "1"; "2"; "H"]
                     /\ p' = sac_name stkey sta t c
               | _ => True
               end).
  assert (emits P (station_run e o stkey sta)) as Hem.
  { unfold station_run.
    apply emits_bind; [auto with emits|intros d].
    apply emits_bind; [destruct d; emits_auto; exact I|intros _].
    apply emits_bind; [apply emits_make_client; intros; exact I|intros client].
    destruct (out_of_range o sta); [apply emits_ret|].
    apply emits_bind; [auto with emits|intros _].
    apply emits_while_days_named; try (intros; exact I).
    intros t1 tr'.
    destruct (file_names stkey
                (with_location sta (normalize_location (location sta))) t1)
      as (-> & -> & -> & ->).
    repeat split; exists t1; eexists; (split; [|reflexivity]);
      simpl; auto. }
  apply (emits_events _ _ st) in Hem.
  rewrite Forall_forall in Hem. exact (Hem _ Hin).
Qed.

Lemma station_files_are_named_witness :
  exists t c,
    In c ["Z"; "1"; "2"; "H"]
    /\ "DATA/XX.YYYY/2012.069..BHH.SAC"
       = ("DATA/" ++ "XX.YYYY" ++ "/"
          ++ PyStr.zfill 4 (PyStr.str (UTCDateTime.year t)) ++ "."
          ++ PyStr.zfill 3 (PyStr.str (UTCDateTime.julday t)) ++ ".."
          ++ channel Fixtures.sta0 ++ c ++ ".SAC")%string.
Proof.
  apply (station_files_are_named
           Fixtures.e_full (Fixtures.o_day ["H"; "P"] false) "XX.YYYY"
           Fixtures.sta0 Fixtures.st0 "DATA/XX.YYYY/2012.069..BHH.SAC"
           (update_stats
              (set_rate (Fixtures.trace "BDH" 10) 5%float)
              (latitude Fixtures.sta0) (longitude Fixtures.sta0)
              (elevation Fixtures.sta0) "P")).
  vm_compute. do 8 right. left. reflexivity.
Defined.

(** ** The window of every request (lines 197-203 and 237-238) *)

Lemma emits_bind_with {A B} (P : Event -> Prop) (R : A -> Prop) (m : M A)
    (f : A -> M B) :
  emits P m -> returns R m -> (forall a, R a -> emits P (f a)) ->
  emits P (bind m f).
Proof.
  intros Hm Hr Hf st. unfold bind. specialize (Hm st). specialize (Hr st).
  destruct (m st) as [a st'|ex st'|]; auto.
  destruct Hm as (evs & Hlog & Hall).
  specialize (Hf a Hr st').
  destruct (f a st') as [b st''|ex st''|]; auto;
    destruct Hf as (evs' & Hlog' & Hall');
    exists (evs ++ evs')%list;
    (split; [rewrite Hlog', Hlog, app_assoc; reflexivity
            | apply Forall_app; auto]).
Qed.

Lemma emits_while_days_windows (P : Event -> Prop) (e : Env) (o : Options)
    (client : Client) (stkey : string) (sta : Station) (datapath : string)
    (tstart tend : Z) :
  (forall k a b, P (EDay k a b)) ->
  (forall p tr, P (EWrite p tr)) ->
  (forall t1 t2,
      tstart <= t1 -> t2 = t1 + dt -> t2 <= tend ->
      fetches_in P client sta t1 t2) ->
  forall fuel t1 t2,
    tstart <= t1 -> t2 = t1 + dt ->
    emits P (while_days fuel e o client stkey sta datapath tend t1 t2).
Proof.
  intros HD HW HF. induction fuel as [|n IH]; intros t1 t2 Ht1 Ht2; simpl.
  - destruct (t2 <=? tend); [intros st; exact I|apply emits_ret].
  - destruct (t2 <=? tend) eqn:Hle; [|apply emits_ret].
    apply Z.leb_le in Hle.
    apply emits_bind_with
      with (R := fun r => snd (fst r) = t1 + dt /\ snd r = t2 + dt).
    + apply emits_day_body; auto.
    + apply day_body_advances.
    + intros [[s a] b] [Ha Hb]. cbn [fst snd] in Ha, Hb. subst a b.
      apply IH; [rewrite dt_value; lia|lia].
Qed.

(** X12.  Every waveform request made for a station asks for a window of
    24 hours that lies inside the search range of the station, from its
    search start on.  As the search ends at the station's START date when
    [--end] is not given, every window then requested ends at or before
    the day the station started to record. *)
Theorem station_requests_in_range
    (e : Env) (o : Options) (stkey : string) (sta : Station) (st : State)
    (c : Client) (rq : Request) :
  In (EFetch c rq) (events_since st (station_run e o stkey sta st)) ->
  search_start o sta <= rq_starttime rq
  /\ rq_endtime rq = rq_starttime rq + 86400
  /\ rq_endtime rq <= search_end o sta
  /\ rq_attach_response rq = true
  /\ (endT o = None -> rq_endtime rq <= startdate sta).
Proof.
  intros Hin.
  pose (P := fun ev =>
               match ev with
               | EFetch _ rq' =>
                   search_start o sta <= rq_starttime rq'
                   /\ rq_endtime rq' = rq_starttime rq' + 86400
                   /\ rq_endtime rq' <= search_end o sta
                   /\ rq_attach_response rq' = true
               | _ => True
               end).
  assert (emits P (station_run e o stkey sta)) as Hem.
  { unfold station_run.
    apply emits_bind; [auto with emits|intros d].
    apply emits_bind; [destruct d; emits_auto; exact I|intros _].
    apply emits_bind; [apply emits_make_client; intros; exact I|intros client].
    destruct (out_of_range o sta); [apply emits_ret|].
    apply emits_bind; [auto with emits|intros _].
    apply emits_while_days_windows with (tstart := search_start o sta);
      try (intros; exact I); [|lia|reflexivity].
    intros t1 t2 Ht1 Ht2 Hle loc chans _. simpl.
    rewrite dt_value in Ht2. repeat split; auto; lia. }
  apply (emits_events _ _ st) in Hem.
  rewrite Forall_forall in Hem. specialize (Hem _ Hin). simpl in Hem.
  destruct Hem as (H1 & H2 & H3 & H4). repeat split; auto.
  intros Hend. unfold search_end in H3. rewrite Hend in H3. exact H3.
Qed.

Lemma station_requests_in_range_witness :
  search_start (Fixtures.o_day ["H"; "P"] false) Fixtures.sta0
  <= Fixtures.day069
  /\ Fixtures.day069 + 86400 = Fixtures.day069 + 86400
  /\ Fixtures.day069 + 86400
     <= search_end (Fixtures.o_day ["H"; "P"] false) Fixtures.sta0
  /\ true = true
  /\ (endT (Fixtures.o_day ["H"; "P"] false) = None ->
      Fixtures.day069 + 86400 <= startdate Fixtures.sta0).
Proof.
  apply (station_requests_in_range
           Fixtures.e_full (Fixtures.o_day ["H"; "P"] false)
           "XX.YYYY" Fixtures.sta0 Fixtures.st0 Fixtures.client0
           (request Fixtures.sta0 "--" "??H" Fixtures.day069
                    (Fixtures.day069 + 86400))).
  vm_compute. do 4 right. left. reflexivity.
Defined.

(** ** The station dictionary after a station (lines 174-178) *)

Lemma while_days_keeps_db (fuel : nat) (e : Env) (o : Options)
    (client : Client) (stkey : string) (sta : Station) (datapath : string)
    (tend t1 t2 : Z) :
  preserves (fun a b => db b = db a)
            (while_days fuel e o client stkey sta datapath tend t1 t2).
Proof.
  apply preserves_while_days; cbn [db]; intros; congruence.
Qed.

(** X11.  The run of a station that is in range, with credentials that
    let the client be built, leaves in the dictionary the record of the
    station with its location list normalized, and every other record as
    it was; this holds whether the run ends normally or is stopped by an
    exception of one of its days. *)
Theorem station_record_is_normalized
    (e : Env) (o : Options) (stkey : string) (sta : Station) (st : State) :
  out_of_range o sta = false ->
  List.length (UserAuth o) <> 1%nat ->
  match station_run e o stkey sta st with
  | Ok _ st' | Raised _ st' =>
      db st'
      = map (fun kv =>
               if String.eqb (fst kv) stkey
               then (fst kv,
                     with_location (snd kv)
                                   (normalize_location (location sta)))
               else kv) (db st)
  | OutOfFuel => False
  end.
Proof.
  intros Hout Hua.
  assert (exists c st_b,
             station_setup o stkey st = Ok c st_b /\ db st_b = db st)
    as (c & st_b & Hsetup & Hdb).
  { unfold station_setup, bind, isdir, make_client.
    destruct (PyStr.mem ("DATA/" ++ stkey ++ "/") (dirs st));
      cbn [negb ret makedirs];
      destruct (UserAuth o) as [|u [|p l]];
      try (exfalso; apply Hua; reflexivity);
      do 2 eexists; (split; [reflexivity|reflexivity]). }
  pose proof (station_run_total e o stkey sta st) as Htot.
  rewrite (station_run_loop e o stkey sta st st_b c Hsetup Hout) in *.
  match goal with
  | |- match while_days ?f _ _ _ _ ?s ?d ?te ?a ?b ?s0 with _ => _ end =>
      pose proof (while_days_keeps_db f e o c stkey s d te a b s0) as Hkeep
  end.
  cbv beta in Hkeep.
  destruct (while_days _ e o c stkey _ _ _ _ _ _) as [u st'|ex st'|];
    [| |contradiction]; rewrite Hkeep; cbn [db]; rewrite Hdb; reflexivity.
Qed.

Lemma station_record_is_normalized_witness :
  match station_run Fixtures.e_full (Fixtures.o_day ["H"; "P"] false)
                    "XX.YYYY" Fixtures.sta0 Fixtures.st_two with
  | Ok _ st' | Raised _ st' =>
      db st'
      = map (fun kv =>
               if String.eqb (fst kv) "XX.YYYY"
               then (fst kv,
                     with_location (snd kv)
                       (normalize_location (location Fixtures.sta0)))
               else kv) (db Fixtures.st_two)
  | OutOfFuel => False
  end.
Proof.
  apply (station_record_is_normalized
           Fixtures.e_full (Fixtures.o_day ["H"; "P"] false)
           "XX.YYYY" Fixtures.sta0 Fixtures.st_two).
  - vm_compute. reflexivity.
  - simpl. discriminate.
Defined.

(** ** The contents of the files of a day (lines 378-416) *)








